(** * powsybl-network-viewer: the network-area-diagram geometry engine

    A shallow embedding of the TypeScript sources
    [diagram-utils.ts], [metadata-utils.ts], [svg-parameters.ts],
    [half-edge-utils.ts] and of the bend-point bookkeeping of
    [network-area-diagram-viewer.ts], with the properties stated about
    them in the specification, and with properties of the other
    functions of these files and of [svg-utils.ts].

    JavaScript numbers are kept abstract behind the class [Number]; the
    code is translated once, over any instance, and is then read at two
    instances:
    - [float]: IEEE 754 binary64, the numbers JavaScript really computes
      with (executable: the examples are evaluated on it);
    - [ideal]: exact real arithmetic extended with NaN, on which the
      metric properties are proved. *)

From Stdlib Require Import PrimFloat Uint63 FloatOps SpecFloat FloatAxioms FloatLemmas.
From Stdlib Require Import ZArith List String Ascii Bool Lia Reals Lra Psatz Sorted.
From stdpp Require Import gmap strings list fin_maps.
Import ListNotations.

(* ================================================================== *)
(** * JavaScript numbers *)
(* ================================================================== *)

(** The operations on numbers that the translated functions use.
    [of_Z] reads an integer literal (or an integer-valued field such as
    a bus index); [NaN] is what arithmetic on [undefined] yields. *)
Class Number (num : Type) : Type := {
  of_Z : Z -> num;
  NaN : num;
  MAX_VALUE : num;
  Math_PI : num;
  add : num -> num -> num;
  sub : num -> num -> num;
  mul : num -> num -> num;
  div : num -> num -> num;
  neg : num -> num;
  lt : num -> num -> bool;
  Math_abs : num -> num;
  Math_hypot : num -> num -> num;
  Math_round : num -> num
}.

Declare Scope js_scope.
Delimit Scope js_scope with js.
Notation "a + b" := (add a b) : js_scope.
Notation "a - b" := (sub a b) : js_scope.
Notation "a * b" := (mul a b) : js_scope.
Notation "a / b" := (div a b) : js_scope.
Notation "- a" := (neg a) : js_scope.
Notation "a <? b" := (lt a b) : js_scope.
Notation "a >? b" := (lt b a) : js_scope.
Notation "# z" := (of_Z z%Z) (at level 1, format "# z") : js_scope.

(** The transcendental functions and the number formatting of the
    JavaScript runtime: ECMAScript leaves their results
    implementation-approximated, so they stay abstract. *)
Class JsMath (num : Type) : Type := {
  Math_cos : num -> num;
  Math_sin : num -> num;
  Math_atan2 : num -> num -> num;
  toFixed : num -> nat -> string
}.

(** ** Binary64 *)

Module Float64.

(** The number that an integer literal or an integer of a JSON document
    is read as: the nearest binary64 number, ties to even, an infinity
    from [2 ^ 1024 - 2 ^ 970] on. *)
Definition of_Z (z : Z) : float :=
  SF2Prim (binary_normalize prec emax z 0 false).

(** [Math.round]: the nearest integer, ties towards +Infinity. *)
Definition round (f : float) : float :=
  match Prim2SF f with
  | S754_finite s m e =>
      if (0 <=? e)%Z then f
      else
        let k := (- e)%Z in
        let twice := if s then (- 2 * Zpos m)%Z else (2 * Zpos m)%Z in
        let n := Z.shiftr (twice + 2 ^ k) (k + 1) in
        if (n =? 0)%Z then (if s then (-0)%float else 0%float) else of_Z n
  | _ => f
  end.

(** [Math.hypot] of two arguments. ECMAScript leaves its result
    implementation-approximated; this is the algorithm of V8, the
    engine of Node.js (on which the test suite runs) and of Chromium:
    the absolute values are divided by the greatest of them, their
    squares are added by Kahan summation, and the square root of the
    sum is multiplied by the greatest value. An infinite argument gives
    [Infinity], before a NaN argument gives NaN. *)
Definition hypot (a b : float) : float :=
  let arguments := [a; b] in
  let absValues :=
    List.map (fun value => if PrimFloat.is_nan value then 0 else PrimFloat.abs value)%float
             arguments in
  let oneArgIsNaN := List.existsb PrimFloat.is_nan arguments in
  let max :=
    fold_left (fun max absValue => if PrimFloat.ltb max absValue then absValue else max)
              absValues 0%float in
  if PrimFloat.eqb max PrimFloat.infinity then PrimFloat.infinity
  else if oneArgIsNaN then PrimFloat.nan
  else if PrimFloat.eqb max 0 then 0%float
  else
    let kahan :=
      fold_left (fun (state : float * float) absValue =>
                   let sum := state.1 in
                   let compensation := state.2 in
                   let n := (absValue / max)%float in
                   let summand := (n * n - compensation)%float in
                   let preliminary := (sum + summand)%float in
                   (preliminary, (preliminary - sum - summand)%float))
                absValues (0%float, 0%float) in
    (PrimFloat.sqrt kahan.1 * max)%float.

Definition PI : float := 0x1.921fb54442d18p+1%float.

Definition MAX_VALUE : float := 0x1.fffffffffffffp+1023%float.

End Float64.

#[export] Instance float_Number : Number float := {|
  of_Z := Float64.of_Z;
  NaN := PrimFloat.nan;
  MAX_VALUE := Float64.MAX_VALUE;
  Math_PI := Float64.PI;
  add := PrimFloat.add;
  sub := PrimFloat.sub;
  mul := PrimFloat.mul;
  div := PrimFloat.div;
  neg := PrimFloat.opp;
  lt := PrimFloat.ltb;
  Math_abs := PrimFloat.abs;
  Math_hypot := Float64.hypot;
  Math_round := Float64.round
|}.

(** ** Exact arithmetic with NaN *)

(** A real number, or NaN. A quotient by zero is NaN (the model has no
    infinities), and NaN is absorbing and compares false with
    everything, as in IEEE 754. *)
Inductive ideal : Type :=
| Fin (r : R)
| NotANumber.

Module Ideal.

Definition lift2 (f : R -> R -> R) (a b : ideal) : ideal :=
  match a, b with
  | Fin x, Fin y => Fin (f x y)
  | _, _ => NotANumber
  end.

Definition lift1 (f : R -> R) (a : ideal) : ideal :=
  match a with
  | Fin x => Fin (f x)
  | NotANumber => NotANumber
  end.

Definition div (a b : ideal) : ideal :=
  match a, b with
  | Fin x, Fin y => if Req_dec_T y 0%R then NotANumber else Fin (x / y)%R
  | _, _ => NotANumber
  end.

Definition lt (a b : ideal) : bool :=
  match a, b with
  | Fin x, Fin y => if Rlt_dec x y then true else false
  | _, _ => false
  end.

Definition hypot (x y : R) : R := sqrt (x * x + y * y)%R.

Definition round (x : R) : R := IZR (Zfloor (x + / 2)%R).

Definition MAX_VALUE : R := IZR (2 ^ 1024 - 2 ^ 971).

End Ideal.

#[export] Instance ideal_Number : Number ideal := {|
  of_Z := fun z => Fin (IZR z);
  NaN := NotANumber;
  MAX_VALUE := Fin Ideal.MAX_VALUE;
  Math_PI := Fin PI;
  add := Ideal.lift2 Rplus;
  sub := Ideal.lift2 Rminus;
  mul := Ideal.lift2 Rmult;
  div := Ideal.div;
  neg := Ideal.lift1 Ropp;
  lt := Ideal.lt;
  Math_abs := Ideal.lift1 Rabs;
  Math_hypot := Ideal.lift2 Ideal.hypot;
  Math_round := Ideal.lift1 Ideal.round
|}.

(* ================================================================== *)
(** * Data model ([diagram-metadata.ts], [diagram-types.ts]) *)
(* ================================================================== *)

(** How a call completes: it returns a value, it throws (a [TypeError],
    from reading a property of [undefined]), or it returns a value that
    is outside its declared TypeScript type (an array of points holding
    [undefined]), which the typed records below cannot hold. *)
Inductive completion (A : Type) : Type :=
| Normal (a : A)
| Throw
| OutOfType.
Arguments Normal {A} a.
Arguments Throw {A}.
Arguments OutOfType {A}.

#[export] Instance completion_ret : MRet completion := fun A a => Normal a.

#[export] Instance completion_bind : MBind completion := fun A B f c =>
  match c with
  | Normal a => f a
  | Throw => Throw
  | OutOfType => OutOfType
  end.

(** [Point] of svg.js and [PointMetadata]: both are [{x, y}]. *)
Record Point (num : Type) : Type := mkPoint { px : num; py : num }.
Arguments mkPoint {num} px py.
Arguments px {num} _.
Arguments py {num} _.

(** A field the JSON document may leave out is an [option]. *)
Record DiagramPaddingMetadata (num : Type) : Type := {
  pad_left : option num;
  pad_top : option num;
  pad_right : option num;
  pad_bottom : option num
}.
Arguments pad_left {num} _.
Arguments pad_top {num} _.
Arguments pad_right {num} _.
Arguments pad_bottom {num} _.

(** The fields of [SvgParametersMetadata] that [SvgParameters] reads. *)
Record SvgParametersMetadata (num : Type) : Type := {
  diagramPadding : option (DiagramPaddingMetadata num);
  voltageLevelCircleRadius : option num;
  interAnnulusSpace : option num;
  transformerCircleRadius : option num;
  edgesForkAperture : option num;
  edgesForkLength : option num;
  arrowShift : option num;
  arrowLabelShift : option num;
  converterStationWidth : option num;
  nodeHollowWidth : option num;
  unknownBusNodeExtraRadius : option num;
  fictitiousVoltageLevelCircleRadius : option num;
  powerValuePrecision : option num;
  currentValuePrecision : option num;
  angleValuePrecision : option num;
  voltageValuePrecision : option num;
  cssLocation : option string;
  arrowPathIn : option string;
  arrowPathOut : option string
}.
Arguments diagramPadding {num} _.
Arguments voltageLevelCircleRadius {num} _.
Arguments interAnnulusSpace {num} _.
Arguments transformerCircleRadius {num} _.
Arguments edgesForkAperture {num} _.
Arguments edgesForkLength {num} _.
Arguments arrowShift {num} _.
Arguments arrowLabelShift {num} _.
Arguments converterStationWidth {num} _.
Arguments nodeHollowWidth {num} _.
Arguments unknownBusNodeExtraRadius {num} _.
Arguments fictitiousVoltageLevelCircleRadius {num} _.
Arguments powerValuePrecision {num} _.
Arguments currentValuePrecision {num} _.
Arguments angleValuePrecision {num} _.
Arguments voltageValuePrecision {num} _.
Arguments cssLocation {num} _.
Arguments arrowPathIn {num} _.
Arguments arrowPathOut {num} _.

(** [nbNeighbours] and [index] are integer-valued numbers. *)
Record BusNodeMetadata : Type := {
  bus_svgId : string;
  bus_equipmentId : string;
  nbNeighbours : Z;
  index : Z;
  vlNode : string;
  legend : option string
}.

Record NodeMetadata (num : Type) : Type := {
  node_svgId : string;
  node_equipmentId : string;
  node_x : num;
  node_y : num;
  fictitious : option bool;
  invisible : option bool
}.
Arguments node_svgId {num} _.
Arguments node_equipmentId {num} _.
Arguments node_x {num} _.
Arguments node_y {num} _.
Arguments fictitious {num} _.
Arguments invisible {num} _.

Record EdgeInfoMetadata : Type := {
  info_svgId : string;
  infoTypeA : option string;
  infoTypeB : option string;
  direction : option string;
  labelA : option string;
  labelB : option string
}.

Record EdgeMetadata (num : Type) : Type := {
  edge_svgId : string;
  edge_equipmentId : string;
  node1 : string;
  node2 : string;
  busNode1 : string;
  busNode2 : string;
  type : option string;
  bendingPoints : option (list (Point num));
  edgeInfoMiddle : option EdgeInfoMetadata;
  edgeInfo1 : option EdgeInfoMetadata;
  edgeInfo2 : option EdgeInfoMetadata;
  invisible1 : option bool;
  invisible2 : option bool
}.
Arguments edge_svgId {num} _.
Arguments edge_equipmentId {num} _.
Arguments node1 {num} _.
Arguments node2 {num} _.
Arguments busNode1 {num} _.
Arguments busNode2 {num} _.
Arguments type {num} _.
Arguments bendingPoints {num} _.
Arguments edgeInfoMiddle {num} _.
Arguments edgeInfo1 {num} _.
Arguments edgeInfo2 {num} _.
Arguments invisible1 {num} _.
Arguments invisible2 {num} _.

(** The arrays of [DiagramMetadata] that the geometry engine searches. *)
Record DiagramMetadata (num : Type) : Type := {
  busNodes : list BusNodeMetadata;
  nodes : list (NodeMetadata num);
  edges : list (EdgeMetadata num)
}.
Arguments busNodes {num} _.
Arguments nodes {num} _.
Arguments edges {num} _.

Inductive EdgeType : Type :=
| LINE
| TWO_WINDINGS_TRANSFORMER
| PHASE_SHIFT_TRANSFORMER
| HVDC_LINE_VSC
| HVDC_LINE_LCC
| DANGLING_LINE
| TIE_LINE
| THREE_WINDINGS_TRANSFORMER
| THREE_WINDINGS_PHASE_SHIFT_TRANSFORMER
| UNKNOWN.

Record NodeRadius (num : Type) : Type := {
  busInnerRadius : num;
  busOuterRadius : num;
  voltageLevelRadius : num
}.
Arguments busInnerRadius {num} _.
Arguments busOuterRadius {num} _.
Arguments voltageLevelRadius {num} _.

Record HalfEdge (num : Type) : Type := {
  side : string;
  fork : bool;
  he_busOuterRadius : num;
  he_voltageLevelRadius : num;
  edgeInfoId : option string;
  edgePoints : list (Point num)
}.
Arguments side {num} _.
Arguments fork {num} _.
Arguments he_busOuterRadius {num} _.
Arguments he_voltageLevelRadius {num} _.
Arguments edgeInfoId {num} _.
Arguments edgePoints {num} _.

(** [a ?? b] *)
Definition nullish {A : Type} (a : option A) (b : A) : A :=
  match a with
  | Some v => v
  | None => b
  end.
Infix "??" := nullish (at level 45, left associativity).

(** The truthiness of an optional boolean and of an optional string. *)
Definition truthy_bool (b : option bool) : bool := b ?? false.

Definition truthy_string (s : option string) : bool :=
  match s with
  | Some s => negb (String.eqb s "")
  | None => false
  end.

(** ** Object literals used as tables

    [table[key]] on an object literal reads the own property of that
    name; without one, the property of that name that the literal
    inherits from [Object.prototype] (a function, or the prototype
    itself for [__proto__]), which is no value of the table's declared
    type; and [undefined] otherwise. *)
Definition Object_prototype : list string :=
  [ "constructor"; "__defineGetter__"; "__defineSetter__"; "hasOwnProperty";
    "__lookupGetter__"; "__lookupSetter__"; "isPrototypeOf"; "propertyIsEnumerable";
    "toString"; "valueOf"; "__proto__"; "toLocaleString" ].

Inductive property (A : Type) : Type :=
| Own (a : A)
| Inherited (key : string)
| Undefined.
Arguments Own {A} a.
Arguments Inherited {A} key.
Arguments Undefined {A}.

Definition table_get {A : Type} (table : list (string * A)) (key : string) : property A :=
  match List.find (fun entry => String.eqb entry.1 key) table with
  | Some entry => Own entry.2
  | None => if bool_decide (key ∈ Object_prototype) then Inherited key else Undefined
  end.

(* ================================================================== *)
(** * [svg-parameters.ts] *)
(* ================================================================== *)

Inductive EdgeInfoEnum : Type :=
| ACTIVE_POWER
| REACTIVE_POWER
| CURRENT
| NAME.

Inductive CssLocationEnum : Type :=
| INSERTED_IN_SVG
| EXTERNAL_IMPORTED
| EXTERNAL_NO_IMPORT.

Definition EdgeInfoEnumMapping : list (string * EdgeInfoEnum) :=
  [ ("ActivePower", ACTIVE_POWER);
    ("ReactivePower", REACTIVE_POWER);
    ("Current", CURRENT);
    ("Name", NAME) ].

Definition CssLocationEnumMapping : list (string * CssLocationEnum) :=
  [ ("INSERTED_IN_SVG", INSERTED_IN_SVG);
    ("EXTERNAL_IMPORTED", EXTERNAL_IMPORTED);
    ("EXTERNAL_NO_IMPORT", EXTERNAL_NO_IMPORT) ].

Record DiagramPadding (num : Type) : Type := {
  left : num;
  top : num;
  right : num;
  bottom : num
}.
Arguments left {num} _.
Arguments top {num} _.
Arguments right {num} _.
Arguments bottom {num} _.

(** The class [SvgParameters]: its one field, and its methods below. *)
Record SvgParameters (num : Type) : Type := {
  svgParametersMetadata : option (SvgParametersMetadata num)
}.
Arguments svgParametersMetadata {num} _.

(** [degToRad] of [diagram-utils.ts]: transform angle degrees to radians *)
Definition degToRad {num : Type} {NUM : Number num} (deg : num) : num :=
  (deg * (Math_PI / #180))%js.

(** The static defaults and the methods of the class; [SvgParams.m this]
    is the call [this.m()]. *)
Module SvgParams.
Section Methods.
Context {num : Type} {NUM : Number num}.
Local Open Scope js_scope.

Definition VOLTAGE_LEVEL_CIRCLE_RADIUS_DEFAULT : num := #30.
Definition INTER_ANNULUS_SPACE_DEFAULT : num := #5.
Definition TRANSFORMER_CIRCLE_RADIUS_DEFAULT : num := #20.
Definition EDGES_FORK_APERTURE_DEFAULT : num := #60.
Definition EDGES_FORK_LENGTH_DEFAULT : num := #80.
Definition ARROW_SHIFT_DEFAULT : num := #30.
Definition ARROW_LABEL_SHIFT_DEFAULT : num := #19.
Definition CONVERTER_STATION_WIDTH_DEFAULT : num := #70.
Definition NODE_HOLLOW_WIDTH_DEFAULT : num := #15.
Definition UNKNOWN_BUS_NODE_EXTRA_RADIUS_DEFAULT : num := #10.
Definition FICTITIOUS_VOLTAGE_LEVEL_CIRCLE_RADIUS_DEFAULT : num := #15.
Definition EDGE_INFO_DISPLAYED_DEFAULT : EdgeInfoEnum := ACTIVE_POWER.
Definition POWER_VALUE_PRECISION_RADIUS_DEFAULT : num := #0.
Definition CURRENT_VALUE_PRECISION_DEFAULT : num := #0.
Definition ANGLE_VALUE_PRECISION_DEFAULT : num := #1.
Definition VOLTAGE_VALUE_PRECISION_DEFAULT : num := #1.
Definition DIAGRAM_PADDING_LEFT_DEFAULT : num := #200.
Definition DIAGRAM_PADDING_TOP_DEFAULT : num := #200.
Definition DIAGRAM_PADDING_RIGHT_DEFAULT : num := #200.
Definition DIAGRAM_PADDING_BOTTON_DEFAULT : num := #200.
Definition CSS_LOCATION_DEFAULT : CssLocationEnum := EXTERNAL_NO_IMPORT.
Definition ARROW_PATH_IN_DEFAULT : string := "M-10 -10 H10 L0 10z".
Definition ARROW_PATH_OUT_DEFAULT : string := "M-10 10 H10 L0 -10z".

Variable this : SvgParameters num.

(** [this.svgParametersMetadata?.field] *)
Definition field {A : Type} (f : SvgParametersMetadata num -> option A) : option A :=
  svgParametersMetadata this ≫= f.

Definition getVoltageLevelCircleRadius : num :=
  field voltageLevelCircleRadius ?? VOLTAGE_LEVEL_CIRCLE_RADIUS_DEFAULT.

Definition getInterAnnulusSpace : num :=
  field interAnnulusSpace ?? INTER_ANNULUS_SPACE_DEFAULT.

Definition getTransformerCircleRadius : num :=
  field transformerCircleRadius ?? TRANSFORMER_CIRCLE_RADIUS_DEFAULT.

Definition getEdgesForkAperture : num :=
  degToRad (field edgesForkAperture ?? EDGES_FORK_APERTURE_DEFAULT).

Definition getEdgesForkLength : num :=
  field edgesForkLength ?? EDGES_FORK_LENGTH_DEFAULT.

Definition getArrowShift : num :=
  field arrowShift ?? ARROW_SHIFT_DEFAULT.

Definition getArrowLabelShift : num :=
  field arrowLabelShift ?? ARROW_LABEL_SHIFT_DEFAULT.

Definition getArrowPathIn : string :=
  field arrowPathIn ?? ARROW_PATH_IN_DEFAULT.

Definition getArrowPathOut : string :=
  field arrowPathOut ?? ARROW_PATH_OUT_DEFAULT.

Definition getConverterStationWidth : num :=
  field converterStationWidth ?? CONVERTER_STATION_WIDTH_DEFAULT.

Definition getNodeHollowWidth : num :=
  field nodeHollowWidth ?? NODE_HOLLOW_WIDTH_DEFAULT.

Definition getUnknownBusNodeExtraRadius : num :=
  field unknownBusNodeExtraRadius ?? UNKNOWN_BUS_NODE_EXTRA_RADIUS_DEFAULT.

Definition getFictitiousVoltageLevelCircleRadius : num :=
  field fictitiousVoltageLevelCircleRadius ?? FICTITIOUS_VOLTAGE_LEVEL_CIRCLE_RADIUS_DEFAULT.

Definition getEdgeInfoDisplayed (edgeInfoType : option string) : property EdgeInfoEnum :=
  if truthy_string edgeInfoType
  then table_get EdgeInfoEnumMapping (edgeInfoType ?? "")
  else Own EDGE_INFO_DISPLAYED_DEFAULT.

Definition getPowerValuePrecision : num :=
  field powerValuePrecision ?? POWER_VALUE_PRECISION_RADIUS_DEFAULT.

Definition getCurrentValuePrecision : num :=
  field currentValuePrecision ?? CURRENT_VALUE_PRECISION_DEFAULT.

Definition getAngleValuePrecision : num :=
  field angleValuePrecision ?? ANGLE_VALUE_PRECISION_DEFAULT.

Definition getVoltageValuePrecision : num :=
  field voltageValuePrecision ?? VOLTAGE_VALUE_PRECISION_DEFAULT.

(** [this.svgParametersMetadata?.diagramPadding.left]: the chain stops
    at an absent [svgParametersMetadata] only; [.left] of an absent
    [diagramPadding] throws. *)
Definition paddingField (f : DiagramPaddingMetadata num -> option num) : completion (option num) :=
  match svgParametersMetadata this with
  | None => Normal None
  | Some metadata =>
      match diagramPadding metadata with
      | None => Throw
      | Some padding => Normal (f padding)
      end
  end.

Definition getDiagramPadding : completion (DiagramPadding num) :=
  l ← paddingField pad_left;
  t ← paddingField pad_top;
  r ← paddingField pad_right;
  b ← paddingField pad_bottom;
  mret {| left := l ?? DIAGRAM_PADDING_LEFT_DEFAULT;
          top := t ?? DIAGRAM_PADDING_TOP_DEFAULT;
          right := r ?? DIAGRAM_PADDING_RIGHT_DEFAULT;
          bottom := b ?? DIAGRAM_PADDING_BOTTON_DEFAULT |}.

Definition getCssLocation : property CssLocationEnum :=
  if truthy_string (field cssLocation)
  then table_get CssLocationEnumMapping (field cssLocation ?? "")
  else Own CSS_LOCATION_DEFAULT.

End Methods.
End SvgParams.

(* ================================================================== *)
(** * [diagram-utils.ts] *)
(* ================================================================== *)

Section DiagramUtils.
Context {num : Type} {NUM : Number num}.
Local Open Scope js_scope.

Definition getDistance (point1 point2 : Point num) : num :=
  let deltax := px point1 - px point2 in
  let deltay := py point1 - py point2 in
  Math_hypot deltax deltay.

Definition radToDeg (rad : num) : num := (rad * #180) / Math_PI.

(** round number to 2 decimals, for storing positions in metadata *)
Definition round (n : num) : num := Math_round (n * #100) / #100.

(** The literal [0.5]. *)
Definition getMidPosition (point1 point2 : Point num) : Point num :=
  mkPoint ((#1 / #2) * (px point1 + px point2)) ((#1 / #2) * (py point1 + py point2)).

Definition getPointAtDistance (point1 point2 : Point num) (radius : num) : Point num :=
  let distance := getDistance point1 point2 in
  let r := radius / distance in
  mkPoint (px point1 + r * (px point2 - px point1)) (py point1 + r * (py point2 - py point1)).

Definition getVoltageLevelCircleRadius (nbNeighbours : Z) (fictitiousVl : option bool)
    (svgParameters : SvgParameters num) : num :=
  let voltageLevelCircleRadius :=
    if truthy_bool fictitiousVl
    then SvgParams.getFictitiousVoltageLevelCircleRadius svgParameters
    else SvgParams.getVoltageLevelCircleRadius svgParameters in
  #(Z.min (Z.max (nbNeighbours + 1) 1) 2) * voltageLevelCircleRadius.

(** [==] between a property that is not a number of the enum (a member
    of [Object.prototype], [undefined]) and a number of the enum is
    false. *)
Definition isTransformerEdge (edgeType : property EdgeType) : bool :=
  match edgeType with
  | Own TWO_WINDINGS_TRANSFORMER | Own PHASE_SHIFT_TRANSFORMER => true
  | _ => false
  end.

Context {MATH : JsMath num}.

Definition getAngle (point1 point2 : Point num) : num :=
  Math_atan2 (py point2 - py point1) (px point2 - px point1).

Definition getEdgeFork (point : Point num) (edgeForkLength angleFork : num) : Point num :=
  mkPoint (px point + edgeForkLength * Math_cos angleFork)
          (py point + edgeForkLength * Math_sin angleFork).

Definition getCirclePath (radius angleStart angleEnd : num) (clockWise : bool) : string :=
  let arcAngle := angleEnd - angleStart in
  let xStart := radius * Math_cos angleStart in
  let yStart := radius * Math_sin angleStart in
  let xEnd := radius * Math_cos angleEnd in
  let yEnd := radius * Math_sin angleEnd in
  let largeArc := if Math_abs arcAngle >? Math_PI then "1" else "0" in
  toFixed xStart 3 +:+ "," +:+ toFixed yStart 3 +:+ " A" +:+
  toFixed radius 3 +:+ "," +:+ toFixed radius 3 +:+ " " +:+
  toFixed (radToDeg arcAngle) 3 +:+ " " +:+ largeArc +:+ " " +:+
  (if clockWise then "1" else "0") +:+ " " +:+
  toFixed xEnd 3 +:+ "," +:+ toFixed yEnd 3.

(** The loop of [getFragmentedAnnulusPath] over [index]: [angles] is the
    array from [index] on, and [angles[index + 1]] is [undefined] at the
    last index, on which the subtraction yields NaN. *)
Fixpoint annulusLoop (nodeRadius : NodeRadius num) (deltaAngle0 deltaAngle1 : num)
    (angles : list num) (path : string) : string :=
  match angles with
  | [] => path
  | angle :: rest =>
      let next := match rest with a :: _ => a | [] => NaN end in
      let outerArcStart := angle + deltaAngle0 in
      let outerArcEnd := next - deltaAngle0 in
      let innerArcStart := next - deltaAngle1 in
      let innerArcEnd := angle + deltaAngle1 in
      annulusLoop nodeRadius deltaAngle0 deltaAngle1 rest
        (if (outerArcEnd >? outerArcStart) && (innerArcEnd <? innerArcStart)
         then path +:+ "M" +:+
              getCirclePath (busOuterRadius nodeRadius) outerArcStart outerArcEnd true +:+
              " L" +:+
              getCirclePath (busInnerRadius nodeRadius) innerArcStart innerArcEnd false +:+
              " Z "
         else path)
  end.

Definition getFragmentedAnnulusPath (angles : list num) (nodeRadius : NodeRadius num)
    (nodeHollowWidth : num) : string :=
  if Nat.eqb (length angles) 0 then
    let path := "M" +:+ getCirclePath (busOuterRadius nodeRadius) #0 Math_PI true +:+
                " M" +:+ getCirclePath (busOuterRadius nodeRadius) Math_PI #0 true in
    if busInnerRadius nodeRadius >? #0 then
      path +:+ " M" +:+ getCirclePath (busInnerRadius nodeRadius) #0 Math_PI false +:+
               " M" +:+ getCirclePath (busInnerRadius nodeRadius) Math_PI #0 false
    else path
  else
    let halfWidth := nodeHollowWidth / #2 in
    let deltaAngle0 := halfWidth / busOuterRadius nodeRadius in
    let deltaAngle1 := halfWidth / busInnerRadius nodeRadius in
    annulusLoop nodeRadius deltaAngle0 deltaAngle1 angles "".

End DiagramUtils.

(* ================================================================== *)
(** * [metadata-utils.ts] *)
(* ================================================================== *)

Definition EdgeTypeMapping : list (string * EdgeType) :=
  [ ("LineEdge", LINE);
    ("TwoWtEdge", TWO_WINDINGS_TRANSFORMER);
    ("PstEdge", PHASE_SHIFT_TRANSFORMER);
    ("HvdcLineVscEdge", HVDC_LINE_VSC);
    ("HvdcLineLccEdge", HVDC_LINE_LCC);
    ("DanglingLineEdge", DANGLING_LINE);
    ("TieLineEdge", TIE_LINE);
    ("ThreeWtEdge", THREE_WINDINGS_TRANSFORMER);
    ("ThreeWtPstEdge", THREE_WINDINGS_PHASE_SHIFT_TRANSFORMER) ].

Section MetadataUtils.
Context {num : Type} {NUM : Number num}.
Local Open Scope js_scope.

(** get the type of edge *)
Definition getEdgeType (edge : EdgeMetadata num) : property EdgeType :=
  match type edge with
  | None => Own UNKNOWN
  | Some t => table_get EdgeTypeMapping t
  end.

Definition getInvisibleSide (edge : EdgeMetadata num) : option string :=
  if truthy_bool (invisible1 edge) then Some "1"
  else if truthy_bool (invisible2 edge) then Some "2"
  else None.

(** create an index key for grouping the parallel edge

    The identifiers of the metadata are modelled as strings of
    characters of codes below 256, which [String.ltb] compares code by
    code; on such identifiers (the ASCII ones of the diagrams) this is
    the order of [<] on JavaScript strings, which compares UTF-16 code
    units. *)
Definition getGroupedEdgesIndexKey (edge : EdgeMetadata num) : string :=
  if String.ltb (node1 edge) (node2 edge)
  then node1 edge +:+ "_" +:+ node2 edge
  else node2 edge +:+ "_" +:+ node1 edge.

Definition getBusNodeMetadata (busNodeId : string) (diagramMetadata : option (DiagramMetadata num))
    : option BusNodeMetadata :=
  diagramMetadata ≫= fun d => List.find (fun busNode => String.eqb (bus_svgId busNode) busNodeId) (busNodes d).

Definition getNodeMetadata (nodeId : string) (diagramMetadata : option (DiagramMetadata num))
    : option (NodeMetadata num) :=
  diagramMetadata ≫= fun d => List.find (fun node => String.eqb (node_svgId node) nodeId) (nodes d).

Definition getValue (param firstValue secondValue : num) : num :=
  if param <? #0 then firstValue
  else if param >? #1 then secondValue
  else firstValue + param * (secondValue - firstValue).

(** [dx ** 2] is the product [dx * dx]. *)
Definition getSquareDistanceFromSegment (p a b : Point num) : num :=
  let dx := px b - px a in
  let dy := py b - py a in
  let param := ((px p - px a) * dx + (py p - py a) * dy) / (dx * dx + dy * dy) in
  let xx := getValue param (px a) (px b) in
  let yy := getValue param (py a) (py b) in
  let distX := px p - xx in
  let distY := py p - yy in
  distX * distX + distY * distY.

(** The loop of [addPointToList]: [points] is the extended array from
    position [i] on; the result is the final [index]. *)
Fixpoint nearestSegment (bendPoint : Point num) (points : list (Point num)) (i : nat)
    (minDistance : num) (index : nat) : nat :=
  match points with
  | point1 :: (point2 :: _) as rest =>
      let distance := getSquareDistanceFromSegment bendPoint point1 point2 in
      if distance <? minDistance
      then nearestSegment bendPoint rest (S i) distance i
      else nearestSegment bendPoint rest (S i) minDistance index
  | _ => index
  end.

(** [array.splice(index, 0, item)] for [index <= array.length]. *)
Definition splice_insert {A : Type} (index : nat) (item : A) (array : list A) : list A :=
  firstn index array ++ item :: skipn index array.

(** insert a point in the edge point list; it returns the new list, and
    the index of the added point *)
Definition addPointToList (pointsMetadata : option (list (Point num)))
    (node1 node2 bendPoint : Point num) : list (Point num) * nat :=
  match pointsMetadata with
  | None => ([mkPoint (px bendPoint) (py bendPoint)], 0%nat)
  | Some pointsMetadata =>
      let extended := mkPoint (px node1) (py node1) :: pointsMetadata ++ [mkPoint (px node2) (py node2)] in
      let index := nearestSegment bendPoint extended 0 MAX_VALUE 0 in
      (splice_insert index (mkPoint (round (px bendPoint)) (round (py bendPoint))) pointsMetadata, index)
  end.

(** get inner and outer radius of bus node and radius of voltage level *)
Definition getNodeRadius (busNode : option BusNodeMetadata) (node : option (NodeMetadata num))
    (svgParameters : SvgParameters num) : NodeRadius num :=
  let nbNeighbours := (nbNeighbours <$> busNode) ?? 0%Z in
  let busIndex := (index <$> busNode) ?? 0%Z in
  let vlCircleRadius := getVoltageLevelCircleRadius nbNeighbours (node ≫= fictitious) svgParameters in
  let interAnnulusSpace := SvgParams.getInterAnnulusSpace svgParameters in
  let unitaryRadius := vlCircleRadius / #(nbNeighbours + 1) in
  {| busInnerRadius := if (busIndex =? 0)%Z then #0
                       else #busIndex * unitaryRadius + interAnnulusSpace / #2;
     busOuterRadius := #(busIndex + 1) * unitaryRadius - interAnnulusSpace / #2;
     voltageLevelRadius := vlCircleRadius |}.

(** The first loop of [getEdgePoints]: the length of the polyline. *)
Fixpoint totalDistance (pointsMetadata : list (Point num)) (distance : num) : num :=
  match pointsMetadata with
  | point :: (nextPoint :: _) as rest => totalDistance rest (distance + getDistance point nextPoint)
  | _ => distance
  end.

(** The variables of the second loop of [getEdgePoints]. *)
Record SplitState : Type := {
  halfEdgePoints1 : list (Point num);
  halfEdgePoints2 : list (Point num);
  partialDistance : num;
  middleAdded : bool
}.

Fixpoint splitLoop (distance : num) (pointsMetadata : list (Point num)) (s : SplitState)
    : SplitState :=
  match pointsMetadata with
  | point :: (nextPoint :: _) as rest =>
      let partialDistance := partialDistance s + getDistance point nextPoint in
      splitLoop distance rest
        (if partialDistance <? distance / #2 then
           {| halfEdgePoints1 := halfEdgePoints1 s ++ [nextPoint];
              halfEdgePoints2 := halfEdgePoints2 s;
              partialDistance := partialDistance;
              middleAdded := middleAdded s |}
         else
           let edgeMiddle := getPointAtDistance nextPoint point (partialDistance - distance / #2) in
           let added := negb (middleAdded s) in
           {| halfEdgePoints1 := if added then halfEdgePoints1 s ++ [edgeMiddle]
                                 else halfEdgePoints1 s;
              halfEdgePoints2 := (if added then halfEdgePoints2 s ++ [edgeMiddle]
                                  else halfEdgePoints2 s) ++ [nextPoint];
              partialDistance := partialDistance;
              middleAdded := true |})
  | _ => s
  end.

(** An array, even an empty one, is truthy: only an absent
    [bendingPoints] takes the first branch. *)
Definition getEdgePoints (edgeStart1 : Point num) (edgeFork1 : option (Point num))
    (edgeEnd1 : Point num) (edgeStart2 : Point num) (edgeFork2 : option (Point num))
    (edgeEnd2 : Point num) (bendingPoints : option (list (Point num)))
    : list (Point num) * list (Point num) :=
  match bendingPoints with
  | None =>
      let edgePoints1 := match edgeFork1 with
                         | Some edgeFork1 => [edgeStart1; edgeFork1; edgeEnd1]
                         | None => [edgeStart1; edgeEnd1]
                         end in
      let edgePoints2 := match edgeFork2 with
                         | Some edgeFork2 => [edgeStart2; edgeFork2; edgeEnd2]
                         | None => [edgeStart2; edgeEnd2]
                         end in
      (edgePoints1, edgePoints2)
  | Some bendingPoints =>
      let pointsMetadata :=
        mkPoint (px edgeStart1) (py edgeStart1) :: bendingPoints ++
        [mkPoint (px edgeStart2) (py edgeStart2)] in
      let distance := totalDistance pointsMetadata #0 in
      let s := splitLoop distance pointsMetadata
                 {| halfEdgePoints1 := [mkPoint (px edgeStart1) (py edgeStart1)];
                    halfEdgePoints2 := [];
                    partialDistance := #0;
                    middleAdded := false |} in
      (halfEdgePoints1 s, rev (halfEdgePoints2 s))
  end.

End MetadataUtils.

(* ================================================================== *)
(** * [half-edge-utils.ts] *)
(* ================================================================== *)

Section HalfEdgeUtils.
Context {num : Type} {NUM : Number num} {MATH : JsMath num}.
Local Open Scope js_scope.

Definition getTranslatedPolyline (polylinePoints : list (Point num))
    (nodeMetadata : NodeMetadata num) (initialPosition : Point num) : list (Point num) :=
  let translation := mkPoint (node_x nodeMetadata - px initialPosition)
                             (node_y nodeMetadata - py initialPosition) in
  List.map (fun point => mkPoint (px point + px translation) (py point + py translation))
           polylinePoints.

Definition getEdgeStart (busNodeId : option string) (vlPoint direction : Point num)
    (busOuterRadius : num) (svgParameters : SvgParameters num) : Point num :=
  let unknownBusNode1 := match busNodeId with
                         | Some id => Nat.eqb (String.length id) 0
                         | None => false
                         end in
  let rho := if unknownBusNode1
             then busOuterRadius + SvgParams.getUnknownBusNodeExtraRadius svgParameters
             else busOuterRadius in
  getPointAtDistance vlPoint direction rho.

Definition getEdgeDirection (nodePoint : Point num) (edgeFork : option (Point num))
    (firstBendingPoint : option (Point num)) : Point num :=
  match firstBendingPoint with
  | Some firstBendingPoint => mkPoint (px firstBendingPoint) (py firstBendingPoint)
  | None =>
      match edgeFork with
      | Some edgeFork => edgeFork
      | None => nodePoint
      end
  end.

(** [points.at(-1)!] is [undefined] on an empty array: reading its [x]
    throws, and returning it puts [undefined] in [edgePoints]. *)
Definition getThreeWtHalfEdge (points : option (list (Point num)))
    (edgeMetadata : EdgeMetadata num) (threeWtMoved : bool)
    (initialPosition : option (Point num))
    (diagramMetadata : option (DiagramMetadata num))
    (svgParameters : SvgParameters num) : completion (option (HalfEdge num)) :=
  match points with
  | None => Normal None
  | Some points =>
      let busNode := getBusNodeMetadata (busNode1 edgeMetadata) diagramMetadata in
      let vlNode := getNodeMetadata (node1 edgeMetadata) diagramMetadata in
      let twtNode := getNodeMetadata (node2 edgeMetadata) diagramMetadata in
      match vlNode, twtNode with
      | Some vlNode, Some twtNode =>
          let pointVl := mkPoint (node_x vlNode) (node_y vlNode) in
          let pointTwt := mkPoint (node_x twtNode) (node_y twtNode) in
          let nodeRadius := getNodeRadius busNode (Some vlNode) svgParameters in
          let edgeStart := getEdgeStart (Some (busNode1 edgeMetadata)) pointVl pointTwt
                             (busOuterRadius nodeRadius) svgParameters in
          edgeEnd ← match threeWtMoved, initialPosition with
                    | true, Some initialPosition =>
                        match last points with
                        | Some end_ =>
                            Normal (mkPoint (px end_ + px pointTwt - px initialPosition)
                                            (py end_ + py pointTwt - py initialPosition))
                        | None => Throw
                        end
                    | _, _ =>
                        match last points with
                        | Some end_ => Normal end_
                        | None => OutOfType
                        end
                    end;
          mret (Some {| side := "1";
                        fork := false;
                        he_busOuterRadius := busOuterRadius nodeRadius;
                        he_voltageLevelRadius := voltageLevelRadius nodeRadius;
                        edgeInfoId := info_svgId <$> edgeInfo1 edgeMetadata;
                        edgePoints := [edgeStart; edgeEnd] |})
      | _, _ => Normal None
      end
  end.

(** [polylinePoints[1]] is [undefined] on a one-point array, and
    [getDistance] throws on reading its [x]. *)
Definition getHalfVisibleHalfEdges (polylinePoints : option (list (Point num)))
    (edgeMetadata : EdgeMetadata num) (visibleSide : string) (fork : bool)
    (diagramMetadata : option (DiagramMetadata num))
    (initialPosition : option (Point num)) (svgParameters : SvgParameters num)
    : completion (option (HalfEdge num) * option (HalfEdge num)) :=
  match polylinePoints with
  | None => Normal (None, None)
  | Some polylinePoints =>
      if Nat.eqb (length polylinePoints) 0 then Normal (None, None)
      else
        let side1 := String.eqb visibleSide "1" in
        let visibleNodeId := if side1 then node1 edgeMetadata else node2 edgeMetadata in
        let visibleNodeMetadata :=
          diagramMetadata ≫= fun d =>
            List.find (fun node => String.eqb (node_svgId node) visibleNodeId) (nodes d) in
        match visibleNodeMetadata with
        | None => Normal (None, None)
        | Some visibleNodeMetadata =>
            let polylinePoints :=
              match initialPosition with
              | Some initialPosition =>
                  getTranslatedPolyline polylinePoints visibleNodeMetadata initialPosition
              | None => polylinePoints
              end in
            let busNode :=
              getBusNodeMetadata (if side1 then busNode1 edgeMetadata else busNode2 edgeMetadata)
                                 diagramMetadata in
            let vlNode :=
              getNodeMetadata (if side1 then node1 edgeMetadata else node2 edgeMetadata)
                              diagramMetadata in
            let nodeRadius := getNodeRadius busNode vlNode svgParameters in
            let point := mkPoint (node_x visibleNodeMetadata) (node_y visibleNodeMetadata) in
            let visibleBusNode := if side1 then busNode1 edgeMetadata else busNode2 edgeMetadata in
            match polylinePoints !! 1%nat with
            | None => Throw
            | Some direction =>
                let polylinePoints :=
                  <[0%nat := getEdgeStart (Some visibleBusNode) point direction
                               (busOuterRadius nodeRadius) svgParameters]> polylinePoints in
                let visibleHalfEdge (edgeInfoId : option string) :=
                  {| side := visibleSide;
                     fork := fork;
                     he_busOuterRadius := busOuterRadius nodeRadius;
                     he_voltageLevelRadius := voltageLevelRadius nodeRadius;
                     edgeInfoId := edgeInfoId;
                     edgePoints := polylinePoints |} in
                if side1
                then Normal (Some (visibleHalfEdge (info_svgId <$> edgeInfo1 edgeMetadata)), None)
                else Normal (None, Some (visibleHalfEdge (info_svgId <$> edgeInfo2 edgeMetadata)))
            end
        end
  end.

(** No statement of [getHalfEdges] can throw: it is a plain function.
    The literal [1.5] is [3 / 2]. *)
Definition getHalfEdges (edge : EdgeMetadata num) (iEdge groupedEdgesCount : Z)
    (diagramMetadata : option (DiagramMetadata num)) (svgParameters : SvgParameters num)
    : option (HalfEdge num) * option (HalfEdge num) :=
  let edgeType := getEdgeType edge in
  let busNode1_ := getBusNodeMetadata (busNode1 edge) diagramMetadata in
  let busNode2_ := getBusNodeMetadata (busNode2 edge) diagramMetadata in
  let node1_ := getNodeMetadata (node1 edge) diagramMetadata in
  let node2_ := getNodeMetadata (node2 edge) diagramMetadata in
  match node1_, node2_ with
  | Some node1_, Some node2_ =>
      let point1 := mkPoint (node_x node1_) (node_y node1_) in
      let point2 := mkPoint (node_x node2_) (node_y node2_) in
      let forks :=
        if (groupedEdgesCount >? 1)%Z then
          let angle := getAngle point1 point2 in
          let angleStep := SvgParams.getEdgesForkAperture svgParameters / #(groupedEdgesCount - 1) in
          let alpha := - SvgParams.getEdgesForkAperture svgParameters / #2 + #iEdge * angleStep in
          let angleFork1 := angle - alpha in
          let angleFork2 := angle + Math_PI + alpha in
          (Some (getEdgeFork point1 (SvgParams.getEdgesForkLength svgParameters) angleFork1),
           Some (getEdgeFork point2 (SvgParams.getEdgesForkLength svgParameters) angleFork2))
        else (None, None) in
      let edgeFork1 := forks.1 in
      let edgeFork2 := forks.2 in
      let edgeDirection1 := getEdgeDirection point2 edgeFork1 (bendingPoints edge ≫= head) in
      let nodeRadius1 := getNodeRadius busNode1_ (Some node1_) svgParameters in
      let edgeStart1 := getEdgeStart (Some (busNode1 edge)) point1 edgeDirection1
                          (busOuterRadius nodeRadius1) svgParameters in
      let edgeDirection2 := getEdgeDirection point1 edgeFork2 (bendingPoints edge ≫= last) in
      let nodeRadius2 := getNodeRadius busNode2_ (Some node2_) svgParameters in
      let edgeStart2 := getEdgeStart (Some (busNode2 edge)) point2 edgeDirection2
                          (busOuterRadius nodeRadius2) svgParameters in
      let edgeMiddle :=
        match edgeFork1, edgeFork2 with
        | Some edgeFork1, Some edgeFork2 => getMidPosition edgeFork1 edgeFork2
        | _, _ => getMidPosition edgeStart1 edgeStart2
        end in
      let ends :=
        if isTransformerEdge edgeType then
          let endShift := (#3 / #2) * SvgParams.getTransformerCircleRadius svgParameters in
          (getPointAtDistance edgeMiddle (edgeFork1 ?? edgeStart1) endShift,
           getPointAtDistance edgeMiddle (edgeFork2 ?? edgeStart2) endShift)
        else (edgeMiddle, edgeMiddle) in
      let edgeEnd1 := ends.1 in
      let edgeEnd2 := ends.2 in
      let edgePoints_ := getEdgePoints edgeStart1 edgeFork1 edgeEnd1
                           edgeStart2 edgeFork2 edgeEnd2 (bendingPoints edge) in
      let halfEdge1 := {| side := "1";
                          fork := (groupedEdgesCount >? 1)%Z;
                          he_busOuterRadius := busOuterRadius nodeRadius1;
                          he_voltageLevelRadius := voltageLevelRadius nodeRadius1;
                          edgeInfoId := info_svgId <$> edgeInfo1 edge;
                          edgePoints := edgePoints_.1 |} in
      let halfEdge2 := {| side := "2";
                          fork := (groupedEdgesCount >? 1)%Z;
                          he_busOuterRadius := busOuterRadius nodeRadius2;
                          he_voltageLevelRadius := voltageLevelRadius nodeRadius2;
                          edgeInfoId := info_svgId <$> edgeInfo2 edge;
                          edgePoints := edgePoints_.2 |} in
      (Some halfEdge1, Some halfEdge2)
  | _, _ => (None, None)
  end.

End HalfEdgeUtils.

(* ================================================================== *)
(** * [network-area-diagram-viewer.ts]: metadata bookkeeping *)
(* ================================================================== *)

(** The value [{ edgeId, index }] that [linePointIndexMap] keeps for the
    element of a bend handle; the element is known by its [id]. *)
Record LinePointIndex : Type := {
  edgeId : string;
  lp_index : Z
}.

Inductive LineOperation : Type :=
| BEND
| STRAIGHTEN.

(** The fields of the viewer that the bend and straighten operations
    read and write. [edges] of [diagramMetadata] holds the edge objects,
    mutated in place: a mutation of the object found at position [i] is
    the update of that position. The document is present through what
    its calls return: [svgDiv] tells whether it holds an element with a
    given id; [dragStart] is the completion of [initDrag] and
    [onDragStart], [redraw] that of the drawing calls of [redrawBentLine]
    ([getHalfEdges], [redrawBranchEdge], [redrawBothVoltageLevelNodes]),
    which write the document and the drag state only. *)
Record Viewer (num : Type) : Type := {
  diagramMetadata : option (DiagramMetadata num);
  linePointIndexMap : gmap string LinePointIndex;
  svgDiv : string -> bool;
  straightenedElement : option string;
  dragStart : completion unit;
  redraw : EdgeMetadata num -> completion unit;
  onBendLineCallback : option (EdgeMetadata num -> LineOperation -> completion unit)
}.
Arguments diagramMetadata {num} _.
Arguments linePointIndexMap {num} _.
Arguments svgDiv {num} _.
Arguments straightenedElement {num} _.
Arguments dragStart {num} _.
Arguments redraw {num} _ _.
Arguments onBendLineCallback {num} _.

Section ViewerBookkeeping.
Context {num : Type} {NUM : Number num}.
Local Open Scope js_scope.

Definition set_bendingPoints (edge : EdgeMetadata num) (points : option (list (Point num)))
    : EdgeMetadata num :=
  {| edge_svgId := edge_svgId edge;
     edge_equipmentId := edge_equipmentId edge;
     node1 := node1 edge;
     node2 := node2 edge;
     busNode1 := busNode1 edge;
     busNode2 := busNode2 edge;
     type := type edge;
     bendingPoints := points;
     edgeInfoMiddle := edgeInfoMiddle edge;
     edgeInfo1 := edgeInfo1 edge;
     edgeInfo2 := edgeInfo2 edge;
     invisible1 := invisible1 edge;
     invisible2 := invisible2 edge |}.

Definition set_busNode1 (edge : EdgeMetadata num) (id : string) : EdgeMetadata num :=
  {| edge_svgId := edge_svgId edge;
     edge_equipmentId := edge_equipmentId edge;
     node1 := node1 edge;
     node2 := node2 edge;
     busNode1 := id;
     busNode2 := busNode2 edge;
     type := type edge;
     bendingPoints := bendingPoints edge;
     edgeInfoMiddle := edgeInfoMiddle edge;
     edgeInfo1 := edgeInfo1 edge;
     edgeInfo2 := edgeInfo2 edge;
     invisible1 := invisible1 edge;
     invisible2 := invisible2 edge |}.

Definition set_busNode2 (edge : EdgeMetadata num) (id : string) : EdgeMetadata num :=
  {| edge_svgId := edge_svgId edge;
     edge_equipmentId := edge_equipmentId edge;
     node1 := node1 edge;
     node2 := node2 edge;
     busNode1 := busNode1 edge;
     busNode2 := id;
     type := type edge;
     bendingPoints := bendingPoints edge;
     edgeInfoMiddle := edgeInfoMiddle edge;
     edgeInfo1 := edgeInfo1 edge;
     edgeInfo2 := edgeInfo2 edge;
     invisible1 := invisible1 edge;
     invisible2 := invisible2 edge |}.

(** The metadata part of [setBranchBusConnection]: the edge object after
    the call (the redraw that follows writes the document only). *)
Definition setBranchBusConnection (diagramMetadata : option (DiagramMetadata num))
    (edge : EdgeMetadata num) (side : string) (busId : option string) : EdgeMetadata num :=
  if negb (truthy_string busId) then edge
  else
    let targetBusNode :=
      diagramMetadata ≫= fun d =>
        List.find (fun busNode => String.eqb (bus_equipmentId busNode) (busId ?? "")) (busNodes d) in
    match targetBusNode with
    | None => edge
    | Some targetBusNode =>
        let currentBusNodeId := if String.eqb side "1" then busNode1 edge else busNode2 edge in
        let currentBusNode :=
          diagramMetadata ≫= fun d =>
            List.find (fun busNode => String.eqb (bus_svgId busNode) currentBusNodeId) (busNodes d) in
        let rejected := match currentBusNode with
                        | Some currentBusNode =>
                            negb (String.eqb (vlNode currentBusNode) (vlNode targetBusNode))
                        | None => false
                        end in
        if rejected then edge
        else if String.eqb side "1" then set_busNode1 edge (bus_svgId targetBusNode)
        else set_busNode2 edge (bus_svgId targetBusNode)
    end.

(** [for (const [key, value] of this.linePointIndexMap) if (key !== id &&
    value.edgeId == edgeSvgId && test(value.index)) value.index += step] *)
Definition shiftOthers (id edgeSvgId : string) (test : Z -> bool) (step : Z)
    (map : gmap string LinePointIndex) : gmap string LinePointIndex :=
  map_imap (fun key value =>
              Some (if negb (String.eqb key id) && String.eqb (edgeId value) edgeSvgId
                       && test (lp_index value)
                    then {| edgeId := edgeId value; lp_index := lp_index value + step |}
                    else value)) map.

(** [array[index] = item]: an element is replaced, or appended at
    [array.length]; a negative or absent [index] names a property that is
    not an element; an index beyond the length leaves holes, which a
    list cannot hold. *)
Definition array_set {A : Type} (array : list A) (index : option Z) (item : A)
    : completion (list A) :=
  match index with
  | None => Normal array
  | Some i =>
      if (i <? 0)%Z then Normal array
      else if (i <? Z.of_nat (length array))%Z then Normal (<[Z.to_nat i := item]> array)
      else if (i =? Z.of_nat (length array))%Z then Normal (array ++ [item])
      else OutOfType
  end.

(** [array.splice(start, 1)] *)
Definition splice_remove {A : Type} (start : Z) (array : list A) : list A :=
  let len := Z.of_nat (length array) in
  let actualStart := if (start <? 0)%Z then Z.max (len + start) 0 else Z.min start len in
  firstn (Z.to_nat actualStart) array ++ skipn (S (Z.to_nat actualStart)) array.

Definition updateEdgeMetadataWhenBending (this : Viewer num) (edge : EdgeMetadata num)
    (linePointElement : string) (position : Point num)
    : completion (EdgeMetadata num * gmap string LinePointIndex) :=
  let index := lp_index <$> linePointIndexMap this !! linePointElement in
  if bool_decide (index = Some (-1)%Z) then
    let node1_ := diagramMetadata this ≫= fun d =>
                    List.find (fun node => String.eqb (node_svgId node) (node1 edge)) (nodes d) in
    let node2_ := diagramMetadata this ≫= fun d =>
                    List.find (fun node => String.eqb (node_svgId node) (node2 edge)) (nodes d) in
    match node1_, node2_ with
    | Some node1_, Some node2_ =>
        let linePoints := addPointToList (bendingPoints edge)
                            (mkPoint (node_x node1_) (node_y node1_))
                            (mkPoint (node_x node2_) (node_y node2_)) position in
        let map := <[linePointElement := {| edgeId := edge_svgId edge;
                                            lp_index := Z.of_nat linePoints.2 |}]>
                     (linePointIndexMap this) in
        Normal (set_bendingPoints edge (Some linePoints.1),
                shiftOthers linePointElement (edge_svgId edge)
                            (fun i => (Z.of_nat linePoints.2 <=? i)%Z) 1 map)
    | _, _ => Normal (edge, linePointIndexMap this)
    end
  else
    let point := mkPoint (round (px position)) (round (py position)) in
    match bendingPoints edge with
    | Some points =>
        points ← array_set points index point;
        mret (set_bendingPoints edge (Some points), linePointIndexMap this)
    | None => Normal (set_bendingPoints edge (Some [point]), linePointIndexMap this)
    end.

Definition updateEdgeMetadataWhenStraightening (this : Viewer num) (edge : EdgeMetadata num)
    (linePointElement : string) : EdgeMetadata num * gmap string LinePointIndex :=
  let index := (lp_index <$> linePointIndexMap this !! linePointElement) ?? (-1)%Z in
  match bendingPoints edge with
  | Some points =>
      let map := shiftOthers linePointElement (edge_svgId edge)
                             (fun i => (index <=? i)%Z) (-1) (linePointIndexMap this) in
      let points := splice_remove index points in
      (set_bendingPoints edge (if Nat.eqb (length points) 0 then None else Some points), map)
  | None => (edge, linePointIndexMap this)
  end.

(** [this.diagramMetadata?.edges.find((edge) => edge.svgId == id)], with
    the position of the object found; an absent [id] equals no [svgId]. *)
Definition findEdge (this : Viewer num) (id : option string)
    : option (nat * EdgeMetadata num) :=
  match id, diagramMetadata this with
  | Some id, Some d => list_find (fun edge => edge_svgId edge = id) (edges d)
  | _, _ => None
  end.

(** The viewer after the edge object at position [i] and the map have
    been mutated. *)
Definition store (this : Viewer num) (i : nat) (edge : EdgeMetadata num)
    (map : gmap string LinePointIndex) : Viewer num :=
  {| diagramMetadata :=
       (fun d => {| busNodes := busNodes d;
                    nodes := nodes d;
                    edges := <[i := edge]> (edges d) |}) <$> diagramMetadata this;
     linePointIndexMap := map;
     svgDiv := svgDiv this;
     straightenedElement := straightenedElement this;
     dragStart := dragStart this;
     redraw := redraw this;
     onBendLineCallback := onBendLineCallback this |}.

Definition set_linePointIndexMap (this : Viewer num) (map : gmap string LinePointIndex)
    : Viewer num :=
  {| diagramMetadata := diagramMetadata this;
     linePointIndexMap := map;
     svgDiv := svgDiv this;
     straightenedElement := straightenedElement this;
     dragStart := dragStart this;
     redraw := redraw this;
     onBendLineCallback := onBendLineCallback this |}.

Definition set_straightenedElement (this : Viewer num) (element : option string)
    : Viewer num :=
  {| diagramMetadata := diagramMetadata this;
     linePointIndexMap := linePointIndexMap this;
     svgDiv := svgDiv this;
     straightenedElement := element;
     dragStart := dragStart this;
     redraw := redraw this;
     onBendLineCallback := onBendLineCallback this |}.

Definition updateEdgeMetadata (this : Viewer num) (linePointElement : string)
    (position : option (Point num)) (lineOperation : LineOperation)
    : completion (Viewer num) :=
  match findEdge this (edgeId <$> linePointIndexMap this !! linePointElement) with
  | Some (i, edge) =>
      match position, lineOperation with
      | Some position, BEND =>
          r ← updateEdgeMetadataWhenBending this edge linePointElement position;
          mret (store this i r.1 r.2)
      | _, _ =>
          let r := updateEdgeMetadataWhenStraightening this edge linePointElement in
          Normal (store this i r.1 r.2)
      end
  | None => Normal this
  end.

(** [createEdgeBendPoint] on an element [bendableElem]: [mousePosition]
    is what [getMousePosition] returned and [uuid] the id that
    [crypto.randomUUID()] gave to the new handle, which [addLinePoint]
    registers at index -1 before the metadata is updated. *)
Definition createEdgeBendPoint (this : Viewer num) (bendableElem : string) (uuid : string)
    (mousePosition : Point num) : completion (Viewer num) :=
  let this := set_linePointIndexMap this
                (<[uuid := {| edgeId := bendableElem; lp_index := -1 |}]>
                   (linePointIndexMap this)) in
  _ ← dragStart this;
  updateEdgeMetadata this uuid (Some mousePosition) BEND.

(** [redrawBentLine]: a moved handle is placed on its bend point, the
    handle of a straightened point leaves the map; both after the edge
    and its element have been found and the edge has been drawn. *)
Definition redrawBentLine (this : Viewer num) (linePoint : string)
    (lineOperation : LineOperation) : completion (Viewer num) :=
  let edgeId_ := if negb (String.eqb linePoint "")
                 then edgeId <$> linePointIndexMap this !! linePoint
                 else Some "-1" in
  match findEdge this edgeId_ with
  | None => Normal this
  | Some (_, edge) =>
      let bending := match lineOperation with BEND => true | STRAIGHTEN => false end in
      if bending && negb (bool_decide (is_Some (bendingPoints edge))) then Normal this
      else if negb (svgDiv this (edgeId_ ?? "")) then Normal this
      else
        _ ← redraw this edge;
        match bendingPoints edge, lineOperation with
        | Some points, BEND =>
            let index := (lp_index <$> linePointIndexMap this !! linePoint) ?? 0%Z in
            match (if (index <? 0)%Z then None else points !! Z.to_nat index) with
            | Some _ => Normal this
            | None => Throw
            end
        | _, _ => Normal (set_linePointIndexMap this (delete linePoint (linePointIndexMap this)))
        end
  end.

Definition callBendLineCallback (this : Viewer num) (linePointElement : string)
    (lineOperation : LineOperation) : completion unit :=
  match onBendLineCallback this with
  | Some callback =>
      match findEdge this (edgeId <$> linePointIndexMap this !! linePointElement) with
      | Some (_, edge) => callback edge lineOperation
      | None => Normal tt
      end
  | None => Normal tt
  end.

Definition onStraightenEnd (this : Viewer num) : completion (Viewer num) :=
  match straightenedElement this with
  | None => Normal this
  | Some element =>
      this ← updateEdgeMetadata this element None STRAIGHTEN;
      this ← redrawBentLine this element STRAIGHTEN;
      _ ← callBendLineCallback this element STRAIGHTEN;
      mret (set_straightenedElement this None)
  end.

End ViewerBookkeeping.

(* ================================================================== *)
(** * The other functions of the same files *)
(* ================================================================== *)

(** ** Numbers: equality, minimum and maximum *)

(** [a == b] on numbers, [Math.min] and [Math.max]. *)
Class NumberOrder (num : Type) : Type := {
  num_eq : num -> num -> bool;
  Math_min : num -> num -> num;
  Math_max : num -> num -> num
}.

Notation "a ==? b" := (num_eq a b) (at level 70) : js_scope.

(** [a >= b] and [a <= b]: false as soon as one side is NaN. *)
Definition ge {num : Type} {NUM : Number num} {ORD : NumberOrder num} (a b : num) : bool :=
  lt b a || num_eq a b.

Definition le {num : Type} {NUM : Number num} {ORD : NumberOrder num} (a b : num) : bool :=
  lt a b || num_eq a b.

Notation "a >=? b" := (ge a b) (at level 70) : js_scope.
Notation "a <=? b" := (le a b) (at level 70) : js_scope.

Module Float64Order.

(** NaN if one argument is NaN; -0 is below +0. *)
Definition min (a b : float) : float :=
  if PrimFloat.is_nan a || PrimFloat.is_nan b then PrimFloat.nan
  else if PrimFloat.ltb a b then a
  else if PrimFloat.ltb b a then b
  else if PrimFloat.get_sign a then a else b.

Definition max (a b : float) : float :=
  if PrimFloat.is_nan a || PrimFloat.is_nan b then PrimFloat.nan
  else if PrimFloat.ltb a b then b
  else if PrimFloat.ltb b a then a
  else if PrimFloat.get_sign a then b else a.

End Float64Order.

#[export] Instance float_NumberOrder : NumberOrder float := {|
  num_eq := PrimFloat.eqb;
  Math_min := Float64Order.min;
  Math_max := Float64Order.max
|}.

#[export] Instance ideal_NumberOrder : NumberOrder ideal := {|
  num_eq := fun a b => match a, b with
                       | Fin x, Fin y => if Req_dec_T x y then true else false
                       | _, _ => false
                       end;
  Math_min := Ideal.lift2 Rmin;
  Math_max := Ideal.lift2 Rmax
|}.

(** ** [diagram-types.ts], [diagram-metadata.ts] *)

Record TextNodeMetadata (num : Type) : Type := {
  text_svgId : string;
  text_equipmentId : string;
  text_vlNode : string;
  shiftX : num;
  shiftY : num;
  connectionShiftX : num;
  connectionShiftY : num
}.
Arguments text_svgId {num} _.
Arguments text_equipmentId {num} _.
Arguments text_vlNode {num} _.
Arguments shiftX {num} _.
Arguments shiftY {num} _.
Arguments connectionShiftX {num} _.
Arguments connectionShiftY {num} _.

(** node move: original and new position *)
Record NodeMove (num : Type) : Type := {
  xOrig : num;
  yOrig : num;
  xNew : num;
  yNew : num
}.
Arguments xOrig {num} _.
Arguments yOrig {num} _.
Arguments xNew {num} _.
Arguments yNew {num} _.

Record ViewBox (num : Type) : Type := {
  vb_x : num;
  vb_y : num;
  vb_width : num;
  vb_height : num
}.
Arguments vb_x {num} _.
Arguments vb_y {num} _.
Arguments vb_width {num} _.
Arguments vb_height {num} _.

(** The enum [ElementType]; [ElementType.name t] is [ElementType[t]]. *)
Module ElementType.

Inductive t : Type :=
| VOLTAGE_LEVEL
| THREE_WINDINGS_TRANSFORMER
| TEXT_NODE
| BRANCH
| UNKNOWN.

Definition name (elementType : t) : string :=
  match elementType with
  | VOLTAGE_LEVEL => "VOLTAGE_LEVEL"
  | THREE_WINDINGS_TRANSFORMER => "THREE_WINDINGS_TRANSFORMER"
  | TEXT_NODE => "TEXT_NODE"
  | BRANCH => "BRANCH"
  | UNKNOWN => "UNKNOWN"
  end.

End ElementType.

(** [EdgeType[t]] *)
Definition EdgeType_name (edgeType : EdgeType) : string :=
  match edgeType with
  | LINE => "LINE"
  | TWO_WINDINGS_TRANSFORMER => "TWO_WINDINGS_TRANSFORMER"
  | PHASE_SHIFT_TRANSFORMER => "PHASE_SHIFT_TRANSFORMER"
  | HVDC_LINE_VSC => "HVDC_LINE_VSC"
  | HVDC_LINE_LCC => "HVDC_LINE_LCC"
  | DANGLING_LINE => "DANGLING_LINE"
  | TIE_LINE => "TIE_LINE"
  | THREE_WINDINGS_TRANSFORMER => "THREE_WINDINGS_TRANSFORMER"
  | THREE_WINDINGS_PHASE_SHIFT_TRANSFORMER => "THREE_WINDINGS_PHASE_SHIFT_TRANSFORMER"
  | UNKNOWN => "UNKNOWN"
  end.

(** [data_type] is [undefined] for a branch whose type name is not an
    own key of [EdgeTypeMapping]. *)
Record ElementData : Type := {
  data_svgId : string;
  data_equipmentId : string;
  data_type : option string
}.

(** ** A [Map] with string keys

    The keys of a [Map] are iterated in the order of their first
    insertion; [set] on a key that is present keeps its place. *)
Module Map.

Definition t (V : Type) : Type := list (string * V).

Definition get {V : Type} (map : t V) (key : string) : option V :=
  snd <$> List.find (fun entry => String.eqb entry.1 key) map.

Definition has {V : Type} (map : t V) (key : string) : bool :=
  bool_decide (is_Some (List.find (fun entry => String.eqb entry.1 key) map)).

Fixpoint set {V : Type} (map : t V) (key : string) (value : V) : t V :=
  match map with
  | [] => [(key, value)]
  | entry :: rest =>
      if String.eqb entry.1 key then (entry.1, value) :: rest
      else entry :: set rest key value
  end.

Definition values {V : Type} (map : t V) : list V := snd <$> map.

End Map.

(** ** [metadata-utils.ts], continued *)

Section MetadataUtilsMore.
Context {num : Type} {NUM : Number num}.
Local Open Scope js_scope.

Definition TEXT_BOX_WIDTH_DEFAULT : num := #200.
Definition TEXT_BOX_HEIGHT_DEFAULT : num := #100.

(** The body of the first loop of [getBendableLines]. *)
Definition groupEdge (groupedEdges : Map.t (list (EdgeMetadata num))) (edge : EdgeMetadata num)
    : Map.t (list (EdgeMetadata num)) :=
  if negb (String.eqb (node1 edge) (node2 edge)) then
    let edgeGroupId := getGroupedEdgesIndexKey edge in
    let edgeGroup := if Map.has groupedEdges edgeGroupId
                     then Map.get groupedEdges edgeGroupId ?? []
                     else [] in
    Map.set groupedEdges edgeGroupId (edgeGroup ++ [edge])
  else groupedEdges.

(** The body of its second loop: [edgeGroup[0]] of an empty group is
    [undefined], and reading its [type] throws. *)
Definition filterGroup (lines : list (EdgeMetadata num)) (edgeGroup : list (EdgeMetadata num))
    : completion (list (EdgeMetadata num)) :=
  if (1 <? length edgeGroup)%nat then Normal lines
  else
    match head edgeGroup with
    | None => Throw
    | Some edge =>
        match getEdgeType edge with
        | Own LINE =>
            if bool_decide (is_Some (getInvisibleSide edge)) then Normal lines
            else Normal (lines ++ [edge])
        | _ => Normal lines
        end
    end.

Definition getBendableLines (edges : option (list (EdgeMetadata num)))
    : completion (list (EdgeMetadata num)) :=
  let groupedEdges := fold_left groupEdge (edges ?? []) [] in
  fold_left (fun lines edgeGroup => lines ← lines; filterGroup lines edgeGroup)
            (Map.values groupedEdges) (Normal []).

(** [array[index] = item] on an array that may have holes ([None]);
    an index from [2 ^ 32 - 1] on names a property, not an element. *)
Definition sparse_set {A : Type} (array : list (option A)) (index : Z) (item : A)
    : list (option A) :=
  if (index <? 0)%Z then array
  else if (index <? Z.of_nat (length array))%Z then <[Z.to_nat index := Some item]> array
  else if (index <? 2 ^ 32 - 1)%Z
       then array ++ replicate (Z.to_nat index - length array) None ++ [Some item]
       else array.

(** sort list of bus nodes by index *)
Definition getSortedBusNodes (busNodes : option (list BusNodeMetadata))
    : list (option BusNodeMetadata) :=
  fold_left (fun sortedBusNodes busNode =>
               if (0 <=? index busNode)%Z
               then sparse_set sortedBusNodes (index busNode) busNode
               else sortedBusNodes)
            (busNodes ?? []) [].

(** get node move (original and new position) *)
Definition getNodeMove (node : NodeMetadata num) (nodePosition : Point num) : NodeMove num :=
  let xNew := round (px nodePosition) in
  let yNew := round (py nodePosition) in
  {| xOrig := node_x node; yOrig := node_y node; xNew := xNew; yNew := yNew |}.

Definition getTextNodeMoves (textNode : TextNodeMetadata num) (vlNode : NodeMetadata num)
    (textPosition connectionPosition : Point num) : NodeMove num * NodeMove num :=
  let xNew := round (px textPosition - node_x vlNode) in
  let yNew := round (py textPosition - node_y vlNode) in
  let connXNew := round (px connectionPosition - node_x vlNode) in
  let connYNew := round (py connectionPosition - node_y vlNode) in
  ({| xOrig := shiftX textNode; yOrig := shiftY textNode; xNew := xNew; yNew := yNew |},
   {| xOrig := connectionShiftX textNode; yOrig := connectionShiftY textNode;
      xNew := connXNew; yNew := connYNew |}).

(** [EdgeType[getEdgeType(edge)]]: the enum object has a name for each
    of its numbers, and none for the string that another value is
    read as. *)
Definition getStringEdgeType (edge : EdgeMetadata num) : option string :=
  match getEdgeType edge with
  | Own edgeType => Some (EdgeType_name edgeType)
  | _ => None
  end.

Definition getRightClickableElementData (elementId : option string)
    (elementType : ElementType.t)
    (nodes : option (list (NodeMetadata num)))
    (textNodes : option (list (TextNodeMetadata num)))
    (edges : option (list (EdgeMetadata num))) : option ElementData :=
  if negb (truthy_string elementId) then None
  else
    let elementId := elementId ?? "" in
    match elementType with
    | ElementType.VOLTAGE_LEVEL | ElementType.THREE_WINDINGS_TRANSFORMER =>
        node ← nodes ≫= List.find (fun node => String.eqb (node_svgId node) elementId);
        Some {| data_svgId := node_svgId node;
                data_equipmentId := node_equipmentId node;
                data_type := Some (ElementType.name elementType) |}
    | ElementType.TEXT_NODE =>
        textNode ← textNodes ≫=
                     List.find (fun textNode => String.eqb (text_svgId textNode) elementId);
        Some {| data_svgId := text_svgId textNode;
                data_equipmentId := text_equipmentId textNode;
                data_type := Some (ElementType.name elementType) |}
    | ElementType.BRANCH =>
        edge ← edges ≫= List.find (fun edge => String.eqb (edge_svgId edge) elementId);
        Some {| data_svgId := edge_svgId edge;
                data_equipmentId := edge_equipmentId edge;
                data_type := getStringEdgeType edge |}
    | ElementType.UNKNOWN => None
    end.

Context {ORD : NumberOrder num}.

(** The bounds that [getViewBox] accumulates. *)
Record Size : Type := {
  minX : num;
  maxX : num;
  minY : num;
  maxY : num
}.

Definition getViewBox (nodes : option (list (NodeMetadata num)))
    (textNodes : option (list (TextNodeMetadata num))) (svgParameters : SvgParameters num)
    : completion (ViewBox num) :=
  let size := {| minX := MAX_VALUE; maxX := - MAX_VALUE; minY := MAX_VALUE; maxY := - MAX_VALUE |} in
  let r := fold_left (fun (r : gmap string (NodeMetadata num) * Size) node =>
                        (<[node_equipmentId node := node]> r.1,
                         {| minX := Math_min (minX r.2) (node_x node);
                            maxX := Math_max (maxX r.2) (node_x node);
                            minY := Math_min (minY r.2) (node_y node);
                            maxY := Math_max (maxY r.2) (node_y node) |}))
                     (nodes ?? []) (∅, size) in
  let nodesMap := r.1 in
  let size :=
    fold_left (fun size textNode =>
                 match nodesMap !! text_equipmentId textNode with
                 | Some node =>
                     {| minX := Math_min (minX size) (node_x node + shiftX textNode);
                        maxX := Math_max (maxX size)
                                         (node_x node + shiftX textNode + TEXT_BOX_WIDTH_DEFAULT);
                        minY := Math_min (minY size) (node_y node + shiftY textNode);
                        maxY := Math_max (maxY size)
                                         (node_y node + shiftY textNode + TEXT_BOX_HEIGHT_DEFAULT) |}
                 | None => size
                 end)
              (textNodes ?? []) r.2 in
  padding ← SvgParams.getDiagramPadding svgParameters;
  mret {| vb_x := round (minX size - left padding);
          vb_y := round (minY size - top padding);
          vb_width := round (maxX size - minX size + left padding + right padding);
          vb_height := round (maxY size - minY size + top padding + bottom padding) |}.

End MetadataUtilsMore.

(** ** [svg-utils.ts] *)

Section SvgUtils.
Context {num : Type} {NUM : Number num} {ORD : NumberOrder num}.
Local Open Scope js_scope.

(** compute the visible area box, considering that it may extend beyond
    the viewBox when the container and the viewBox have different
    aspect ratio *)
Definition computeVisibleArea (vbox : option (ViewBox num))
    (containerWidth containerHeight : num) : option (ViewBox num) :=
  match vbox with
  | None => None
  | Some vbox =>
      if (vb_width vbox ==? #0) || (vb_height vbox ==? #0) ||
         (containerWidth ==? #0) || (containerHeight ==? #0)
      then None
      else
        let scaleWidth := containerWidth / vb_width vbox in
        let scaleHeight := containerHeight / vb_height vbox in
        let scale := Math_min scaleWidth scaleHeight in
        let dx := (containerWidth / scale - vb_width vbox) / #2 in
        let dy := (containerHeight / scale - vb_height vbox) / #2 in
        Some {| vb_x := vb_x vbox - dx;
                vb_y := vb_y vbox - dy;
                vb_width := vb_width vbox + dx * #2;
                vb_height := vb_height vbox + dy * #2 |}
  end.

End SvgUtils.

(** ** [half-edge-utils.ts], continued *)

(** [array.at(index)] *)
Definition Array_at {A : Type} (array : list A) (index : Z) : option A :=
  let k := if (index <? 0)%Z then (Z.of_nat (length array) + index)%Z else index in
  if (k <? 0)%Z then None else array !! Z.to_nat k.

Section HalfEdgeUtilsMore.
Context {num : Type} {NUM : Number num}.
Local Open Scope js_scope.

(** get the points of a converter station of an HVDC line edge *)
Definition getConverterStationPoints (halfEdge : HalfEdge num) (converterStationWidth : num)
    : completion (Point num * Point num) :=
  let halfWidth := converterStationWidth / #2 in
  match Array_at (edgePoints halfEdge) (-1), Array_at (edgePoints halfEdge) (-2) with
  | Some middlePoint, Some previous =>
      let point1 := getPointAtDistance middlePoint previous halfWidth in
      let point2 := getPointAtDistance point1 middlePoint converterStationWidth in
      Normal (point1, point2)
  | _, _ => Throw
  end.

End HalfEdgeUtilsMore.

(** ** [network-area-diagram-viewer.ts], continued *)

Section ViewerMore.
Context {num : Type} {NUM : Number num}.
Local Open Scope js_scope.

Definition set_position (node : NodeMetadata num) (x y : num) : NodeMetadata num :=
  {| node_svgId := node_svgId node;
     node_equipmentId := node_equipmentId node;
     node_x := x;
     node_y := y;
     fictitious := fictitious node;
     invisible := invisible node |}.

(** [updateNodeMetadata]: the node object found is mutated in place. *)
Definition updateNodeMetadata (this : Viewer num) (vlNode : string) (position : Point num)
    : Viewer num :=
  match diagramMetadata this with
  | Some d =>
      match list_find (fun node => node_svgId node = vlNode) (nodes d) with
      | Some (i, node) =>
          let nodeMove := getNodeMove node position in
          {| diagramMetadata :=
               Some {| busNodes := busNodes d;
                       nodes := <[i := set_position node (xNew nodeMove) (yNew nodeMove)]> (nodes d);
                       edges := edges d |};
             linePointIndexMap := linePointIndexMap this;
             svgDiv := svgDiv this;
             straightenedElement := straightenedElement this;
             dragStart := dragStart this;
             redraw := redraw this;
             onBendLineCallback := onBendLineCallback this |}
      | None => this
      end
  | None => this
  end.

(** [onStraightenStart] on the element of a handle; [disablePanzoom] is
    how the call of that name completes. *)
Definition onStraightenStart (this : Viewer num) (bendableElem : option string)
    (disablePanzoom : completion unit) : completion (Viewer num) :=
  match bendableElem with
  | None => Normal this
  | Some bendableElem =>
      let edgeId_ := if negb (String.eqb bendableElem "")
                     then edgeId <$> linePointIndexMap this !! bendableElem
                     else Some "-1" in
      match findEdge this edgeId_ ≫= (fun found => bendingPoints found.2) with
      | None => Normal this
      | Some _ =>
          _ ← disablePanzoom;
          mret (set_straightenedElement this (Some bendableElem))
      end
  end.

(** [buildGroupedEdgesIndexMap]: [groupedEdgesIndexMap] is the field of
    that name, which keeps the map once it is built. *)
Definition buildGroupedEdgesIndexMap (diagramMetadata : option (DiagramMetadata num))
    (groupedEdgesIndexMap : option (gmap string (list string))) : gmap string (list string) :=
  match groupedEdgesIndexMap with
  | Some map => map
  | None =>
      fold_left (fun (map : gmap string (list string)) edge =>
                   if negb (String.eqb (node1 edge) (node2 edge)) then
                     let key := getGroupedEdgesIndexKey edge in
                     let group := (map !! key) ?? [] in
                     <[key := group ++ [edge_equipmentId edge]]> map
                   else map)
                ((edges <$> diagramMetadata) ?? []) ∅
  end.

(** [array.indexOf(item)], [None] for -1 *)
Definition indexOf (array : list string) (item : string) : option nat :=
  fst <$> list_find (fun x => x = item) array.

(** The position [iEdge] of an edge among its [nbGroupedEdges] parallel
    edges, as [setBranchStates] and [getHalfEdgesForEdgeInfos] both
    compute it before they call [getHalfEdges]. *)
Definition groupedEdgePosition (groupedEdgesIndex : gmap string (list string))
    (edge : EdgeMetadata num) : Z * Z :=
  match groupedEdgesIndex !! getGroupedEdgesIndexKey edge with
  | Some groupedEdges =>
      if (0 <? length groupedEdges)%nat then
        match indexOf groupedEdges (edge_equipmentId edge) with
        | Some i => (Z.of_nat i, Z.of_nat (length groupedEdges))
        | None => (0, 1)%Z
        end
      else (0, 1)%Z
  | None => (0, 1)%Z
  end.

Context {ORD : NumberOrder num}.

(** [getZoomLevel], of the list [this.zoomLevels] *)
Fixpoint getZoomLevel (zoomLevels : list num) (maxDisplayedSize : num) : num :=
  match zoomLevels with
  | [] => #0
  | zoomLevel :: rest =>
      if maxDisplayedSize >=? zoomLevel then zoomLevel
      else getZoomLevel rest maxDisplayedSize
  end.

End ViewerMore.

(** ** [svg-utils.ts]: the box of a text node *)

(** What these functions read of the element of a text node. *)
Record TextNodeElement (num : Type) : Type := {
  scrollWidth : num;
  scrollHeight : num
}.
Arguments scrollWidth {num} _.
Arguments scrollHeight {num} _.

Section TextNodeBox.
Context {num : Type} {NUM : Number num}.
Local Open Scope js_scope.

(** Get text node size *)
Definition getTextNodeSize (textNode : option (TextNodeElement num)) : num * num :=
  ((scrollWidth <$> textNode) ?? #0, (scrollHeight <$> textNode) ?? #0).

(** Get the center position of a text box using the box's top left
    corner position *)
Definition getTextNodeCenterFromTopLeftCorner (textNode : option (TextNodeElement num))
    (topLeftCornerPosition : Point num) : Point num :=
  let textNodeSize := getTextNodeSize textNode in
  mkPoint (px topLeftCornerPosition + textNodeSize.1 / #2)
          (py topLeftCornerPosition + textNodeSize.2 / #2).

(** Get the top left corner position of a text box using the box's
    center position *)
Definition getTextNodeTopLeftCornerFromCenter (textNode : option (TextNodeElement num))
    (centrePosition : Point num) : Point num :=
  let textNodeSize := getTextNodeSize textNode in
  mkPoint (px centrePosition - textNodeSize.1 / #2)
          (py centrePosition - textNodeSize.2 / #2).

End TextNodeBox.

(* ================================================================== *)
(** * Specification-side definitions *)
(* ================================================================== *)

(** The minimum and the maximum of two strings in the comparison order
    of strings. *)
Definition string_min (a b : string) : string :=
  match String.compare a b with
  | Gt => b
  | _ => a
  end.

Definition string_max (a b : string) : string :=
  match String.compare a b with
  | Gt => a
  | _ => b
  end.

(** An accessor [get] of [SvgParameters] returns the configured value
    of the field [f] when the configuration has it, and [default]
    otherwise. *)
Definition configured_or_default {num A : Type} (get : SvgParameters num -> A)
    (f : SvgParametersMetadata num -> option A) (default : A) : Prop :=
  forall this : SvgParameters num,
    get this = match svgParametersMetadata this with
               | Some metadata =>
                   match f metadata with
                   | Some value => value
                   | None => default
                   end
               | None => default
               end.

(** Two edge objects agree on every field but the bus node of one
    side ([side1]: side '1', else side '2'). *)
Definition same_but_busNode {num : Type} (side1 : bool) (edge edge' : EdgeMetadata num) : Prop :=
  edge_svgId edge' = edge_svgId edge /\
  edge_equipmentId edge' = edge_equipmentId edge /\
  node1 edge' = node1 edge /\
  node2 edge' = node2 edge /\
  (if side1 then busNode2 edge' = busNode2 edge else busNode1 edge' = busNode1 edge) /\
  type edge' = type edge /\
  bendingPoints edge' = bendingPoints edge /\
  edgeInfoMiddle edge' = edgeInfoMiddle edge /\
  edgeInfo1 edge' = edgeInfo1 edge /\
  edgeInfo2 edge' = edgeInfo2 edge /\
  invisible1 edge' = invisible1 edge /\
  invisible2 edge' = invisible2 edge.

(** The points of the two half-edges that [getHalfEdges] returns. *)
Definition halfEdgesPoints {num : Type} (halfEdges : option (HalfEdge num) * option (HalfEdge num))
    : option (list (Point num)) * option (list (Point num)) :=
  (edgePoints <$> halfEdges.1, edgePoints <$> halfEdges.2).

(** A configuration that has one field only, and no [diagramPadding]. *)
Definition partialConfiguration : SvgParametersMetadata float :=
  {| diagramPadding := None;
     voltageLevelCircleRadius := Some 30%float;
     interAnnulusSpace := None;
     transformerCircleRadius := None;
     edgesForkAperture := None;
     edgesForkLength := None;
     arrowShift := None;
     arrowLabelShift := None;
     converterStationWidth := None;
     nodeHollowWidth := None;
     unknownBusNodeExtraRadius := None;
     fictitiousVoltageLevelCircleRadius := None;
     powerValuePrecision := None;
     currentValuePrecision := None;
     angleValuePrecision := None;
     voltageValuePrecision := None;
     cssLocation := Some "INLINE";
     arrowPathIn := None;
     arrowPathOut := None |}.

(** The bus node that [setBranchBusConnection] looks for: the first one
    whose equipment id is [busId], and the first one whose [svgId] is
    the bus node of the edge on [side]. *)
Definition targetBusNode {num : Type} (diagramMetadata : option (DiagramMetadata num))
    (busId : string) : option BusNodeMetadata :=
  diagramMetadata ≫= fun d =>
    List.find (fun busNode => String.eqb (bus_equipmentId busNode) busId) (busNodes d).

Definition currentBusNode {num : Type} (diagramMetadata : option (DiagramMetadata num))
    (edge : EdgeMetadata num) (side : string) : option BusNodeMetadata :=
  getBusNodeMetadata (if String.eqb side "1" then busNode1 edge else busNode2 edge)
                     diagramMetadata.


(** A bus node of [nbNeighbours = n] and [index = i], as the test suite
    of [getNodeRadius] builds it. *)
Definition busNodeAt (n i : Z) : BusNodeMetadata :=
  {| bus_svgId := ""; bus_equipmentId := ""; nbNeighbours := n; index := i;
     vlNode := ""; legend := None |}.

(** No configuration: every parameter has its default. *)
Definition defaultParameters (num : Type) : SvgParameters num :=
  {| svgParametersMetadata := None |}.

(** The behaviour of NaN that the annulus path relies on: it is
    absorbing for the subtraction and nothing is below it. *)
Class NaNLaws (num : Type) {NUM : Number num} : Type := {
  sub_NaN : forall d : num, (NaN - d)%js = NaN;
  lt_NaN : forall x : num, (x <? NaN)%js = false
}.

(** The pairs of consecutive elements of a list. *)
Fixpoint consecutive {A : Type} (l : list A) : list (A * A) :=
  match l with
  | a :: (b :: _) as rest => (a, b) :: consecutive rest
  | _ => []
  end.

Definition concat_strings (l : list string) : string :=
  foldr String.append "" l.

Section AnnulusSlices.
Context {num : Type} {NUM : Number num} {MATH : JsMath num}.
Variables (nodeRadius : NodeRadius num) (nodeHollowWidth : num).
Local Open Scope js_scope.

(** The point at the angle [angle] of the circle of radius [radius]
    about the origin, written "x,y" with three decimals. *)
Definition circlePoint (radius angle : num) : string :=
  toFixed (radius * Math_cos angle) 3 +:+ "," +:+ toFixed (radius * Math_sin angle) 3.

(** An arc of that circle from the angle [angleStart] to the angle
    [angleEnd], as SVG path data: the start point, then the command
    "A rx,ry x-axis-rotation large-arc-flag sweep-flag x,y" with both
    radii [radius], the large-arc flag 1 when the arc spans more than
    half a turn, the sweep flag 1 for a clockwise arc and 0 for a
    counter-clockwise one, and the end point. (In the place of the
    rotation, which changes nothing to a circle, stands the angle of the
    arc in degrees.) *)
Definition arc (radius angleStart angleEnd : num) (clockWise : bool) : string :=
  circlePoint radius angleStart +:+ " A" +:+
  toFixed radius 3 +:+ "," +:+ toFixed radius 3 +:+ " " +:+
  toFixed (radToDeg (angleEnd - angleStart)) 3 +:+ " " +:+
  (if Math_abs (angleEnd - angleStart) >? Math_PI then "1" else "0") +:+ " " +:+
  (if clockWise then "1" else "0") +:+ " " +:+
  circlePoint radius angleEnd.

(** The slice between two consecutive angles: both its ends are inset
    by [halfWidth / radius], on the outer and on the inner circle. *)
Definition outerArc (angles : num * num) : num * num :=
  let inset := (nodeHollowWidth / #2) / busOuterRadius nodeRadius in
  (angles.1 + inset, angles.2 - inset).

(** The inner arc runs backwards, from the second angle to the first. *)
Definition innerArc (angles : num * num) : num * num :=
  let inset := (nodeHollowWidth / #2) / busInnerRadius nodeRadius in
  (angles.2 - inset, angles.1 + inset).

(** A slice is emitted when its outer arc ends strictly after its start
    and its inner arc ends strictly before its start. *)
Definition sliceEmitted (angles : num * num) : bool :=
  ((outerArc angles).2 >? (outerArc angles).1) &&
  ((innerArc angles).2 <? (innerArc angles).1).

(** The closed region of a slice: a move to the start of the outer arc,
    the outer arc clockwise on the outer circle, a line to the start of
    the inner arc, the inner arc counter-clockwise on the inner circle,
    and the closing of the path. *)
Definition slicePath (angles : num * num) : string :=
  "M" +:+ arc (busOuterRadius nodeRadius) (outerArc angles).1 (outerArc angles).2 true +:+
  " L" +:+ arc (busInnerRadius nodeRadius) (innerArc angles).1 (innerArc angles).2 false +:+
  " Z ".

(** The two arcs that draw a full circle, from 0 to pi and from pi back
    to 0, both in the same direction. *)
Definition fullCircle (radius : num) (clockWise : bool) : string :=
  "M" +:+ arc radius #0 Math_PI clockWise +:+
  " M" +:+ arc radius Math_PI #0 clockWise.

End AnnulusSlices.

(** ** Plane geometry on real coordinates *)

(** A point of real coordinates, as a point of the exact model. *)
Definition finPoint (p : Point R) : Point ideal := mkPoint (Fin (px p)) (Fin (py p)).

Definition squareDistance (p q : Point R) : R :=
  ((px p - px q) * (px p - px q) + (py p - py q) * (py p - py q))%R.

Definition distance (p q : Point R) : R := sqrt (squareDistance p q).

(** The parameter of the orthogonal projection of [p] on the line of a
    segment: 0 at the first end, 1 at the second one. *)
Definition projectionParameter (p : Point R) (segment : Point R * Point R) : R :=
  let a := segment.1 in
  let b := segment.2 in
  (((px p - px a) * (px b - px a) + (py p - py a) * (py b - py a)) /
   ((px b - px a) * (px b - px a) + (py b - py a) * (py b - py a)))%R.

Definition clamp01 (t : R) : R :=
  if Rlt_dec t 0 then 0%R else if Rlt_dec 1 t then 1%R else t.

(** The point of the segment at a parameter. *)
Definition pointAt (segment : Point R * Point R) (t : R) : Point R :=
  let a := segment.1 in
  let b := segment.2 in
  mkPoint (px a + t * (px b - px a))%R (py a + t * (py b - py a))%R.

(** The squared distance from [p] to its projection on the segment,
    the parameter of the projection being clamped to [0, 1]. (On a
    segment reduced to a point, every parameter gives that point.) *)
Definition squareDistanceFromSegment (p : Point R) (segment : Point R * Point R) : R :=
  squareDistance p (pointAt segment (clamp01 (projectionParameter p segment))).


(** The squared length of a segment: it is zero on a segment reduced
    to a point. *)
Definition segmentNorm (segment : Point R * Point R) : R :=
  ((px segment.2 - px segment.1) * (px segment.2 - px segment.1) +
   (py segment.2 - py segment.1) * (py segment.2 - py segment.1))%R.


(** Points of binary64 and of real coordinates. *)
Definition point64 (x y : float) : Point float := mkPoint x y.

Definition pointR (x y : R) : Point R := mkPoint x y.

(** The handles of the edge [edgeSvgId] stand, one each, for the
    positions [0 .. n - 1] of its bend points. *)
Definition handlesOnPositions (map : gmap string LinePointIndex) (edgeSvgId : string)
    (n : nat) : Prop :=
  (forall handle i,
      map !! handle = Some {| edgeId := edgeSvgId; lp_index := i |} ->
      (0 <= i < Z.of_nat n)%Z) /\
  (forall handle handle' i,
      map !! handle = Some {| edgeId := edgeSvgId; lp_index := i |} ->
      map !! handle' = Some {| edgeId := edgeSvgId; lp_index := i |} ->
      handle = handle') /\
  (forall i, (0 <= i < Z.of_nat n)%Z ->
             exists handle, map !! handle = Some {| edgeId := edgeSvgId; lp_index := i |}).

(** The state of the viewer in which the handles of every edge stand
    for the positions of its bend points. *)
Definition bendHandlesConsistent {num : Type} (this : Viewer num) : Prop :=
  forall d, diagramMetadata this = Some d ->
    forall edge, edge ∈ edges d ->
      handlesOnPositions (linePointIndexMap this) (edge_svgId edge)
                         (length (bendingPoints edge ?? [])).

(** The edges of the test suite of [getGroupedEdgesIndexKey]. *)
Definition lineEdge (num : Type) (svgId equipmentId n1 n2 b1 b2 : string) : EdgeMetadata num :=
  {| edge_svgId := svgId; edge_equipmentId := equipmentId;
     node1 := n1; node2 := n2; busNode1 := b1; busNode2 := b2;
     type := Some "LineEdge"; bendingPoints := None;
     edgeInfoMiddle := None; edgeInfo1 := None; edgeInfo2 := None;
     invisible1 := None; invisible2 := None |}.

(** A viewer with two nodes and one line between them, bent once: the
    handle "h0" stands on its only bend point, and is the one being
    straightened. *)
Definition bentViewer : Viewer float :=
  {| diagramMetadata :=
       Some {| busNodes := [];
               nodes := [ {| node_svgId := "0"; node_equipmentId := "VL1";
                             node_x := 0%float; node_y := 0%float;
                             fictitious := None; invisible := None |};
                          {| node_svgId := "2"; node_equipmentId := "VL2";
                             node_x := 100%float; node_y := 0%float;
                             fictitious := None; invisible := None |} ];
               edges := [ set_bendingPoints (lineEdge float "4" "VL1L1VL2" "0" "2" "1" "3")
                                            (Some [point64 50 10]) ] |};
     linePointIndexMap := {[ "h0" := {| edgeId := "4"; lp_index := 0 |} ]};
     svgDiv := fun _ => true;
     straightenedElement := Some "h0";
     dragStart := Normal tt;
     redraw := fun _ => Normal tt;
     onBendLineCallback := None |}.


(** ** For the other functions *)

(** ** Bendable lines *)

Definition isLoop {num : Type} (edge : EdgeMetadata num) : bool :=
  String.eqb (node1 edge) (node2 edge).

(** An edge that is not a loop and has the grouping key [key]. *)
Definition inGroup {num : Type} (key : string) (edge : EdgeMetadata num) : bool :=
  negb (isLoop edge) && String.eqb (getGroupedEdgesIndexKey edge) key.

(** The edges of the list, loops apart, that have the grouping key of
    [edge]. *)
Definition parallelEdges {num : Type} (edges : list (EdgeMetadata num))
    (edge : EdgeMetadata num) : list (EdgeMetadata num) :=
  List.filter (inGroup (getGroupedEdgesIndexKey edge)) edges.



(** A string without an underscore. *)
Fixpoint underscoreFree (s : string) : bool :=
  match s with
  | EmptyString => true
  | String c rest => negb (Ascii.eqb c "_") && underscoreFree rest
  end.

(** The node ids of the edges have no underscore. *)
Definition plainNodeIds {num : Type} (edges : list (EdgeMetadata num)) : Prop :=
  forall edge, edge ∈ edges ->
    underscoreFree (node1 edge) = true /\ underscoreFree (node2 edge) = true.

(** Two edges join the same two nodes, in the same or in opposite
    directions. *)
Definition sameNodes {num : Type} (edge edge' : EdgeMetadata num) : bool :=
  (String.eqb (node1 edge') (node1 edge) && String.eqb (node2 edge') (node2 edge)) ||
  (String.eqb (node1 edge') (node2 edge) && String.eqb (node2 edge') (node1 edge)).

(** Two edges between four nodes that have the same grouping key. *)
Definition underscoreEdges : list (EdgeMetadata float) :=
  [ lineEdge float "1" "L1" "a_b" "c" "2" "3";
    lineEdge float "4" "L2" "a" "b_c" "5" "6" ].



(** A box of real coordinates, as a box of the exact model. *)
Definition finBox (x y width height : R) : ViewBox ideal :=
  {| vb_x := Fin x; vb_y := Fin y; vb_width := Fin width; vb_height := Fin height |}.

(** A half-edge that has the given points, of real coordinates. *)
Definition halfEdgeThrough (points : list (Point R)) : HalfEdge ideal :=
  {| side := "1"; fork := false;
     he_busOuterRadius := Fin 0; he_voltageLevelRadius := Fin 0;
     edgeInfoId := None;
     edgePoints := finPoint <$> points |}.

(** A node and a text node of real coordinates, in the exact model. *)
Definition finNode (node : NodeMetadata R) : NodeMetadata ideal :=
  {| node_svgId := node_svgId node;
     node_equipmentId := node_equipmentId node;
     node_x := Fin (node_x node);
     node_y := Fin (node_y node);
     fictitious := fictitious node;
     invisible := invisible node |}.

Definition finTextNode (textNode : TextNodeMetadata R) : TextNodeMetadata ideal :=
  {| text_svgId := text_svgId textNode;
     text_equipmentId := text_equipmentId textNode;
     text_vlNode := text_vlNode textNode;
     shiftX := Fin (shiftX textNode);
     shiftY := Fin (shiftY textNode);
     connectionShiftX := Fin (connectionShiftX textNode);
     connectionShiftY := Fin (connectionShiftY textNode) |}.

(** The node that a text node is drawn for: the last node of the list
    that has its equipment id. *)
Definition nodeOfText (nodes : list (NodeMetadata R)) (textNode : TextNodeMetadata R)
    : option (NodeMetadata R) :=
  last (List.filter (fun node => String.eqb (node_equipmentId node) (text_equipmentId textNode))
                    nodes).

(** A point is inside a box, up to the rounding of the box to two
    decimals, with the [padding] kept free around it. *)
Definition insidePadded (box : ViewBox R) (padding : DiagramPadding R) (x y : R) : Prop :=
  (vb_x box <= x - left padding + 1 / 200 /\
   x + right padding - 1 / 100 <= vb_x box + vb_width box /\
   vb_y box <= y - top padding + 1 / 200 /\
   y + bottom padding - 1 / 100 <= vb_y box + vb_height box)%R.

(** Finite bounds. *)
Definition finSize (a b c d : R) : Size (num := ideal) :=
  {| minX := Fin a; maxX := Fin b; minY := Fin c; maxY := Fin d |}.

(** [bentViewer] with a bend-line callback that throws whenever it is
    called. *)
Definition bentViewerThrowingCallback : Viewer float :=
  {| diagramMetadata := diagramMetadata bentViewer;
     linePointIndexMap := linePointIndexMap bentViewer;
     svgDiv := svgDiv bentViewer;
     straightenedElement := straightenedElement bentViewer;
     dragStart := dragStart bentViewer;
     redraw := redraw bentViewer;
     onBendLineCallback := Some (fun _ _ => Throw) |}.

(** The metadata of two parallel lines between the nodes "0" and "2",
    and a third line from "2" to "5". *)
Definition parallelLines : DiagramMetadata float :=
  {| busNodes := [];
     nodes := [];
     edges := [ lineEdge float "4" "L1" "0" "2" "1" "3";
                lineEdge float "6" "L2" "2" "0" "3" "1";
                lineEdge float "7" "L3" "2" "5" "3" "8" ] |}.

(** ** Elements under the right button of the mouse *)

(** The [svgId] and [equipmentId] of the elements of a type. *)
Definition elementsOfType {num : Type} (elementType : ElementType.t)
    (nodes : option (list (NodeMetadata num)))
    (textNodes : option (list (TextNodeMetadata num)))
    (edges : option (list (EdgeMetadata num))) : list (string * string) :=
  match elementType with
  | ElementType.VOLTAGE_LEVEL | ElementType.THREE_WINDINGS_TRANSFORMER =>
      (fun node => (node_svgId node, node_equipmentId node)) <$> nodes ?? []
  | ElementType.TEXT_NODE =>
      (fun textNode => (text_svgId textNode, text_equipmentId textNode)) <$> textNodes ?? []
  | ElementType.BRANCH =>
      (fun edge => (edge_svgId edge, edge_equipmentId edge)) <$> edges ?? []
  | ElementType.UNKNOWN => []
  end.

(** An element of a text node with finite sizes. *)
Definition finElement (width height : R) : TextNodeElement ideal :=
  {| scrollWidth := Fin width; scrollHeight := Fin height |}.

(** The nodes and text nodes of the test suite. *)
Definition testNode (svgId equipmentId : string) (x y : float) : NodeMetadata float :=
  {| node_svgId := svgId; node_equipmentId := equipmentId; node_x := x; node_y := y;
     fictitious := None; invisible := None |}.

Definition testTextNode (svgId equipmentId vlNode : string) : TextNodeMetadata float :=
  {| text_svgId := svgId; text_equipmentId := equipmentId; text_vlNode := vlNode;
     shiftX := 100%float; shiftY := (-40)%float;
     connectionShiftX := 100%float; connectionShiftY := (-15)%float |}.

Definition testEdge (svgId equipmentId n1 n2 b1 b2 type_ : string)
    (invisible1_ invisible2_ : option bool) : EdgeMetadata float :=
  {| edge_svgId := svgId; edge_equipmentId := equipmentId;
     node1 := n1; node2 := n2; busNode1 := b1; busNode2 := b2;
     type := Some type_; bendingPoints := None;
     edgeInfoMiddle := None; edgeInfo1 := None; edgeInfo2 := None;
     invisible1 := invisible1_; invisible2 := invisible2_ |}.

(* ================================================================== *)
(** * Properties *)
(* ================================================================== *)

(** ** Parallel-edge grouping key *)

Lemma string_ltb_compare (a b : string) :
  String.ltb a b = match String.compare a b with Lt => true | _ => false end.
Proof. unfold String.ltb. destruct (String.compare a b); reflexivity. Qed.

Lemma string_compare_refl (a : string) : String.compare a a = Eq.
Proof.
  pose proof (String.compare_antisym a a) as H.
  destruct (String.compare a a); simpl in H; congruence.
Qed.

Lemma getGroupedEdgesIndexKey_min_max {num : Type} (edge : EdgeMetadata num) :
  getGroupedEdgesIndexKey edge =
  string_min (node1 edge) (node2 edge) +:+ "_" +:+ string_max (node1 edge) (node2 edge).
Proof.
  unfold getGroupedEdgesIndexKey, string_min, string_max.
  rewrite string_ltb_compare.
  destruct (String.compare (node1 edge) (node2 edge)) eqn:E; try reflexivity.
  apply String.compare_eq_iff in E. now rewrite E.
Qed.

Lemma string_min_comm (a b : string) : string_min a b = string_min b a.
Proof.
  unfold string_min. rewrite (String.compare_antisym a b).
  destruct (String.compare b a) eqn:E; simpl; try reflexivity.
  apply String.compare_eq_iff in E. now subst.
Qed.

Lemma string_max_comm (a b : string) : string_max a b = string_max b a.
Proof.
  unfold string_max. rewrite (String.compare_antisym a b).
  destruct (String.compare b a) eqn:E; simpl; try reflexivity.
  apply String.compare_eq_iff in E. now subst.
Qed.

(** C9. The grouping key of an edge does not depend on the order of its
    two nodes: two edges that join the same two nodes in opposite
    orders have the same key, which is the smaller node id in the
    comparison order of strings, an underscore, and the larger one.
    The edges of the test suite, between '0' and '2' in both orders,
    have the key "0_2". *)
Theorem getGroupedEdgesIndexKey_symmetric {num : Type} (edge1 edge2 : EdgeMetadata num) :
  node1 edge2 = node2 edge1 ->
  node2 edge2 = node1 edge1 ->
  getGroupedEdgesIndexKey edge1 = getGroupedEdgesIndexKey edge2 /\
  getGroupedEdgesIndexKey edge1 =
    string_min (node1 edge1) (node2 edge1) +:+ "_" +:+ string_max (node1 edge1) (node2 edge1) /\
  getGroupedEdgesIndexKey (lineEdge num "4" "VL1L1VL2" "0" "2" "1" "3") = "0_2" /\
  getGroupedEdgesIndexKey (lineEdge num "5" "VL1L2VL2" "2" "0" "3" "1") = "0_2".
Proof.
  intros H1 H2. repeat split; try reflexivity.
  - rewrite !getGroupedEdgesIndexKey_min_max, H1, H2.
    now rewrite (string_min_comm (node2 edge1)), (string_max_comm (node2 edge1)).
  - apply getGroupedEdgesIndexKey_min_max.
Qed.

Lemma getGroupedEdgesIndexKey_symmetric_witness :
  getGroupedEdgesIndexKey (lineEdge float "4" "VL1L1VL2" "0" "2" "1" "3") =
  getGroupedEdgesIndexKey (lineEdge float "11" "VL3L1VL4" "2" "0" "7" "5").
Proof.
  exact (proj1 (getGroupedEdgesIndexKey_symmetric
                  (lineEdge float "4" "VL1L1VL2" "0" "2" "1" "3")
                  (lineEdge float "11" "VL3L1VL4" "2" "0" "7" "5")
                  eq_refl eq_refl)).
Defined.

(** ** Bend points override forks and transformer ends *)

(** C10. When [bendingPoints] is present, the two half-edges that
    [getEdgePoints] returns depend on [edgeStart1], [edgeStart2] and the
    bend points only, not on the fork and end points; and the points of
    the half-edges that [getHalfEdges] computes for an edge with at
    least one bend point are the same whatever the type of the edge
    (transformer or not) and its rank among parallel edges (forking or
    not). *)
Theorem getEdgePoints_bends_discard_forks_and_ends {num : Type} {NUM : Number num}
    {MATH : JsMath num} :
  (forall (edgeStart1 edgeStart2 : Point num) (bends : list (Point num))
          (edgeFork1 edgeFork2 edgeFork1' edgeFork2' : option (Point num))
          (edgeEnd1 edgeEnd2 edgeEnd1' edgeEnd2' : Point num),
      getEdgePoints edgeStart1 edgeFork1 edgeEnd1 edgeStart2 edgeFork2 edgeEnd2 (Some bends) =
      getEdgePoints edgeStart1 edgeFork1' edgeEnd1' edgeStart2 edgeFork2' edgeEnd2' (Some bends)) /\
  (forall (svgId equipmentId n1 n2 b1 b2 : string) (t t' : option string)
          (bend : Point num) (bends : list (Point num))
          (infoMiddle info1 info2 : option EdgeInfoMetadata) (inv1 inv2 : option bool)
          (iEdge groupedEdgesCount iEdge' groupedEdgesCount' : Z)
          (diagramMetadata : option (DiagramMetadata num)) (svgParameters : SvgParameters num),
      let edge ty := {| edge_svgId := svgId; edge_equipmentId := equipmentId;
                        node1 := n1; node2 := n2; busNode1 := b1; busNode2 := b2;
                        type := ty; bendingPoints := Some (bend :: bends);
                        edgeInfoMiddle := infoMiddle; edgeInfo1 := info1; edgeInfo2 := info2;
                        invisible1 := inv1; invisible2 := inv2 |} in
      halfEdgesPoints (getHalfEdges (edge t) iEdge groupedEdgesCount diagramMetadata svgParameters) =
      halfEdgesPoints (getHalfEdges (edge t') iEdge' groupedEdgesCount' diagramMetadata svgParameters)).
Proof.
  split.
  - reflexivity.
  - intros svgId equipmentId n1 n2 b1 b2 t t' bend bends infoMiddle info1 info2 inv1 inv2
           iEdge groupedEdgesCount iEdge' groupedEdgesCount' metadata svgParameters edge.
    unfold getHalfEdges, halfEdgesPoints. subst edge.
    cbn [node1 node2 busNode1 busNode2 bendingPoints].
    destruct (getNodeMetadata n1 metadata) as [nd1|]; [|reflexivity].
    destruct (getNodeMetadata n2 metadata) as [nd2|]; [|reflexivity].
    change (Some (bend :: bends) ≫= last) with (last (bend :: bends)).
    destruct (last (bend :: bends)) as [lastBend|] eqn:E;
      [|apply last_None in E; discriminate].
    destruct (groupedEdgesCount >? 1)%Z, (groupedEdgesCount' >? 1)%Z; reflexivity.
Qed.

(** ** Parameter accessors *)

Lemma table_get_other {A : Type} (table : list (string * A)) (key : string) :
  key ∉ table.*1 ->
  table_get table key =
  if bool_decide (key ∈ Object_prototype) then Inherited key else Undefined.
Proof.
  intros Hkey. unfold table_get.
  destruct (List.find _ table) as [entry|] eqn:Hfind; [|reflexivity].
  apply List.find_some in Hfind as [Hin Heq]. apply String.eqb_eq in Heq.
  exfalso. apply Hkey. apply list_elem_of_fmap. exists entry. split; [congruence|].
  now apply list_elem_of_In.
Qed.

Lemma field_or_default {num A : Type} (f : SvgParametersMetadata num -> option A) (default : A) :
  configured_or_default (fun this => SvgParams.field this f ?? default) f default.
Proof.
  intros [[metadata|]]; cbn; [destruct (f metadata)|]; reflexivity.
Qed.

(** C8 (amended). Every accessor of a numeric or path parameter returns
    the configured value when the configuration is present and has the
    field, and the default otherwise; [getEdgesForkAperture] converts
    that value, in degrees, to radians (the default 60 degrees is
    1.0471975511965976 in binary64); [getDiagramPadding] returns
    without throwing, with the configured sides or their defaults, when
    the configuration is absent or has a [diagramPadding];
    [getCssLocation] returns the location that the configured name
    stands for, and the default when the name is absent or empty; for
    any other name it returns no location: the member of
    [Object.prototype] of that name when there is one, and [undefined]
    otherwise. [getEdgeInfoDisplayed] does the same with the names of
    the kinds of edge information. *)
Theorem SvgParameters_accessors {num : Type} {NUM : Number num} :
  configured_or_default (num := num) SvgParams.getVoltageLevelCircleRadius voltageLevelCircleRadius (of_Z 30) /\
  configured_or_default (num := num) SvgParams.getInterAnnulusSpace interAnnulusSpace (of_Z 5) /\
  configured_or_default (num := num) SvgParams.getTransformerCircleRadius transformerCircleRadius (of_Z 20) /\
  (forall this : SvgParameters num,
      SvgParams.getEdgesForkAperture this =
      degToRad (match svgParametersMetadata this ≫= edgesForkAperture with
                | Some degrees => degrees
                | None => of_Z 60
                end)) /\
  configured_or_default (num := num) SvgParams.getEdgesForkLength edgesForkLength (of_Z 80) /\
  configured_or_default (num := num) SvgParams.getArrowShift arrowShift (of_Z 30) /\
  configured_or_default (num := num) SvgParams.getArrowLabelShift arrowLabelShift (of_Z 19) /\
  configured_or_default (num := num) SvgParams.getArrowPathIn arrowPathIn "M-10 -10 H10 L0 10z" /\
  configured_or_default (num := num) SvgParams.getArrowPathOut arrowPathOut "M-10 10 H10 L0 -10z" /\
  configured_or_default (num := num) SvgParams.getConverterStationWidth converterStationWidth (of_Z 70) /\
  configured_or_default (num := num) SvgParams.getNodeHollowWidth nodeHollowWidth (of_Z 15) /\
  configured_or_default (num := num) SvgParams.getUnknownBusNodeExtraRadius unknownBusNodeExtraRadius (of_Z 10) /\
  configured_or_default (num := num) SvgParams.getFictitiousVoltageLevelCircleRadius
    fictitiousVoltageLevelCircleRadius (of_Z 15) /\
  configured_or_default (num := num) SvgParams.getPowerValuePrecision powerValuePrecision (of_Z 0) /\
  configured_or_default (num := num) SvgParams.getCurrentValuePrecision currentValuePrecision (of_Z 0) /\
  configured_or_default (num := num) SvgParams.getAngleValuePrecision angleValuePrecision (of_Z 1) /\
  configured_or_default (num := num) SvgParams.getVoltageValuePrecision voltageValuePrecision (of_Z 1) /\
  (forall this : SvgParameters num,
      match svgParametersMetadata this with
      | None =>
          SvgParams.getDiagramPadding this =
          Normal {| left := of_Z 200; top := of_Z 200; right := of_Z 200; bottom := of_Z 200 |}
      | Some metadata =>
          forall padding, diagramPadding metadata = Some padding ->
            SvgParams.getDiagramPadding this =
            Normal {| left := pad_left padding ?? of_Z 200;
                      top := pad_top padding ?? of_Z 200;
                      right := pad_right padding ?? of_Z 200;
                      bottom := pad_bottom padding ?? of_Z 200 |}
      end) /\
  (forall this : SvgParameters num,
      match svgParametersMetadata this ≫= cssLocation with
      | None => SvgParams.getCssLocation this = Own EXTERNAL_NO_IMPORT
      | Some name =>
          (name = "" -> SvgParams.getCssLocation this = Own EXTERNAL_NO_IMPORT) /\
          (name = "INSERTED_IN_SVG" -> SvgParams.getCssLocation this = Own INSERTED_IN_SVG) /\
          (name = "EXTERNAL_IMPORTED" -> SvgParams.getCssLocation this = Own EXTERNAL_IMPORTED) /\
          (name = "EXTERNAL_NO_IMPORT" -> SvgParams.getCssLocation this = Own EXTERNAL_NO_IMPORT) /\
          (name ∉ [""; "INSERTED_IN_SVG"; "EXTERNAL_IMPORTED"; "EXTERNAL_NO_IMPORT"] ->
           SvgParams.getCssLocation this =
           if bool_decide (name ∈ Object_prototype) then Inherited name else Undefined)
      end) /\
  (SvgParams.getEdgeInfoDisplayed None = Own ACTIVE_POWER /\
   SvgParams.getEdgeInfoDisplayed (Some "") = Own ACTIVE_POWER /\
   SvgParams.getEdgeInfoDisplayed (Some "ActivePower") = Own ACTIVE_POWER /\
   SvgParams.getEdgeInfoDisplayed (Some "ReactivePower") = Own REACTIVE_POWER /\
   SvgParams.getEdgeInfoDisplayed (Some "Current") = Own CURRENT /\
   SvgParams.getEdgeInfoDisplayed (Some "Name") = Own NAME /\
   forall name : string,
     name ∉ [""; "ActivePower"; "ReactivePower"; "Current"; "Name"] ->
     SvgParams.getEdgeInfoDisplayed (Some name) =
     if bool_decide (name ∈ Object_prototype) then Inherited name else Undefined) /\
  SvgParams.getEdgesForkAperture (num := float) {| svgParametersMetadata := None |} =
    0x1.0c152382d7365p+0%float.
Proof.
  repeat match goal with
         | |- configured_or_default _ _ _ /\ _ => split; [apply field_or_default|]
         end.
  split; [reflexivity|].
  repeat match goal with
         | |- configured_or_default _ _ _ /\ _ => split; [apply field_or_default|]
         end.
  split; [|split].
  - intros [[metadata|]]; cbn; [|reflexivity].
    intros padding Hp. unfold SvgParams.getDiagramPadding, SvgParams.paddingField. cbn.
    rewrite Hp. reflexivity.
  - intros [[metadata|]]; unfold SvgParams.getCssLocation, SvgParams.field; cbn; [|reflexivity].
    destruct (cssLocation metadata) as [name|]; cbn; [|reflexivity].
    repeat split; try (intros ->; reflexivity).
    intros Hname. destruct (String.eqb_spec name "") as [->|_]; [exfalso; apply Hname; left|].
    cbn [negb]. apply table_get_other. intros Hin. apply Hname. right. exact Hin.
  - split; [split_and!; try reflexivity|].
    + intros name Hname. unfold SvgParams.getEdgeInfoDisplayed. cbn [truthy_string nullish].
      destruct (String.eqb_spec name "") as [->|_]; [exfalso; apply Hname; left|].
      cbn [negb]. apply table_get_other. intros Hin. apply Hname. right. exact Hin.
    + vm_compute. reflexivity.
Qed.

(** C8, as stated, fails: on a configuration object that has no
    [diagramPadding], [getDiagramPadding] throws; and on a configured
    [cssLocation] that is not one of the three names, [getCssLocation]
    returns [undefined], which is neither the configured value nor the
    default. *)
Lemma getDiagramPadding_throws_without_diagramPadding :
  SvgParams.getDiagramPadding {| svgParametersMetadata := Some partialConfiguration |} = Throw /\
  SvgParams.getCssLocation {| svgParametersMetadata := Some partialConfiguration |} = Undefined.
Proof. split; reflexivity. Qed.


(** ** Reassigning the bus of a branch side *)

(** C6. [setBranchBusConnection] leaves the edge unchanged when the
    target bus belongs to another voltage level than the bus now
    connected on that side; when it changes the edge, a bus id was
    given, the target bus exists and no bus of another voltage level is
    connected on that side; and when the target bus exists and the
    check passes, the bus node of that side becomes the [svgId] of the
    target bus, every other field of the edge being kept. *)
Theorem setBranchBusConnection_voltage_level_check {num : Type}
    (diagramMetadata : option (DiagramMetadata num)) (edge : EdgeMetadata num)
    (side busId : string) :
  let edge' := setBranchBusConnection diagramMetadata edge side (Some busId) in
  (forall target current,
      targetBusNode diagramMetadata busId = Some target ->
      currentBusNode diagramMetadata edge side = Some current ->
      vlNode current <> vlNode target ->
      edge' = edge) /\
  (edge' <> edge ->
   busId <> "" /\
   exists target,
     targetBusNode diagramMetadata busId = Some target /\
     forall current, currentBusNode diagramMetadata edge side = Some current ->
                     vlNode current = vlNode target) /\
  (forall target,
      busId <> "" ->
      targetBusNode diagramMetadata busId = Some target ->
      (forall current, currentBusNode diagramMetadata edge side = Some current ->
                       vlNode current = vlNode target) ->
      (if String.eqb side "1"
       then busNode1 edge' = bus_svgId target
       else busNode2 edge' = bus_svgId target) /\
      same_but_busNode (String.eqb side "1") edge edge') /\
  setBranchBusConnection diagramMetadata edge side None = edge.
Proof.
  intros edge'. subst edge'.
  unfold setBranchBusConnection, targetBusNode, currentBusNode, getBusNodeMetadata.
  cbn [truthy_string nullish].
  split_and!; [| | |reflexivity].
  all: destruct (String.eqb_spec busId "") as [Eid|Eid]; cbn [negb].
  all: destruct (diagramMetadata ≫= fun d => List.find (fun busNode =>
                   String.eqb (bus_equipmentId busNode) busId) (busNodes d))
         as [target|] eqn:Et.
  all: destruct (diagramMetadata ≫= fun d => List.find (fun busNode =>
                   String.eqb (bus_svgId busNode)
                              (if String.eqb side "1" then busNode1 edge else busNode2 edge))
                   (busNodes d)) as [current|] eqn:Ec.
  all: try destruct (String.eqb_spec (vlNode current) (vlNode target)) as [Ev|Ev]; cbn [negb].
  all: try (intros; congruence).
  - intros _. split; [assumption|]. exists target. split; [reflexivity|].
    intros ? [= <-]. assumption.
  - intros _. split; [assumption|]. exists target. split; [reflexivity|]. intros ? [=].
  - intros ? _ [= <-] _.
    destruct (String.eqb side "1"); (split; [reflexivity|repeat split]).
  - intros ? _ [= <-] Hv. exfalso. apply Ev. now apply Hv.
  - intros ? _ [= <-] _.
    destruct (String.eqb side "1"); (split; [reflexivity|repeat split]).
Qed.

(** ** Half-edges of an edge whose nodes are missing *)

(** C5. When the lookup of an end node fails, [getHalfEdges] returns
    [[null, null]]; [getThreeWtHalfEdge] returns [undefined] when its
    points are [null] and when the lookup of the voltage-level node or
    of the transformer node fails; [getHalfVisibleHalfEdges] returns
    [[null, null]] when the polyline points are [null] or empty and when
    the visible node is not found. None of these calls throws. *)
Theorem half_edges_of_missing_nodes {num : Type} {NUM : Number num} {MATH : JsMath num}
    (edge : EdgeMetadata num) (diagramMetadata : option (DiagramMetadata num))
    (svgParameters : SvgParameters num) :
  (forall iEdge groupedEdgesCount,
      getNodeMetadata (node1 edge) diagramMetadata = None \/
      getNodeMetadata (node2 edge) diagramMetadata = None ->
      getHalfEdges edge iEdge groupedEdgesCount diagramMetadata svgParameters = (None, None)) /\
  (forall threeWtMoved initialPosition,
      getThreeWtHalfEdge None edge threeWtMoved initialPosition diagramMetadata svgParameters =
      Normal None) /\
  (forall points threeWtMoved initialPosition,
      getNodeMetadata (node1 edge) diagramMetadata = None \/
      getNodeMetadata (node2 edge) diagramMetadata = None ->
      getThreeWtHalfEdge points edge threeWtMoved initialPosition diagramMetadata svgParameters =
      Normal None) /\
  (forall visibleSide fork initialPosition,
      getHalfVisibleHalfEdges None edge visibleSide fork diagramMetadata initialPosition
                              svgParameters = Normal (None, None) /\
      getHalfVisibleHalfEdges (Some []) edge visibleSide fork diagramMetadata initialPosition
                              svgParameters = Normal (None, None)) /\
  (forall polylinePoints visibleSide fork initialPosition,
      getNodeMetadata (if String.eqb visibleSide "1" then node1 edge else node2 edge)
                      diagramMetadata = None ->
      getHalfVisibleHalfEdges polylinePoints edge visibleSide fork diagramMetadata
                              initialPosition svgParameters = Normal (None, None)).
Proof.
  split_and!.
  - intros iEdge groupedEdgesCount H. unfold getHalfEdges.
    destruct (getNodeMetadata (node1 edge) diagramMetadata),
             (getNodeMetadata (node2 edge) diagramMetadata);
      destruct H as [H|H]; try discriminate H; reflexivity.
  - reflexivity.
  - intros [points|] threeWtMoved initialPosition H; [|reflexivity].
    unfold getThreeWtHalfEdge.
    destruct (getNodeMetadata (node1 edge) diagramMetadata),
             (getNodeMetadata (node2 edge) diagramMetadata);
      destruct H as [H|H]; try discriminate H; reflexivity.
  - intros. split; reflexivity.
  - intros [points|] visibleSide fork initialPosition H; [|reflexivity].
    unfold getHalfVisibleHalfEdges.
    destruct (Nat.eqb (length points) 0); [reflexivity|].
    unfold getNodeMetadata in H. rewrite H. reflexivity.
Qed.

(** ** Radii of a bus annulus *)





(** ** Path of a bus annulus *)

#[export] Instance float_NaNLaws : NaNLaws float.
Proof.
  split.
  - intros d. change (PrimFloat.sub PrimFloat.nan d = PrimFloat.nan).
    rewrite <- (SF2Prim_Prim2SF (PrimFloat.sub PrimFloat.nan d)), FloatAxioms.sub_spec.
    change (Prim2SF PrimFloat.nan) with S754_nan.
    destruct (Prim2SF d); reflexivity.
  - intros x. change (PrimFloat.ltb x PrimFloat.nan = false).
    rewrite FloatAxioms.ltb_spec. change (Prim2SF PrimFloat.nan) with S754_nan.
    destruct (Prim2SF x) as [[]|[]| |[]]; reflexivity.
Qed.

#[export] Instance ideal_NaNLaws : NaNLaws ideal.
Proof.
  split.
  - intros d. reflexivity.
  - intros [x|]; reflexivity.
Qed.

Lemma string_app_assoc (a b c : string) : (a +:+ b) +:+ c = a +:+ (b +:+ c).
Proof.
  induction a as [|ch a IH]; [reflexivity|].
  change (String ch ((a +:+ b) +:+ c) = String ch (a +:+ (b +:+ c))). now f_equal.
Qed.

Lemma string_app_empty_r (a : string) : a +:+ "" = a.
Proof.
  induction a as [|ch a IH]; [reflexivity|].
  change (String ch (a +:+ "") = String ch a). now f_equal.
Qed.

Lemma getCirclePath_arc {num : Type} {NUM : Number num} {MATH : JsMath num}
    (radius angleStart angleEnd : num) (clockWise : bool) :
  getCirclePath radius angleStart angleEnd clockWise = arc radius angleStart angleEnd clockWise.
Proof. unfold getCirclePath, arc, circlePoint. now rewrite !string_app_assoc. Qed.

Lemma annulusLoop_slices {num : Type} {NUM : Number num} {LAWS : NaNLaws num}
    {MATH : JsMath num} (nodeRadius : NodeRadius num) (nodeHollowWidth : num)
    (angles : list num) (path : string) :
  annulusLoop nodeRadius
    (nodeHollowWidth / #2 / busOuterRadius nodeRadius)%js
    (nodeHollowWidth / #2 / busInnerRadius nodeRadius)%js angles path =
  path +:+ concat_strings
             (List.map (slicePath nodeRadius nodeHollowWidth)
                (List.filter (sliceEmitted nodeRadius nodeHollowWidth) (consecutive angles))).
Proof.
  revert path. induction angles as [|angle rest IH]; intros path.
  - cbn. now rewrite string_app_empty_r.
  - cbn [annulusLoop]. rewrite IH. destruct rest as [|next rest].
    + cbn. rewrite sub_NaN, lt_NaN. cbn. reflexivity.
    + cbn [consecutive List.filter]. unfold sliceEmitted at 2, outerArc, innerArc. cbn [fst snd].
      destruct (_ && _).
      * cbn [List.map concat_strings foldr]. unfold slicePath at 2, outerArc, innerArc.
        cbn [fst snd]. now rewrite !getCirclePath_arc, !string_app_assoc.
      * reflexivity.
Qed.

(** C7. Without angles, the path of the annulus is the two arcs of the
    full outer circle (radius [busOuterRadius], sweep flag 1:
    clockwise), followed, only when the inner radius is positive, by
    the two arcs of the full inner circle (radius [busInnerRadius],
    sweep flag 0: counter-clockwise). With angles, the path is made of
    the slices between consecutive angles, in order, keeping those only
    whose outer arc, inset by [halfWidth / busOuterRadius] at both ends,
    ends strictly after its start and whose inner arc, inset by
    [halfWidth / busInnerRadius], ends strictly before its start; a
    slice is the outer arc, clockwise, a line to the inner arc and the
    inner arc, counter-clockwise and backwards, closed by "Z". Each
    arc is written as SVG path data, as [arc] spells it. *)
Theorem getFragmentedAnnulusPath_slices {num : Type} {NUM : Number num} {LAWS : NaNLaws num}
    {MATH : JsMath num} (nodeRadius : NodeRadius num) (nodeHollowWidth : num) :
  getFragmentedAnnulusPath [] nodeRadius nodeHollowWidth =
    fullCircle (busOuterRadius nodeRadius) true +:+
    (if (busInnerRadius nodeRadius >? #0)%js
     then " " +:+ fullCircle (busInnerRadius nodeRadius) false
     else "") /\
  forall (angle : num) (angles : list num),
    getFragmentedAnnulusPath (angle :: angles) nodeRadius nodeHollowWidth =
    concat_strings
      (List.map (slicePath nodeRadius nodeHollowWidth)
         (List.filter (sliceEmitted nodeRadius nodeHollowWidth) (consecutive (angle :: angles)))).
Proof.
  split.
  - unfold getFragmentedAnnulusPath, fullCircle. cbn [length Nat.eqb].
    rewrite !getCirclePath_arc. destruct (_ >? _)%js.
    + now rewrite !string_app_assoc.
    + now rewrite string_app_empty_r.
  - intros angle angles. unfold getFragmentedAnnulusPath. cbn [length Nat.eqb].
    rewrite annulusLoop_slices. reflexivity.
Qed.

(** ** Insertion of a bend point *)

Lemma nearestSegment_step {num : Type} {NUM : Number num} (bendPoint point1 point2 : Point num)
    (rest : list (Point num)) (i : nat) (minDistance : num) (index : nat) :
  nearestSegment bendPoint (point1 :: point2 :: rest) i minDistance index =
  if (getSquareDistanceFromSegment bendPoint point1 point2 <? minDistance)%js
  then nearestSegment bendPoint (point2 :: rest) (S i)
         (getSquareDistanceFromSegment bendPoint point1 point2) i
  else nearestSegment bendPoint (point2 :: rest) (S i) minDistance index.
Proof. reflexivity. Qed.

Lemma nearestSegment_range {num : Type} {NUM : Number num} (bendPoint : Point num)
    (points : list (Point num)) (i : nat) (minDistance : num) (index : nat) :
  nearestSegment bendPoint points i minDistance index = index \/
  (i <= nearestSegment bendPoint points i minDistance index < i + (length points - 1))%nat.
Proof.
  revert i minDistance index.
  induction points as [|point1 [|point2 rest] IH]; intros i minDistance index;
    [now left | now left |].
  rewrite nearestSegment_step.
  destruct (_ <? _)%js.
  - destruct (IH (S i) (getSquareDistanceFromSegment bendPoint point1 point2) i) as [H|H];
      right; cbn [length] in *; lia.
  - destruct (IH (S i) minDistance index) as [H|H]; [now left|].
    right; cbn [length] in *; lia.
Qed.

Lemma addPointToList_shape {num : Type} {NUM : Number num}
    (pointsMetadata : option (list (Point num))) (node1 node2 bendPoint : Point num) :
  let points := pointsMetadata ?? [] in
  let result := addPointToList pointsMetadata node1 node2 bendPoint in
  let inserted := match pointsMetadata with
                  | None => bendPoint
                  | Some _ => mkPoint (round (px bendPoint)) (round (py bendPoint))
                  end in
  (result.2 <= length points)%nat /\
  result.1 = firstn result.2 points ++ inserted :: skipn result.2 points.
Proof.
  destruct pointsMetadata as [points|]; unfold addPointToList, splice_insert;
    cbn [fst snd nullish].
  - split; [|reflexivity].
    pose proof (nearestSegment_range bendPoint
                  (mkPoint (px node1) (py node1) :: points ++ [mkPoint (px node2) (py node2)])
                  0 MAX_VALUE 0) as H.
    cbn [length] in H. rewrite length_app in H. cbn [length] in H. lia.
  - split; [cbn; lia|]. now destruct bendPoint.
Qed.

(** *** The exact model against plane geometry *)

Lemma segmentNorm_zero (a b : Point R) : segmentNorm (a, b) = 0%R <-> a = b.
Proof.
  unfold segmentNorm. cbn [fst snd]. destruct a as [ax ay], b as [bx_ by_]. cbn [px py]. split.
  - intros H. destruct (Rplus_sqr_eq_0 (bx_ - ax) (by_ - ay) H) as [H1 H2].
    f_equal; lra.
  - intros [= -> ->]. lra.
Qed.

Lemma getSquareDistanceFromSegment_ideal (p a b : Point R) :
  getSquareDistanceFromSegment (finPoint p) (finPoint a) (finPoint b) =
  if Req_dec_T (segmentNorm (a, b)) 0 then NotANumber
  else Fin (squareDistanceFromSegment p (a, b)).
Proof.
  unfold getSquareDistanceFromSegment, getValue, squareDistanceFromSegment, squareDistance,
    pointAt, projectionParameter, clamp01, segmentNorm, finPoint.
  cbn [px py fst snd]. cbn [sub mul add div lt of_Z ideal_Number Ideal.lift2 Ideal.div Ideal.lt].
  destruct (Req_dec_T _ 0) as [E|E]; [reflexivity|].
  cbn [Ideal.lt Ideal.lift2].
  set (t := (_ / _)%R).
  destruct (Rlt_dec t 0) as [Ht|Ht]; [cbn [Ideal.lift2]; f_equal; ring|].
  destruct (Rlt_dec 1 t) as [Ht1|Ht1]; cbn [Ideal.lift2]; f_equal; ring.
Qed.

Lemma nearestSegment_ideal (p : Point R) (points : list (Point R)) (i : nat) (m : R)
    (index : nat) :
  (nearestSegment (finPoint p) (List.map finPoint points) i (Fin m) index = index /\
   forall s, s ∈ consecutive points -> segmentNorm s <> 0%R ->
             (m <= squareDistanceFromSegment p s)%R) \/
  (exists k s,
      nearestSegment (finPoint p) (List.map finPoint points) i (Fin m) index = (i + k)%nat /\
      consecutive points !! k = Some s /\
      segmentNorm s <> 0%R /\
      (squareDistanceFromSegment p s < m)%R /\
      forall s', s' ∈ consecutive points -> segmentNorm s' <> 0%R ->
                 (squareDistanceFromSegment p s <= squareDistanceFromSegment p s')%R).
Proof.
  revert i m index.
  induction points as [|point1 [|point2 rest] IH]; intros i m index.
  - left. split; [reflexivity|]. intros s Hs. inversion Hs.
  - left. split; [reflexivity|]. intros s Hs. inversion Hs.
  - change (List.map finPoint (point1 :: point2 :: rest))
      with (finPoint point1 :: finPoint point2 :: List.map finPoint rest).
    rewrite nearestSegment_step, getSquareDistanceFromSegment_ideal.
    change (finPoint point2 :: List.map finPoint rest)
      with (List.map finPoint (point2 :: rest)).
    change (consecutive (point1 :: point2 :: rest))
      with ((point1, point2) :: consecutive (point2 :: rest)).
    set (d := squareDistanceFromSegment p (point1, point2)).
    destruct (Req_dec_T (segmentNorm (point1, point2)) 0) as [E|E].
    + change (NotANumber <? Fin m)%js with false. cbv iota.
      destruct (IH (S i) m index) as [[Hr Hmin]|(k & s & Hr & Hk & Hs & Hlt & Hmin)].
      * left. split; [exact Hr|]. intros s [->|Hs]%elem_of_cons Hn; [contradiction|].
        now apply Hmin.
      * right. exists (S k), s. split_and!; try assumption; [lia|].
        intros s' [->|Hs']%elem_of_cons Hn; [contradiction|]. now apply Hmin.
    + change (Fin d <? Fin m)%js with (if Rlt_dec d m then true else false).
      destruct (Rlt_dec d m) as [Hd|Hd].
      * destruct (IH (S i) d i) as [[Hr Hmin]|(k & s & Hr & Hk & Hs & Hlt & Hmin)].
        -- right. exists 0%nat, (point1, point2). split_and!; try assumption; [lia|reflexivity|].
           intros s' [->|Hs']%elem_of_cons Hn; [lra|]. now apply Hmin.
        -- right. exists (S k), s. split_and!; try assumption; [lia|lra|].
           intros s' [->|Hs']%elem_of_cons Hn; [fold d; lra|]. now apply Hmin.
      * destruct (IH (S i) m index) as [[Hr Hmin]|(k & s & Hr & Hk & Hs & Hlt & Hmin)].
        -- left. split; [exact Hr|]. intros s [->|Hs]%elem_of_cons Hn; [fold d; lra|].
           now apply Hmin.
        -- right. exists (S k), s. split_and!; try assumption; [lia|].
           intros s' [->|Hs']%elem_of_cons Hn; [fold d; lra|]. now apply Hmin.
Qed.

(** The clamped projection on a segment is at least as near as its two
    ends. *)
Lemma squareDistanceFromSegment_ends (p a b : Point R) :
  (squareDistanceFromSegment p (a, b) <= squareDistance p a)%R /\
  (squareDistanceFromSegment p (a, b) <= squareDistance p b)%R.
Proof.
  unfold squareDistanceFromSegment, squareDistance, pointAt, projectionParameter, clamp01.
  cbn [fst snd px py].
  destruct a as [ax ay], b as [bx_ by_], p as [x y]. cbn [px py].
  assert (Hbx : bx_ = (ax + (bx_ - ax))%R) by lra.
  assert (Hby : by_ = (ay + (by_ - ay))%R) by lra.
  revert Hbx Hby.
  generalize (bx_ - ax)%R as dx. generalize (by_ - ay)%R as dy. intros dy dx -> ->.
  set (n := ((x - ax) * dx + (y - ay) * dy)%R).
  set (q := (dx * dx + dy * dy)%R).
  assert (Hq : (0 <= q)%R) by (subst q; nra).
  destruct (Req_dec_T q 0) as [E|E].
  - destruct (Rplus_sqr_eq_0 dx dy E) as [-> ->].
    generalize (clamp01 (n / q)). unfold clamp01.
    destruct (Rlt_dec (n / q) 0); [split; lra|]. destruct (Rlt_dec 1 (n / q)); split; lra.
  - assert (Hq' : (0 < q)%R) by lra.
    assert (Ht : (n / q * q = n)%R) by (field; exact E).
    set (t := (n / q)%R) in *.
    destruct (Rlt_dec t 0) as [H0|H0].
    + split; [lra|]. assert (n < 0)%R by nra. subst n q. nra.
    + destruct (Rlt_dec 1 t) as [H1|H1].
      * assert (q < n)%R by nra. subst n q. split; nra.
      * assert (0 <= n <= q)%R by nra.
        assert (Hdn : (t * n = t * t * q)%R) by nra.
        subst n q. split; nra.
Qed.

Lemma consecutive_ends {A : Type} (l : list A) (s : A * A) :
  s ∈ consecutive l -> s.1 ∈ l /\ s.2 ∈ l.
Proof.
  induction l as [|a [|b rest] IH]; [inversion 1 | inversion 1 |].
  change (consecutive (a :: b :: rest)) with ((a, b) :: consecutive (b :: rest)).
  intros [->|Hs]%elem_of_cons.
  - cbn. split; [left|right; left].
  - destruct (IH Hs). split; now right.
Qed.

(** In a chain of points, a point is an end of a segment that is not
    reduced to a point, unless the whole chain is one point. *)
Lemma chain_point_on_segment (chain : list (Point R)) (c : Point R) :
  c ∈ chain ->
  (exists s, s ∈ consecutive chain /\ segmentNorm s <> 0%R /\ (c = s.1 \/ c = s.2)) \/
  (forall c', c' ∈ chain -> c' = c).
Proof.
  induction chain as [|x [|y rest] IH]; [inversion 1 | |].
  - intros ->%list_elem_of_singleton. right. now intros c' ->%list_elem_of_singleton.
  - change (consecutive (x :: y :: rest)) with ((x, y) :: consecutive (y :: rest)).
    intros Hc. destruct (Req_dec_T (segmentNorm (x, y)) 0) as [E|E].
    + apply segmentNorm_zero in E. subst y.
      assert (Hc' : c ∈ x :: rest) by (apply elem_of_cons in Hc as [->|Hc]; [left|exact Hc]).
      destruct (IH Hc') as [(s & Hs & Hn & He)|Hall].
      * left. exists s. split_and!; [now right|assumption..].
      * right. intros c' [->|Hc'']%elem_of_cons; apply Hall; [left|assumption].
    + apply elem_of_cons in Hc as [->|Hc].
      * left. exists (x, y). split_and!; [left|assumption|now left].
      * destruct (IH Hc) as [(s & Hs & Hn & He)|Hall].
        -- left. exists s. split_and!; [now right|assumption..].
        -- left. exists (x, y). split_and!; [left|assumption|].
           right. cbn. symmetry. apply Hall. left.
Qed.

Lemma squareDistanceFromSegment_point (p a : Point R) :
  squareDistanceFromSegment p (a, a) = squareDistance p a.
Proof.
  unfold squareDistanceFromSegment, squareDistance, pointAt. cbn [fst snd px py].
  f_equal; f_equal; ring.
Qed.

(** The index that [addPointToList] returns names a segment of the
    extended chain that no other segment beats. *)
Lemma addPointToList_minimal (points : list (Point R)) (node1 node2 bendPoint : Point R) :
  let segments := consecutive (node1 :: points ++ [node2]) in
  let index := (addPointToList (Some (List.map finPoint points)) (finPoint node1)
                               (finPoint node2) (finPoint bendPoint)).2 in
  (forall s, s ∈ segments -> (squareDistanceFromSegment bendPoint s < Ideal.MAX_VALUE)%R) ->
  exists nearest,
    segments !! index = Some nearest /\
    forall s, s ∈ segments ->
      (squareDistanceFromSegment bendPoint nearest <= squareDistanceFromSegment bendPoint s)%R.
Proof.
  intros segments index Hmax. subst index. unfold addPointToList. cbn [snd].
  change (mkPoint (px (finPoint node1)) (py (finPoint node1))) with (finPoint node1).
  change (mkPoint (px (finPoint node2)) (py (finPoint node2))) with (finPoint node2).
  change (finPoint node1 :: List.map finPoint points ++ [finPoint node2])
    with (finPoint node1 :: List.map finPoint points ++ List.map finPoint [node2]).
  rewrite <- List.map_app.
  change (finPoint node1 :: List.map finPoint (points ++ [node2]))
    with (List.map finPoint (node1 :: points ++ [node2])).
  set (chain := node1 :: points ++ [node2]) in *.
  change (MAX_VALUE (num := ideal)) with (Fin Ideal.MAX_VALUE).
  destruct (nearestSegment_ideal bendPoint chain 0 Ideal.MAX_VALUE 0)
    as [[Hr Hmin]|(k & nearest & Hr & Hk & Hn & Hlt & Hmin)].
  - (* no segment is a candidate: the chain is one point *)
    rewrite Hr.
    assert (Hdeg : forall s, s ∈ segments -> segmentNorm s = 0%R).
    { intros s Hs. destruct (Req_dec_T (segmentNorm s) 0) as [E|E]; [exact E|].
      specialize (Hmin s Hs E). specialize (Hmax s Hs). lra. }
    destruct (segments !! 0%nat) as [[a b]|] eqn:E0.
    + exists (a, b). split; [reflexivity|]. intros [a' b'] Hs.
      assert (Ha : a ∈ chain) by (apply (consecutive_ends chain (a, b)); eapply list_elem_of_lookup_2; exact E0).
      pose proof (proj1 (segmentNorm_zero a b) (Hdeg _ (list_elem_of_lookup_2 _ _ _ E0))) as <-.
      pose proof (proj1 (segmentNorm_zero a' b') (Hdeg _ Hs)) as <-.
      destruct (chain_point_on_segment chain a Ha) as [(s & Hs' & Hn & _)|Hall].
      * exfalso. apply Hn. now apply Hdeg.
      * rewrite (Hall a'); [lra|]. now apply (consecutive_ends chain (a', a')).
    + exfalso. subst segments chain. destruct points; discriminate E0.
  - rewrite Hr. exists nearest. split; [exact Hk|]. intros [a b] Hs.
    destruct (Req_dec_T (segmentNorm (a, b)) 0) as [E|E]; [|now apply Hmin].
    apply segmentNorm_zero in E. subst b. rewrite squareDistanceFromSegment_point.
    assert (Ha : a ∈ chain) by now apply (consecutive_ends chain (a, a)).
    destruct (chain_point_on_segment chain a Ha) as [([a' b'] & Hs' & Hn' & He)|Hall].
    + etransitivity; [apply (Hmin (a', b') Hs' Hn')|].
      cbn [fst snd] in He. destruct He as [->| ->]; apply squareDistanceFromSegment_ends.
    + exfalso. apply Hn. destruct nearest as [a' b']. apply segmentNorm_zero.
      apply list_elem_of_lookup_2 in Hk. apply consecutive_ends in Hk as [H1 H2].
      cbn [fst snd] in H1, H2. rewrite (Hall _ H1), (Hall _ H2). reflexivity.
Qed.

(** C3 (amended). [addPointToList] returns a list that has one point more than
    the list it is given (none when it is given [undefined]) and an
    index between 0 and the last position of the returned list, at
    which the returned list holds the inserted point (the new point,
    rounded to two decimals when a list is given); the points before
    and after it are those of the given list, in order. In exact
    arithmetic, when the squared distances stay below
    [Number.MAX_VALUE], the index is that of a segment of the chain
    [node1], points, [node2] whose squared distance to the new point,
    measured at the projection of parameter clamped to [0, 1], is the
    least over all the segments of the chain. *)
Theorem addPointToList_nearest_segment :
  (forall (num : Type) (NUM : Number num) (pointsMetadata : option (list (Point num)))
          (node1 node2 bendPoint : Point num),
      let points := pointsMetadata ?? [] in
      let result := addPointToList pointsMetadata node1 node2 bendPoint in
      let inserted := match pointsMetadata with
                      | None => bendPoint
                      | Some _ => mkPoint (round (px bendPoint)) (round (py bendPoint))
                      end in
      length result.1 = S (length points) /\
      (0 <= result.2 <= length result.1 - 1)%nat /\
      result.1 !! result.2 = Some inserted /\
      result.1 = firstn result.2 points ++ inserted :: skipn result.2 points) /\
  (forall (points : list (Point R)) (node1 node2 bendPoint : Point R),
      let segments := consecutive (node1 :: points ++ [node2]) in
      let index := (addPointToList (Some (List.map finPoint points)) (finPoint node1)
                                   (finPoint node2) (finPoint bendPoint)).2 in
      (forall s, s ∈ segments ->
                 (squareDistanceFromSegment bendPoint s < Ideal.MAX_VALUE)%R) ->
      exists nearest,
        segments !! index = Some nearest /\
        forall s, s ∈ segments ->
          (squareDistanceFromSegment bendPoint nearest <=
           squareDistanceFromSegment bendPoint s)%R).
Proof.
  split; [|exact addPointToList_minimal].
  intros num NUM pointsMetadata node1 node2 bendPoint points result inserted.
  destruct (addPointToList_shape pointsMetadata node1 node2 bendPoint) as [Hi Hl].
  fold points result inserted in Hi, Hl.
  assert (Hlen : length result.1 = S (length points)).
  { rewrite Hl, length_app. cbn [length]. rewrite length_firstn, length_skipn. lia. }
  split_and!; [exact Hlen|lia|lia| |exact Hl].
  rewrite Hl at 1. rewrite lookup_app_r; rewrite length_firstn; [|lia].
  replace (result.2 - result.2 `min` length points)%nat with 0%nat by lia. reflexivity.
Qed.

Lemma MAX_VALUE_large : (1000000 < Ideal.MAX_VALUE)%R.
Proof. unfold Ideal.MAX_VALUE. apply IZR_lt. reflexivity. Qed.

(** The third call of the test suite of [addPointToList], in exact
    arithmetic: no squared distance reaches [Number.MAX_VALUE]. *)
Lemma addPointToList_nearest_segment_witness :
  let points := [mkPoint 75%R 75%R; mkPoint 90%R 90%R] in
  let node1 := mkPoint 25%R 0%R in
  let node2 := mkPoint 100%R 100%R in
  let bendPoint := mkPoint 80%R 80%R in
  let segments := consecutive (node1 :: points ++ [node2]) in
  exists nearest,
    segments !! (addPointToList (Some (List.map finPoint points)) (finPoint node1)
                                (finPoint node2) (finPoint bendPoint)).2 = Some nearest /\
    forall s, s ∈ segments ->
      (squareDistanceFromSegment bendPoint nearest <= squareDistanceFromSegment bendPoint s)%R.
Proof.
  intros points node1 node2 bendPoint segments.
  apply (proj2 addPointToList_nearest_segment points node1 node2 bendPoint).
  intros s Hs.
  eapply Rle_lt_trans; [|exact MAX_VALUE_large].
  destruct s as [a b].
  destruct (squareDistanceFromSegment_ends bendPoint a b) as [Ha _].
  eapply Rle_trans; [exact Ha|]. clear Ha.
  subst segments points node1 node2 bendPoint. cbn in Hs.
  repeat (apply elem_of_cons in Hs as [[= -> ->]|Hs];
          [unfold squareDistance; cbn [px py]; lra|]).
  inversion Hs.
Defined.

Lemma squareDistanceFromSegment_far_end (x : R) :
  (5 <= x)%R ->
  squareDistanceFromSegment (pointR 5 11) (pointR 0 10, pointR x 10) = 1%R.
Proof.
  intros Hx. unfold squareDistanceFromSegment, squareDistance, pointAt, projectionParameter,
    clamp01, pointR. cbn [fst snd px py].
  set (t := (_ / _)%R).
  assert (Ht : (t * x = 5)%R) by (subst t; field; lra).
  assert (H0 : (0 < t)%R) by nra.
  assert (H1 : (t <= 1)%R) by nra.
  destruct (Rlt_dec t 0) as [?|_]; [lra|]. destruct (Rlt_dec 1 t) as [?|_]; [lra|].
  replace (t * (x - 0))%R with 5%R by lra. lra.
Qed.

(** C3, as stated, fails in binary64: for the point (5, 11) and the
    chain (0, 0), (0, 10), (2^700, 10), whose coordinates are binary64
    numbers, [addPointToList] returns the index 0, of the segment from
    (0, 0) to (0, 10), at the squared distance 26 from the point, while
    the segment from (0, 10) to (2^700, 10) is at the squared distance
    1: the square of its length overflows. *)
Lemma addPointToList_not_nearest_in_binary64 :
  addPointToList (Some [point64 0 10]) (point64 0 0) (point64 0x1p+700 10) (point64 5 11) =
    ([point64 5 11; point64 0 10], 0%nat) /\
  squareDistanceFromSegment (pointR 5 11) (pointR 0 0, pointR 0 10) = 26%R /\
  squareDistanceFromSegment (pointR 5 11) (pointR 0 10, pointR (IZR (2 ^ 700)) 10) = 1%R.
Proof.
  split_and!.
  - vm_compute. reflexivity.
  - unfold squareDistanceFromSegment, squareDistance, pointAt, projectionParameter,
      clamp01, pointR. cbn [fst snd px py].
    destruct (Rlt_dec _ 0) as [H|_]; [exfalso; revert H; apply Rle_not_lt; lra|].
    destruct (Rlt_dec 1 _) as [_|H]; [lra|exfalso; apply H; lra].
  - apply squareDistanceFromSegment_far_end. apply IZR_le. vm_compute. discriminate.
Qed.

(** ** Splitting a bent edge at its middle *)



(** *** Facts of the exact model *)





(** *** The loop, over any numbers on which adding a distance never
    brings a sum back below a bound *)

Section SplitLoop.
Context {num : Type} {NUM : Number num}.
Hypothesis lt_add_distance : forall (a c : num) (p q : Point num),
  (a <? c)%js = false -> (a + getDistance p q <? c)%js = false.
Variable d : num.



End SplitLoop.

(** *** The split, in the exact model *)




(** *** The split, on real coordinates *)

Lemma getDistance_fin (p q : Point R) :
  getDistance (finPoint p) (finPoint q) = Fin (distance p q).
Proof. reflexivity. Qed.




Lemma distance_nonneg (p q : Point R) : (0 <= distance p q)%R.
Proof. apply sqrt_pos. Qed.

Lemma distance_sym (p q : Point R) : distance p q = distance q p.
Proof. unfold distance, squareDistance. f_equal. ring. Qed.

Lemma getPointAtDistance_fin (p q : Point R) (radius : R) :
  distance p q <> 0%R ->
  getPointAtDistance (finPoint p) (finPoint q) (Fin radius) =
  finPoint (pointAt (p, q) (radius / distance p q)).
Proof.
  intros Hd. unfold getPointAtDistance. rewrite getDistance_fin.
  cbn. destruct (Req_dec_T (distance p q) 0) as [E|_]; [contradiction|]. reflexivity.
Qed.

(** The point of parameter [t <= 1] of the segment from [b] to [a] is
    at [(1 - t)] times the length of the segment from [a]. *)
Lemma distance_pointAt (a b : Point R) (t : R) :
  (t <= 1)%R -> distance a (pointAt (b, a) t) = ((1 - t) * distance a b)%R.
Proof.
  intros Ht. unfold distance, squareDistance, pointAt. cbn [fst snd px py].
  replace ((px a - (px b + t * (px a - px b))) * (px a - (px b + t * (px a - px b))) +
           (py a - (py b + t * (py a - py b))) * (py a - (py b + t * (py a - py b))))%R
    with (((1 - t) * (1 - t)) *
          ((px a - px b) * (px a - px b) + (py a - py b) * (py a - py b)))%R by ring.
  rewrite sqrt_mult_alt by nra. rewrite sqrt_square by lra. reflexivity.
Qed.










(** ** Bend handles and positions *)

Lemma shiftOthers_lookup (id edgeSvgId : string) (test : Z -> bool) (step : Z)
    (map : gmap string LinePointIndex) (handle : string) :
  shiftOthers id edgeSvgId test step map !! handle =
  (fun value =>
     if negb (String.eqb handle id) && String.eqb (edgeId value) edgeSvgId
        && test (lp_index value)
     then {| edgeId := edgeId value; lp_index := lp_index value + step |}
     else value) <$> map !! handle.
Proof.
  unfold shiftOthers. rewrite map_lookup_imap. now destruct (map !! handle).
Qed.

Lemma other_handle_of_edge (handle id e edgeSvgId : string) :
  negb (String.eqb handle id) && String.eqb e edgeSvgId =
  bool_decide (handle <> id /\ e = edgeSvgId).
Proof.
  destruct (String.eqb_spec handle id), (String.eqb_spec e edgeSvgId); cbn;
    symmetry; [apply bool_decide_eq_false|apply bool_decide_eq_false|
               apply bool_decide_eq_true|apply bool_decide_eq_false]; tauto.
Qed.

(** What the loop does to an entry, case by case. *)
Lemma shiftOthers_lookup_Some (id edgeSvgId : string) (test : Z -> bool) (step : Z)
    (map : gmap string LinePointIndex) (handle e : string) (j : Z) :
  shiftOthers id edgeSvgId test step map !! handle = Some {| edgeId := e; lp_index := j |} <->
  exists j0, map !! handle = Some {| edgeId := e; lp_index := j0 |} /\
             j = if bool_decide (handle <> id /\ e = edgeSvgId) && test j0
                 then (j0 + step)%Z else j0.
Proof.
  rewrite shiftOthers_lookup.
  destruct (map !! handle) as [[e0 j0]|]; cbn [fmap option_fmap option_map edgeId lp_index];
    [|split; [discriminate|intros (? & [=] & _)]].
  rewrite other_handle_of_edge. split.
  - intros H. exists j0.
    destruct (bool_decide (handle <> id /\ e0 = edgeSvgId) && test j0) eqn:Eb;
      injection H as <- <-; rewrite Eb; split; reflexivity.
  - intros (j1 & [= <- <-] & ->).
    destruct (bool_decide (handle <> id /\ e0 = edgeSvgId) && test j0); reflexivity.
Qed.




(** *** The edge objects of the metadata *)

Section EdgeStore.
Context {num : Type} {NUM : Number num}.

Lemma findEdge_found (this : Viewer num) (d : DiagramMetadata num) (edge : EdgeMetadata num) :
  diagramMetadata this = Some d ->
  NoDup (edge_svgId <$> edges d) ->
  edge ∈ edges d ->
  exists pos, findEdge this (Some (edge_svgId edge)) = Some (pos, edge) /\
              edges d !! pos = Some edge.
Proof.
  intros Hd Hnodup [pos Hpos]%list_elem_of_lookup. exists pos. split; [|exact Hpos].
  unfold findEdge. rewrite Hd. apply list_find_Some. split_and!; [exact Hpos|reflexivity|].
  intros j other Hj Hlt Heq.
  assert (j = pos); [|lia].
  eapply NoDup_lookup; [exact Hnodup| |].
  - rewrite list_lookup_fmap, Hj. cbn. now rewrite Heq.
  - now rewrite list_lookup_fmap, Hpos.
Qed.

(** The edges after the object at [pos] is mutated: the mutated object,
    and the other ones, whose [svgId] is another one. *)
Lemma edges_after_store (d : DiagramMetadata num) (pos : nat) (edge edge' other : EdgeMetadata num) :
  NoDup (edge_svgId <$> edges d) ->
  edges d !! pos = Some edge ->
  edge_svgId edge' = edge_svgId edge ->
  other ∈ <[pos := edge']> (edges d) ->
  other = edge' \/ (other ∈ edges d /\ edge_svgId other <> edge_svgId edge).
Proof.
  intros Hnodup Hpos Hid [q Hq]%list_elem_of_lookup.
  apply list_lookup_insert_Some in Hq as [(-> & <- & _)|(Hne & Hq)]; [now left|].
  right. split; [eapply list_elem_of_lookup_2; exact Hq|].
  intros Heq. apply Hne.
  eapply NoDup_lookup; [exact Hnodup| |].
  - now rewrite list_lookup_fmap, Hpos.
  - rewrite list_lookup_fmap, Hq. cbn. now rewrite Heq.
Qed.


End EdgeStore.

Section BendAndStraighten.
Context {num : Type} {NUM : Number num}.
Variables (this : Viewer num) (d : DiagramMetadata num).
Hypothesis metadata : diagramMetadata this = Some d.
Hypothesis uniqueIds : NoDup (edge_svgId <$> edges d).
Hypothesis consistent : bendHandlesConsistent this.




End BendAndStraighten.

Lemma bentViewer_consistent : bendHandlesConsistent bentViewer.
Proof.
  intros d [= <-] edge Hedge. cbn [edges] in Hedge.
  apply list_elem_of_singleton in Hedge as ->.
  cbn [set_bendingPoints lineEdge edge_svgId bendingPoints nullish length bentViewer
       linePointIndexMap].
  split_and!.
  - intros handle i [_ [= <-]]%lookup_singleton_Some. lia.
  - intros handle handle' i [<- _]%lookup_singleton_Some [<- _]%lookup_singleton_Some.
    reflexivity.
  - intros i Hi. exists "h0". replace i with 0%Z by lia. apply lookup_singleton_eq.
Qed.

(** [updateEdgeMetadataWhenStraightening] moves the other handles and
    removes the point; the handle itself is still in the map when it
    returns, and leaves it in [redrawBentLine]. *)
Example updateEdgeMetadataWhenStraightening_keeps_handle :
  let edge := set_bendingPoints (lineEdge float "4" "VL1L1VL2" "0" "2" "1" "3")
                                (Some [point64 50 10]) in
  let r := updateEdgeMetadataWhenStraightening bentViewer edge "h0" in
  bendingPoints r.1 = None /\
  r.2 !! "h0" = Some {| edgeId := "4"; lp_index := 0 |} /\
  (this ← onStraightenEnd bentViewer; mret (linePointIndexMap this !! "h0")) = Normal None.
Proof. vm_compute. repeat split. Qed.





(* ================================================================== *)
(** * Properties of the other functions *)
(* ================================================================== *)

(** ** Bendable lines *)




Section BendableLines.
Context {num : Type} {NUM : Number num}.
Implicit Types (edge : EdgeMetadata num) (edges : list (EdgeMetadata num)).













End BendableLines.

(** *** Grouping keys and pairs of nodes *)

Lemma append_underscore_inj (a c b d : string) :
  underscoreFree a = true -> underscoreFree c = true ->
  a +:+ "_" +:+ b = c +:+ "_" +:+ d -> a = c /\ b = d.
Proof.
  revert c. induction a as [|x a IH]; intros [|y c] Ha Hc E.
  - change (String "_" b = String "_" d) in E. split; [reflexivity|congruence].
  - change (String "_" b = String y (c +:+ "_" +:+ d)) in E. injection E as <- _.
    discriminate Hc.
  - change (String x (a +:+ "_" +:+ b) = String "_" d) in E. injection E as -> _.
    discriminate Ha.
  - change (String x (a +:+ "_" +:+ b) = String y (c +:+ "_" +:+ d)) in E.
    injection E as -> E. cbn [underscoreFree] in Ha, Hc.
    apply andb_prop in Ha as [_ Ha]. apply andb_prop in Hc as [_ Hc].
    destruct (IH c Ha Hc E) as [-> ->]. split; reflexivity.
Qed.

Lemma string_min_max_cases (a b : string) :
  (string_min a b = a /\ string_max a b = b) \/ (string_min a b = b /\ string_max a b = a).
Proof. unfold string_min, string_max. destruct (String.compare a b); auto. Qed.

(** For node ids without an underscore, two edges have the same
    grouping key exactly when they join the same two nodes. *)
Lemma getGroupedEdgesIndexKey_sameNodes {num : Type} (edge edge' : EdgeMetadata num) :
  underscoreFree (node1 edge) = true -> underscoreFree (node2 edge) = true ->
  underscoreFree (node1 edge') = true -> underscoreFree (node2 edge') = true ->
  String.eqb (getGroupedEdgesIndexKey edge') (getGroupedEdgesIndexKey edge) =
  sameNodes edge edge'.
Proof.
  intros H1 H2 H1' H2'. rewrite !getGroupedEdgesIndexKey_min_max. unfold sameNodes.
  apply eq_true_iff_eq. rewrite String.eqb_eq, orb_true_iff, !andb_true_iff, !String.eqb_eq.
  split.
  - intros E.
    destruct (string_min_max_cases (node1 edge) (node2 edge)) as [[E1 E2]|[E1 E2]],
             (string_min_max_cases (node1 edge') (node2 edge')) as [[E1' E2']|[E1' E2']];
      rewrite E1, E2, E1', E2' in E;
      apply append_underscore_inj in E as [Emin Emax]; auto.
  - intros [[-> ->]|[-> ->]]; [reflexivity|].
    now rewrite (string_min_comm (node2 edge)), (string_max_comm (node2 edge)).
Qed.

Lemma parallelEdges_sameNodes {num : Type} (edges : list (EdgeMetadata num))
    (edge : EdgeMetadata num) :
  plainNodeIds edges -> edge ∈ edges ->
  parallelEdges edges edge =
  List.filter (fun other => negb (isLoop other) && sameNodes edge other) edges.
Proof.
  intros Hplain Hedge. unfold parallelEdges. apply List.filter_ext_in.
  intros other Hother. apply list_elem_of_In in Hother. unfold inGroup.
  destruct (Hplain edge Hedge), (Hplain other Hother).
  now rewrite getGroupedEdgesIndexKey_sameNodes.
Qed.

(** With an underscore in the node ids, edges between different nodes
    can have the same grouping key: then neither is taken for a
    bendable line, and they take the two places of one group. *)
Example underscore_in_node_ids :
  List.map getGroupedEdgesIndexKey underscoreEdges = ["a_b_c"; "a_b_c"] /\
  getBendableLines (Some underscoreEdges) = Normal [] /\
  List.map (groupedEdgePosition
              (buildGroupedEdgesIndexMap
                 (Some {| busNodes := []; nodes := []; edges := underscoreEdges |}) None))
           underscoreEdges = [(0, 2); (1, 2)]%Z.
Proof. vm_compute. repeat split. Qed.



(** ** Bus nodes sorted by index *)

Lemma sparse_set_lookup {A : Type} (array : list (option A)) (index : Z) (item : A)
    (j : nat) (x : A) :
  sparse_set array index item !! j = Some (Some x) <->
  (Z.of_nat j = index /\ (index < Z.max (Z.of_nat (length array)) (2 ^ 32 - 1))%Z /\
   x = item) \/
  (Z.of_nat j <> index /\ array !! j = Some (Some x)).
Proof.
  unfold sparse_set.
  destruct (Z.ltb_spec index 0) as [Hneg|Hpos].
  { split; [intros H; right; split; [lia|exact H]|intros [[? ?]|[_ H]]; [lia|exact H]]. }
  destruct (Z.ltb_spec index (Z.of_nat (length array))) as [Hin|Hout].
  - destruct (decide (j = Z.to_nat index)) as [->|Hne].
    + rewrite list_lookup_insert_eq by lia. split.
      * intros [= ->]. left. split_and!; [lia|lia|reflexivity].
      * intros [(_ & _ & ->)|[? _]]; [reflexivity|lia].
    + rewrite list_lookup_insert_ne by lia. split.
      * intros H. right. split; [lia|exact H].
      * intros [[? _]|[_ H]]; [lia|exact H].
  - destruct (Z.ltb_spec index (2 ^ 32 - 1)) as [Hsmall|Hbig].
    + destruct (decide (j < length array)%nat) as [Hj|Hj].
      * rewrite lookup_app_l by assumption. split.
        -- intros H. right. split; [lia|exact H].
        -- intros [[? _]|[_ H]]; [lia|exact H].
      * rewrite lookup_app_r by lia.
        rewrite (lookup_ge_None_2 array j) by lia.
        destruct (decide (j - length array < Z.to_nat index - length array)%nat) as [Hhole|Hlast].
        -- rewrite lookup_app_l by (rewrite length_replicate; lia).
           rewrite lookup_replicate_2 by lia. split; [discriminate|].
           intros [[? _]|[_ [=]]]. lia.
        -- rewrite lookup_app_r by (rewrite length_replicate; lia).
           rewrite length_replicate.
           destruct (decide (j = Z.to_nat index)) as [->|Hne].
           ++ replace (Z.to_nat index - length array - (Z.to_nat index - length array))%nat
                with 0%nat by lia. cbn. split.
              ** intros [= ->]. left. split_and!; [lia|lia|reflexivity].
              ** intros [(_ & _ & ->)|[? _]]; [reflexivity|lia].
           ++ rewrite lookup_ge_None_2 by (cbn; lia). split; [discriminate|].
              intros [[? _]|[_ [=]]]. lia.
    + split.
      * intros H. right. split; [|exact H].
        apply lookup_lt_Some in H. lia.
      * intros [(_ & ? & _)|[_ H]]; [lia|exact H].
Qed.

Lemma sparse_set_length {A : Type} (array : list (option A)) (index : Z) (item : A) :
  (0 <= index < 2 ^ 32 - 1)%Z ->
  length (sparse_set array index item) = Nat.max (length array) (S (Z.to_nat index)).
Proof.
  intros Hi. unfold sparse_set.
  destruct (Z.ltb_spec index 0) as [Hneg|Hpos]; [lia|].
  destruct (Z.ltb_spec index (Z.of_nat (length array))) as [Hin|Hout].
  - rewrite length_insert. lia.
  - destruct (Z.ltb_spec index (2 ^ 32 - 1)) as [Hsmall|Hbig]; [|lia].
    rewrite !length_app, length_replicate. cbn. lia.
Qed.

Lemma sparse_set_length_le {A : Type} (array : list (option A)) (index : Z) (item : A) :
  (length array <= length (sparse_set array index item))%nat /\
  (length (sparse_set array index item) <= Nat.max (length array) (S (Z.to_nat index)))%nat.
Proof.
  unfold sparse_set.
  destruct (Z.ltb_spec index 0) as [Hneg|Hpos]; [lia|].
  destruct (Z.ltb_spec index (Z.of_nat (length array))) as [Hin|Hout].
  - rewrite length_insert. lia.
  - destruct (Z.ltb_spec index (2 ^ 32 - 1)) as [Hsmall|Hbig]; [|lia].
    rewrite !length_app, length_replicate. cbn. lia.
Qed.

(** The array after the loop of [getSortedBusNodes] has run over
    [busNodes]. *)
Lemma getSortedBusNodes_fold (busNodes : list BusNodeMetadata) :
  let sorted := getSortedBusNodes (Some busNodes) in
  (forall (i : nat) (busNode : BusNodeMetadata),
      sorted !! i = Some (Some busNode) ->
      busNode ∈ busNodes /\ index busNode = Z.of_nat i) /\
  (forall busNode, busNode ∈ busNodes -> (0 <= index busNode < 2 ^ 32 - 1)%Z ->
      exists busNode', sorted !! Z.to_nat (index busNode) = Some (Some busNode')) /\
  (forall i : nat, (i < length sorted)%nat ->
      exists busNode, busNode ∈ busNodes /\ (Z.of_nat i <= index busNode)%Z).
Proof.
  unfold getSortedBusNodes. cbn [nullish].
  induction busNodes as [|busNode busNodes IH] using rev_ind.
  - cbn. split_and!.
    + intros i b H. discriminate.
    + intros b H. inversion H.
    + intros i H. cbn in H. lia.
  - rewrite fold_left_app. cbn [fold_left]. cbv zeta in IH.
    set (sorted := fold_left _ busNodes []) in *.
    destruct IH as (IH1 & IH2 & IH3).
    destruct (Z.leb_spec 0 (index busNode)) as [Hpos|Hneg].
    + split_and!.
      * intros i b [(Hi & _ & ->)|[_ H]]%sparse_set_lookup.
        -- split; [|lia]. apply elem_of_app. right. left.
        -- destruct (IH1 _ _ H). split; [|assumption]. apply elem_of_app. now left.
      * intros b [Hb|Hb%list_elem_of_singleton]%elem_of_app Hrange.
        -- destruct (decide (index b = index busNode)) as [Heq|Hne].
           ++ exists busNode. apply sparse_set_lookup. left. split_and!; [lia|lia|reflexivity].
           ++ destruct (IH2 b Hb Hrange) as [b' Hb']. exists b'.
              apply sparse_set_lookup. right. split; [lia|exact Hb'].
        -- subst b. exists busNode. apply sparse_set_lookup. left.
           split_and!; [lia|lia|reflexivity].
      * intros i Hi.
        pose proof (sparse_set_length_le sorted (index busNode) busNode) as [_ Hle].
        destruct (decide (i < length sorted)%nat) as [Hold|Hnew].
        -- destruct (IH3 i Hold) as (b & Hb & Hib). exists b. split; [|assumption].
           apply elem_of_app. now left.
        -- exists busNode. split; [apply elem_of_app; right; left|]. lia.
    + split_and!.
      * intros i b H. destruct (IH1 _ _ H). split; [|assumption]. apply elem_of_app. now left.
      * intros b [Hb|Hb%list_elem_of_singleton]%elem_of_app Hrange; [now apply IH2|].
        subst b. lia.
      * intros i Hi. destruct (IH3 i Hi) as (b & Hb & Hib). exists b. split; [|assumption].
        apply elem_of_app. now left.
Qed.

Lemma no_holes {A : Type} (array : list (option A)) :
  (forall i : nat, (i < length array)%nat -> exists x, array !! i = Some (Some x)) ->
  exists l : list A, array = Some <$> l.
Proof.
  induction array as [|[x|] array IH]; intros H.
  - now exists [].
  - destruct IH as [l ->].
    + intros i Hi. apply (H (S i)). cbn. lia.
    + now exists (x :: l).
  - destruct (H 0%nat) as [x [=]]. cbn. lia.
Qed.

(** X2. [getSortedBusNodes] puts every bus node at the position of its
    index: an entry of the result is a bus node of the list, and stands
    at the position of its index (so a bus node with a negative index
    is left out); and when the indices of the list are [0 .. n - 1] in
    any order, the result has no hole: it is the list in the order of
    the indices. (An array has at most [2 ^ 32 - 1] elements.) *)
Theorem getSortedBusNodes_by_index (busNodes : list BusNodeMetadata) :
  (Z.of_nat (length busNodes) <= 2 ^ 32 - 1)%Z ->
  let sorted := getSortedBusNodes (Some busNodes) in
  (forall (i : nat) (busNode : BusNodeMetadata),
      sorted !! i = Some (Some busNode) ->
      busNode ∈ busNodes /\ index busNode = Z.of_nat i) /\
  (index <$> busNodes ≡ₚ Z.of_nat <$> seq 0 (length busNodes) ->
   exists ordered : list BusNodeMetadata,
     sorted = Some <$> ordered /\
     ordered ≡ₚ busNodes /\
     index <$> ordered = Z.of_nat <$> seq 0 (length busNodes)).
Proof.
  intros Hsmall sorted. destruct (getSortedBusNodes_fold busNodes) as (H1 & H2 & H3).
  fold sorted in H1, H2, H3. split; [exact H1|]. intros Hperm.
  set (n := length busNodes) in *.
  assert (Hrange : forall b, b ∈ busNodes -> (0 <= index b < Z.of_nat n)%Z).
  { intros b Hb. assert (index b ∈ index <$> busNodes) as Hi by now apply list_elem_of_fmap_2.
    rewrite Hperm in Hi. apply list_elem_of_fmap in Hi as (i & -> & Hi).
    apply elem_of_seq in Hi. lia. }
  assert (Hfull : forall i : nat, (i < n)%nat -> exists b, sorted !! i = Some (Some b)).
  { intros i Hi. assert (Z.of_nat i ∈ index <$> busNodes) as Hin.
    { rewrite Hperm. apply list_elem_of_fmap_2, elem_of_seq. lia. }
    apply list_elem_of_fmap in Hin as (b & Hb & Hin).
    destruct (H2 b Hin ltac:(lia)) as [b' Hb']. exists b'.
    now rewrite <- Hb, Nat2Z.id in Hb'. }
  assert (Hlength : length sorted = n).
  { apply Nat.le_antisymm.
    - apply Nat.nlt_ge. intros Hlt. destruct (H3 n Hlt) as (b & Hb & Hnb).
      specialize (Hrange b Hb). lia.
    - destruct n as [|n']; [lia|]. destruct (Hfull n' ltac:(lia)) as [b Hb].
      apply lookup_lt_Some in Hb. lia. }
  destruct (no_holes sorted) as [ordered Hordered].
  { intros i Hi. apply Hfull. lia. }
  assert (Hlength' : length ordered = n).
  { rewrite <- Hlength, Hordered. now rewrite length_fmap. }
  assert (Hindex : index <$> ordered = Z.of_nat <$> seq 0 n).
  { apply list_eq. intros i. rewrite !list_lookup_fmap.
    destruct (ordered !! i) as [b|] eqn:Hb.
    - assert (sorted !! i = Some (Some b)) as Hs.
      { now rewrite Hordered, list_lookup_fmap, Hb. }
      destruct (H1 _ _ Hs) as [_ Hi]. apply lookup_lt_Some in Hb.
      rewrite lookup_seq_lt by lia. cbn. now rewrite Hi.
    - apply lookup_ge_None in Hb. rewrite lookup_seq_ge by lia. reflexivity. }
  exists ordered. split_and!; [exact Hordered| |exact Hindex].
  apply submseteq_length_Permutation; [|lia].
  apply NoDup_submseteq.
  - apply (NoDup_fmap_1 index). rewrite Hindex.
    apply NoDup_fmap; [intros ? ? ?; lia|apply NoDup_seq].
  - intros b Hb. apply list_elem_of_lookup in Hb as [i Hb]. apply (H1 i).
    now rewrite Hordered, list_lookup_fmap, Hb.
Qed.

(** The bus nodes of the test suite, of indices 0, 2 and 1. *)
Lemma getSortedBusNodes_by_index_witness :
  exists ordered : list BusNodeMetadata,
    getSortedBusNodes (Some [busNodeAt 2 0; busNodeAt 2 2; busNodeAt 2 1]) = Some <$> ordered /\
    ordered ≡ₚ [busNodeAt 2 0; busNodeAt 2 2; busNodeAt 2 1] /\
    index <$> ordered = [0; 1; 2]%Z.
Proof.
  apply (proj2 (getSortedBusNodes_by_index [busNodeAt 2 0; busNodeAt 2 2; busNodeAt 2 1]
                  ltac:(cbn; lia))).
  cbn. apply perm_skip, perm_swap.
Defined.

(** ** Rounding and angles, in exact arithmetic *)

Lemma round_Fin (x : R) :
  round (Fin x) = Fin (IZR (Zfloor (x * 100 + / 2)) / 100).
Proof.
  unfold round. cbn. destruct (Req_dec_T 100 0) as [E|_]; [lra|]. reflexivity.
Qed.

(** X3. [round], in exact arithmetic: the result is a whole number of
    hundredths, at most half a hundredth away from the argument; it is
    left alone by a second rounding; and NaN stays NaN. *)
Theorem round_hundredths (x : R) :
  exists n : Z,
    round (Fin x) = Fin (IZR n / 100) /\
    (Rabs (IZR n / 100 - x) <= 1 / 200)%R /\
    round (round (Fin x)) = round (Fin x) /\
    round NotANumber = NotANumber.
Proof.
  exists (Zfloor (x * 100 + / 2)). rewrite !round_Fin. split_and!.
  - reflexivity.
  - pose proof (Zfloor_bound (x * 100 + / 2)) as [H1 H2].
    apply Rabs_le. lra.
  - do 3 f_equal. apply Zfloor_eq. lra.
  - reflexivity.
Qed.

(** X4. [degToRad] and [radToDeg], in exact arithmetic, are inverse of
    each other, and 180 degrees are pi radians. *)
Theorem degToRad_radToDeg (x : R) :
  radToDeg (degToRad (Fin x)) = Fin x /\
  degToRad (radToDeg (Fin x)) = Fin x /\
  degToRad (Fin 180) = Fin PI.
Proof.
  pose proof PI_neq0 as Hpi. unfold radToDeg, degToRad. cbn.
  destruct (Req_dec_T 180 0) as [E|_]; [lra|].
  destruct (Req_dec_T PI 0) as [E|_]; [contradiction|].
  cbn. destruct (Req_dec_T PI 0) as [E|_]; [contradiction|].
  split_and!; f_equal; field; assumption.
Qed.

(** ** Points between two points, in exact arithmetic *)

Lemma getMidPosition_fin (p q : Point R) :
  getMidPosition (finPoint p) (finPoint q) =
  finPoint (pointAt (p, q) (1 / 2)).
Proof.
  unfold getMidPosition, finPoint, pointAt. cbn.
  destruct (Req_dec_T 2 0) as [E|_]; [lra|]. cbn. f_equal; f_equal; lra.
Qed.

Lemma distance_pointAt_from (a b : Point R) (t : R) :
  distance a (pointAt (a, b) t) = (Rabs t * distance a b)%R.
Proof.
  unfold distance, squareDistance, pointAt. cbn [fst snd px py].
  replace ((px a - (px a + t * (px b - px a))) * (px a - (px a + t * (px b - px a))) +
           (py a - (py a + t * (py b - py a))) * (py a - (py a + t * (py b - py a))))%R
    with (Rsqr t * ((px a - px b) * (px a - px b) + (py a - py b) * (py a - py b)))%R
    by (unfold Rsqr; ring).
  rewrite sqrt_mult_alt by apply Rle_0_sqr. now rewrite sqrt_Rsqr_abs.
Qed.

(** X5. [getMidPosition], in exact arithmetic: the point it returns is
    at half the distance of the two points from each of them, and does
    not depend on their order. *)
Theorem getMidPosition_equidistant (p q : Point R) :
  exists m : Point R,
    getMidPosition (finPoint p) (finPoint q) = finPoint m /\
    getMidPosition (finPoint q) (finPoint p) = finPoint m /\
    distance m p = (distance p q / 2)%R /\
    distance m q = (distance p q / 2)%R.
Proof.
  exists (pointAt (p, q) (1 / 2)). split_and!.
  - apply getMidPosition_fin.
  - rewrite getMidPosition_fin. unfold finPoint, pointAt. cbn. f_equal; f_equal; lra.
  - rewrite distance_sym, distance_pointAt_from, Rabs_pos_eq by lra. lra.
  - rewrite distance_sym, distance_pointAt by lra. rewrite (distance_sym q p). lra.
Qed.

(** X6. [getPointAtDistance], in exact arithmetic, for two distinct
    points: the point returned is on the line from the first point
    towards the second one, at the distance [radius] from the first
    point (behind it for a negative [radius]); at the distance of the
    two points it is the second point. For two equal points, its
    coordinates are NaN. *)
Theorem getPointAtDistance_distance (p q : Point R) (radius : R) :
  distance p q <> 0%R ->
  exists r : Point R,
    getPointAtDistance (finPoint p) (finPoint q) (Fin radius) = finPoint r /\
    r = pointAt (p, q) (radius / distance p q) /\
    distance p r = Rabs radius /\
    getPointAtDistance (finPoint p) (finPoint q) (getDistance (finPoint p) (finPoint q)) =
      finPoint q /\
    getPointAtDistance (finPoint p) (finPoint p) (Fin radius) =
      mkPoint NotANumber NotANumber.
Proof.
  intros Hd. exists (pointAt (p, q) (radius / distance p q)). split_and!.
  - now apply getPointAtDistance_fin.
  - reflexivity.
  - rewrite distance_pointAt_from. unfold Rdiv. rewrite Rabs_mult, Rabs_inv.
    rewrite (Rabs_pos_eq (distance p q)) by apply distance_nonneg. now field.
  - rewrite getDistance_fin, getPointAtDistance_fin by assumption.
    unfold finPoint, pointAt. cbn. f_equal; f_equal; now field.
  - unfold getPointAtDistance. rewrite getDistance_fin.
    assert (distance p p = 0%R) as ->.
    { unfold distance, squareDistance. replace (_ + _)%R with 0%R by ring. apply sqrt_0. }
    cbn. destruct (Req_dec_T 0 0) as [_|E]; [reflexivity|contradiction].
Qed.

(** The points of the test suite of [getPointAtDistance]. *)
Lemma getPointAtDistance_distance_witness :
  exists r : Point R,
    getPointAtDistance (finPoint (pointR 10 10)) (finPoint (pointR 36 48)) (Fin 30) =
      finPoint r /\
    distance (pointR 10 10) r = 30%R.
Proof.
  destruct (getPointAtDistance_distance (pointR 10 10) (pointR 36 48) 30)
    as (r & Hr & _ & Hd & _).
  - unfold distance, squareDistance, pointR. cbn [px py].
    intros H. apply sqrt_eq_0 in H; lra.
  - exists r. split; [exact Hr|]. rewrite Hd. apply Rabs_pos_eq. lra.
Defined.

(** ** The visible area *)

Lemma ideal_div_Fin (a b : R) : b <> 0%R -> (Fin a / Fin b)%js = Fin (a / b).
Proof. intros Hb. cbn. destruct (Req_dec_T b 0); [contradiction|reflexivity]. Qed.

Lemma ideal_eq_Fin (a b : R) : a <> b -> (Fin a ==? Fin b)%js = false.
Proof. intros Hb. cbn. destruct (Req_dec_T a b); [contradiction|reflexivity]. Qed.

(** X7. [computeVisibleArea], in exact arithmetic, for a view box and a
    container of positive sizes: the visible area contains the view
    box, has the same centre, has the proportions of the container, and
    has the width or the height of the view box. Without a view box,
    or with a width or height that is zero, there is no visible
    area. *)
Theorem computeVisibleArea_contains (x y w h cw ch : R) :
  (0 < w)%R -> (0 < h)%R -> (0 < cw)%R -> (0 < ch)%R ->
  (exists x' y' w' h' : R,
      computeVisibleArea (Some (finBox x y w h)) (Fin cw) (Fin ch) = Some (finBox x' y' w' h') /\
      (x' <= x /\ x + w <= x' + w' /\ y' <= y /\ y + h <= y' + h')%R /\
      (x' + w' / 2 = x + w / 2 /\ y' + h' / 2 = y + h / 2)%R /\
      (w' * ch = h' * cw)%R /\
      (w' = w \/ h' = h)) /\
  computeVisibleArea (num := ideal) None (Fin cw) (Fin ch) = None /\
  computeVisibleArea (Some (finBox x y 0 h)) (Fin cw) (Fin ch) = None /\
  computeVisibleArea (Some (finBox x y w 0)) (Fin cw) (Fin ch) = None /\
  computeVisibleArea (Some (finBox x y w h)) (Fin 0) (Fin ch) = None /\
  computeVisibleArea (Some (finBox x y w h)) (Fin cw) (Fin 0) = None.
Proof.
  intros Hw Hh Hcw Hch. split; [|split_and!].
  - unfold computeVisibleArea, finBox. cbn [vb_x vb_y vb_width vb_height].
    change (#0)%js with (Fin 0). change (#2)%js with (Fin 2).
    rewrite !ideal_eq_Fin by lra. cbn [orb].
    rewrite !ideal_div_Fin by lra.
    change (Math_min (Fin ?a) (Fin ?b)) with (Fin (Rmin a b)).
    set (scale := Rmin (cw / w) (ch / h)).
    assert (Hscale : (0 < scale)%R).
    { unfold scale. apply Rmin_case; apply Rdiv_lt_0_compat; assumption. }
    rewrite !ideal_div_Fin by lra.
    change (Fin ?a - Fin ?b)%js with (Fin (a - b)).
    rewrite !ideal_div_Fin by lra.
    change (Fin ?a * Fin ?b)%js with (Fin (a * b)).
    change (Fin ?a + Fin ?b)%js with (Fin (a + b)).
    change (Fin ?a - Fin ?b)%js with (Fin (a - b)).
    eexists _, _, _, _. split; [reflexivity|].
    assert (Hcases : (scale = cw / w /\ cw / w <= ch / h)%R \/
                     (scale = ch / h /\ ch / h <= cw / w)%R).
    { unfold scale. destruct (Rle_dec (cw / w) (ch / h)) as [Hle|Hgt].
      - left. split; [now apply Rmin_left|assumption].
      - right. split; [apply Rmin_right|]; lra. }
    assert (Hcross : forall a b c d : R, (0 < b -> 0 < d -> a / b <= c / d -> a * d <= c * b)%R).
    { intros a b c d Hb Hd H. apply (Rmult_le_compat_r (b * d)) in H; [|nra].
      replace (a / b * (b * d))%R with (a * d)%R in H by (field; lra).
      replace (c / d * (b * d))%R with (c * b)%R in H by (field; lra). exact H. }
    destruct Hcases as [[-> Hle]|[-> Hle]].
    + replace (cw / (cw / w))%R with w by (field; lra).
      assert (h <= ch / (cw / w))%R as Hh'.
      { replace (ch / (cw / w))%R with (ch * w / cw)%R by (field; lra).
        apply Hcross in Hle; try assumption.
        apply (Rmult_le_reg_r cw); [assumption|].
        replace (ch * w / cw * cw)%R with (ch * w)%R by (field; lra). lra. }
      split_and!; try lra. field. lra.
    + replace (ch / (ch / h))%R with h by (field; lra).
      assert (w <= cw / (ch / h))%R as Hw'.
      { replace (cw / (ch / h))%R with (cw * h / ch)%R by (field; lra).
        apply Hcross in Hle; try assumption.
        apply (Rmult_le_reg_r ch); [assumption|].
        replace (cw * h / ch * ch)%R with (cw * h)%R by (field; lra). lra. }
      split_and!; try lra. field. lra.
  - reflexivity.
  - unfold computeVisibleArea, finBox. cbn.
    destruct (Req_dec_T 0 0) as [_|E]; [reflexivity|contradiction].
  - unfold computeVisibleArea, finBox. cbn.
    destruct (Req_dec_T 0 0) as [_|E]; [now rewrite orb_true_r|contradiction].
  - unfold computeVisibleArea, finBox. cbn.
    destruct (Req_dec_T 0 0) as [_|E]; [now rewrite !orb_true_r|contradiction].
  - unfold computeVisibleArea, finBox. cbn.
    destruct (Req_dec_T 0 0) as [_|E]; [now rewrite !orb_true_r|contradiction].
Qed.

(** A view box of 400 by 100 in a container of 200 by 200. *)
Lemma computeVisibleArea_contains_witness :
  exists x' y' w' h' : R,
    computeVisibleArea (Some (finBox 0 0 400 100)) (Fin 200) (Fin 200) =
      Some (finBox x' y' w' h') /\
    (w' * 200 = h' * 200)%R /\
    (w' = 400 \/ h' = 100)%R.
Proof.
  destruct (proj1 (computeVisibleArea_contains 0 0 400 100 200 200
                     ltac:(lra) ltac:(lra) ltac:(lra) ltac:(lra)))
    as (x' & y' & w' & h' & Heq & _ & _ & Hratio & Hside).
  exists x', y', w', h'. split_and!; assumption.
Defined.

(** ** Zoom levels *)

Lemma ideal_ge_Fin (a b : R) : (Fin a >=? Fin b)%js = if Rle_dec b a then true else false.
Proof.
  unfold ge. cbn. destruct (Rlt_dec b a), (Req_dec_T a b), (Rle_dec b a);
    try reflexivity; lra.
Qed.

(** X8. [getZoomLevel], in exact arithmetic, on zoom levels in
    decreasing order (the constructor sorts them so): the level
    returned is the greatest level that the displayed size reaches, and
    0 when the size is below every level or is NaN. *)
Theorem getZoomLevel_greatest (zoomLevels : list R) (maxDisplayedSize : R) :
  StronglySorted (fun a b : R => (b <= a)%R) zoomLevels ->
  (exists zoomLevel : R,
      getZoomLevel (Fin <$> zoomLevels) (Fin maxDisplayedSize) = Fin zoomLevel /\
      ((zoomLevel ∈ zoomLevels /\ (zoomLevel <= maxDisplayedSize)%R /\
        forall level, level ∈ zoomLevels -> (level <= maxDisplayedSize)%R ->
                      (level <= zoomLevel)%R) \/
       (zoomLevel = 0%R /\
        forall level, level ∈ zoomLevels -> (maxDisplayedSize < level)%R))) /\
  getZoomLevel (Fin <$> zoomLevels) NotANumber = Fin 0.
Proof.
  intros Hsorted. split.
  - induction Hsorted as [|level levels Hsorted IH Hall].
    + exists 0%R. split; [reflexivity|]. right. split; [reflexivity|].
      intros level H. inversion H.
    + cbn [fmap list_fmap getZoomLevel]. rewrite ideal_ge_Fin.
      destruct (Rle_dec level maxDisplayedSize) as [Hle|Hgt].
      * exists level. split; [reflexivity|]. left. split_and!; [left|assumption|].
        intros level' [->|Hin]%elem_of_cons _; [lra|].
        rewrite Forall_forall in Hall. now apply Hall.
      * destruct IH as (z & Hz & [(Hin & Hle & Hmax)|[-> Hbelow]]).
        -- exists z. split; [exact Hz|]. left. split_and!; [now right|assumption|].
           intros level' [->|Hin']%elem_of_cons Hle'; [lra|now apply Hmax].
        -- exists 0%R. split; [exact Hz|]. right. split; [reflexivity|].
           intros level' [->|Hin']%elem_of_cons; [lra|now apply Hbelow].
  - clear Hsorted. induction zoomLevels as [|level levels IH]; [reflexivity|].
    cbn [fmap list_fmap getZoomLevel]. exact IH.
Qed.

(** The zoom levels of the viewer, and a displayed size of 2300. *)
Lemma getZoomLevel_greatest_witness :
  getZoomLevel (Fin <$> [20000; 12000; 9000; 4000; 3000; 2500; 2200; 1000; 0]%R) (Fin 2300) =
  Fin 2200.
Proof.
  destruct (proj1 (getZoomLevel_greatest
                     [20000; 12000; 9000; 4000; 3000; 2500; 2200; 1000; 0]%R 2300
                     ltac:(repeat (constructor; [|repeat constructor; lra]); constructor)))
    as (z & -> & [(Hin & Hle & Hmax)|[-> Hbelow]]).
  - f_equal. apply Rle_antisym.
    + repeat (apply elem_of_cons in Hin as [->|Hin]; [lra|]). inversion Hin.
    + apply Hmax; [|lra]. do 6 right. left.
  - exfalso. specialize (Hbelow 0%R ltac:(do 8 right; left)). lra.
Defined.

(** ** Converter stations *)

Lemma Array_at_last_two {A : Type} (array : list A) (a b : A) :
  Array_at (array ++ [a; b]) (-1) = Some b /\ Array_at (array ++ [a; b]) (-2) = Some a.
Proof.
  unfold Array_at. rewrite length_app. cbn [length Z.ltb Z.compare].
  split.
  - destruct (Z.ltb_spec (Z.of_nat (length array + 2) + -1) 0) as [H|_]; [lia|].
    replace (Z.to_nat (Z.of_nat (length array + 2) + -1)) with (length array + 1)%nat by lia.
    rewrite lookup_app_r by lia. now replace (length array + 1 - length array)%nat with 1%nat by lia.
  - destruct (Z.ltb_spec (Z.of_nat (length array + 2) + -2) 0) as [H|_]; [lia|].
    replace (Z.to_nat (Z.of_nat (length array + 2) + -2)) with (length array + 0)%nat by lia.
    rewrite lookup_app_r by lia. now replace (length array + 0 - length array)%nat with 0%nat by lia.
Qed.

(** X9. [getConverterStationPoints], in exact arithmetic, on a
    half-edge whose last two points are distinct, for a positive
    width: the two points returned are on the line of the last segment,
    on either side of the last point of the half-edge and at half the
    width from it, the first on the side of the half-edge. On a
    half-edge of fewer than two points the call throws. *)
Theorem getConverterStationPoints_centred (points : list (Point R)) (previous middle : Point R)
    (width : R) :
  distance middle previous <> 0%R ->
  (0 < width)%R ->
  (exists point1 point2 : Point R,
      getConverterStationPoints (halfEdgeThrough (points ++ [previous; middle])) (Fin width) =
        Normal (finPoint point1, finPoint point2) /\
      point1 = pointAt (middle, previous) (width / 2 / distance middle previous) /\
      point2 = pointAt (middle, previous) (- (width / 2 / distance middle previous)) /\
      distance middle point1 = (width / 2)%R /\
      distance middle point2 = (width / 2)%R /\
      distance point1 point2 = width) /\
  getConverterStationPoints (halfEdgeThrough [middle]) (Fin width) = Throw /\
  getConverterStationPoints (halfEdgeThrough []) (Fin width) = Throw.
Proof.
  intros Hd Hw. split; [|split; reflexivity].
  set (t := (width / 2 / distance middle previous)%R).
  pose proof (distance_nonneg middle previous) as Hpos.
  assert (Ht : (0 < t)%R).
  { unfold t. apply Rdiv_lt_0_compat; lra. }
  set (point1 := pointAt (middle, previous) t).
  assert (H1 : distance middle point1 = (width / 2)%R).
  { unfold point1. rewrite distance_pointAt_from, Rabs_pos_eq by lra. unfold t. field. lra. }
  assert (Hstep1 : getPointAtDistance (finPoint middle) (finPoint previous) (Fin width / #2)%js =
                   finPoint point1).
  { change (#2)%js with (Fin 2). rewrite ideal_div_Fin by lra.
    now rewrite getPointAtDistance_fin. }
  assert (Hstep2 : getPointAtDistance (finPoint point1) (finPoint middle) (Fin width) =
                   finPoint (pointAt (point1, middle) (width / distance point1 middle))).
  { apply getPointAtDistance_fin. rewrite distance_sym. lra. }
  assert (H2 : pointAt (point1, middle) (width / distance point1 middle) =
               pointAt (middle, previous) (- t)).
  { rewrite (distance_sym point1 middle), H1.
    replace (width / (width / 2))%R with 2%R by (field; lra).
    unfold point1, pointAt. cbn [fst snd px py]. f_equal; ring. }
  exists point1, (pointAt (middle, previous) (- t)). split_and!.
  - unfold getConverterStationPoints, halfEdgeThrough. cbn [edgePoints].
    rewrite fmap_app. cbn [fmap list_fmap].
    destruct (Array_at_last_two (finPoint <$> points) (finPoint previous) (finPoint middle))
      as [-> ->].
    rewrite Hstep1, Hstep2, H2. reflexivity.
  - reflexivity.
  - reflexivity.
  - exact H1.
  - rewrite distance_pointAt_from, Rabs_Ropp, Rabs_pos_eq by lra. unfold t. field. lra.
  - rewrite <- H2, distance_pointAt_from, (distance_sym point1 middle), H1.
    replace (width / (width / 2))%R with 2%R by (field; lra).
    rewrite Rabs_pos_eq by lra. lra.
Qed.

(** A half-edge that ends in (100, 0), coming from (0, 0), and a
    converter station of width 70. *)
Lemma getConverterStationPoints_centred_witness :
  exists point1 point2 : Point R,
    getConverterStationPoints (halfEdgeThrough [pointR 0 0; pointR 100 0]) (Fin 70) =
      Normal (finPoint point1, finPoint point2) /\
    distance point1 point2 = 70%R.
Proof.
  destruct (proj1 (getConverterStationPoints_centred [] (pointR 0 0) (pointR 100 0) 70
                     ltac:(unfold distance, squareDistance, pointR; cbn [px py];
                           intros H; apply sqrt_eq_0 in H; lra)
                     ltac:(lra)))
    as (point1 & point2 & Heq & _ & _ & _ & _ & Hd).
  exists point1, point2. split; assumption.
Defined.

(** ** The view box *)

Lemma finNode_position (node node' : NodeMetadata R) :
  finNode node = finNode node' -> node_x node = node_x node' /\ node_y node = node_y node'.
Proof.
  intros H. pose proof (f_equal node_x H) as Hx. pose proof (f_equal node_y H) as Hy.
  cbn in Hx, Hy. split; congruence.
Qed.

Section ViewBoxFold.

Lemma getViewBox_nodes (nodes : list (NodeMetadata R))
    (map : gmap string (NodeMetadata ideal)) (a b c d : R) :
  exists (map' : gmap string (NodeMetadata ideal)) (a' b' c' d' : R),
    fold_left (fun (r : gmap string (NodeMetadata ideal) * Size) node =>
                 (<[node_equipmentId node := node]> r.1,
                  {| minX := Math_min (minX r.2) (node_x node);
                     maxX := Math_max (maxX r.2) (node_x node);
                     minY := Math_min (minY r.2) (node_y node);
                     maxY := Math_max (maxY r.2) (node_y node) |}))
              (finNode <$> nodes) (map, finSize a b c d) =
    (map', finSize a' b' c' d') /\
    (a' <= a /\ b <= b' /\ c' <= c /\ d <= d')%R /\
    (forall node, node ∈ nodes ->
       (a' <= node_x node <= b' /\ c' <= node_y node <= d')%R) /\
    (forall key,
       map' !! key =
       match last (List.filter (fun node => String.eqb (node_equipmentId node) key) nodes) with
       | Some node => Some (finNode node)
       | None => map !! key
       end).
Proof.
  revert map a b c d. induction nodes as [|node nodes IH]; intros map a b c d.
  - exists map, a, b, c, d. split_and!; try reflexivity; try lra.
    intros node H. inversion H.
  - cbn [fmap list_fmap fold_left fst snd finSize minX maxX minY maxY finNode node_x node_y
         node_equipmentId].
    change (Math_min (Fin ?u) (Fin ?v)) with (Fin (Rmin u v)).
    change (Math_max (Fin ?u) (Fin ?v)) with (Fin (Rmax u v)).
    destruct (IH (<[node_equipmentId node := finNode node]> map)
                 (Rmin a (node_x node)) (Rmax b (node_x node))
                 (Rmin c (node_y node)) (Rmax d (node_y node)))
      as (map' & a' & b' & c' & d' & Hfold & Hbounds & Hnodes & Hmap).
    exists map', a', b', c', d'. split_and!.
    + exact Hfold.
    + pose proof (Rmin_l a (node_x node)). lra.
    + pose proof (Rmax_l b (node_x node)). lra.
    + pose proof (Rmin_l c (node_y node)). lra.
    + pose proof (Rmax_l d (node_y node)). lra.
    + intros node' [->|Hin]%elem_of_cons; [|now apply Hnodes].
      pose proof (Rmin_r a (node_x node)). pose proof (Rmax_r b (node_x node)).
      pose proof (Rmin_r c (node_y node)). pose proof (Rmax_r d (node_y node)). lra.
    + intros key. rewrite Hmap. cbn [List.filter].
      destruct (String.eqb_spec (node_equipmentId node) key) as [<-|Hne].
      * destruct (List.filter _ nodes) as [|n l] eqn:E.
        -- cbn [last]. apply lookup_insert_eq.
        -- rewrite last_cons_cons. destruct (last (n :: l)) eqn:El; [reflexivity|].
           now apply last_None in El.
      * destruct (last _); [reflexivity|]. now apply lookup_insert_ne.
Qed.

Lemma getViewBox_textNodes (textNodes : list (TextNodeMetadata R))
    (map : gmap string (NodeMetadata ideal)) (a b c d : R) :
  (forall key node, map !! key = Some node -> exists node', node = finNode node') ->
  exists a' b' c' d' : R,
    fold_left (fun (size : Size) textNode =>
                 match map !! text_equipmentId textNode with
                 | Some node =>
                     {| minX := Math_min (minX size) (node_x node + shiftX textNode);
                        maxX := Math_max (maxX size)
                                  (node_x node + shiftX textNode + TEXT_BOX_WIDTH_DEFAULT);
                        minY := Math_min (minY size) (node_y node + shiftY textNode);
                        maxY := Math_max (maxY size)
                                  (node_y node + shiftY textNode + TEXT_BOX_HEIGHT_DEFAULT) |}
                 | None => size
                 end)%js
              (finTextNode <$> textNodes) (finSize a b c d) =
    finSize a' b' c' d' /\
    (a' <= a /\ b <= b' /\ c' <= c /\ d <= d')%R /\
    (forall textNode node,
       textNode ∈ textNodes ->
       map !! text_equipmentId textNode = Some (finNode node) ->
       (a' <= node_x node + shiftX textNode /\
        node_x node + shiftX textNode + 200 <= b' /\
        c' <= node_y node + shiftY textNode /\
        node_y node + shiftY textNode + 100 <= d')%R).
Proof.
  intros Hmap. revert a b c d.
  induction textNodes as [|textNode textNodes IH]; intros a b c d.
  - exists a, b, c, d. split_and!; try reflexivity; try lra.
    intros textNode node H. inversion H.
  - cbn [fmap list_fmap fold_left].
    change (text_equipmentId (finTextNode textNode)) with (text_equipmentId textNode).
    destruct (map !! text_equipmentId textNode) as [node|] eqn:Hnode.
    + destruct (Hmap _ _ Hnode) as [node' ->].
      cbn [finSize minX maxX minY maxY finNode finTextNode node_x node_y shiftX shiftY].
      change TEXT_BOX_WIDTH_DEFAULT with (Fin 200).
      change TEXT_BOX_HEIGHT_DEFAULT with (Fin 100).
      change (Fin ?u + Fin ?v)%js with (Fin (u + v)).
      change (Fin ?u + Fin ?v)%js with (Fin (u + v)).
      change (Math_min (Fin ?u) (Fin ?v)) with (Fin (Rmin u v)).
      change (Math_max (Fin ?u) (Fin ?v)) with (Fin (Rmax u v)).
      match goal with
      | |- context [fold_left _ _ {| minX := Fin ?a1; maxX := Fin ?b1;
                                     minY := Fin ?c1; maxY := Fin ?d1 |}] =>
          destruct (IH a1 b1 c1 d1) as (a' & b' & c' & d' & Hfold & Hbounds & Htexts);
          pose proof (Rmin_l a (node_x node' + shiftX textNode));
          pose proof (Rmin_r a (node_x node' + shiftX textNode));
          pose proof (Rmax_l b (node_x node' + shiftX textNode + 200));
          pose proof (Rmax_r b (node_x node' + shiftX textNode + 200));
          pose proof (Rmin_l c (node_y node' + shiftY textNode));
          pose proof (Rmin_r c (node_y node' + shiftY textNode));
          pose proof (Rmax_l d (node_y node' + shiftY textNode + 100));
          pose proof (Rmax_r d (node_y node' + shiftY textNode + 100))
      end.
      exists a', b', c', d'. split_and!; [exact Hfold|lra|lra|lra|lra|].
      intros textNode' node [->|Hin]%elem_of_cons Hlookup; [|now apply Htexts].
      assert (finNode node' = finNode node) as Heq by congruence.
      destruct (finNode_position _ _ Heq) as [<- <-]. lra.
    + destruct (IH a b c d) as (a' & b' & c' & d' & Hfold & Hbounds & Htexts).
      exists a', b', c', d'. split_and!; [exact Hfold|lra|lra|lra|lra|].
      intros textNode' node [->|Hin]%elem_of_cons Hlookup; [congruence|now apply Htexts].
Qed.

End ViewBoxFold.

(** X10. [getViewBox], in exact arithmetic, when the padding is
    configured or left to its defaults: up to the rounding of the box to
    two decimals, the view box holds every node, and the text box (200
    by 100) of every text node that has a node, with the padding free
    on all four sides. *)
Theorem getViewBox_contains (nodes : list (NodeMetadata R))
    (textNodes : list (TextNodeMetadata R)) (svgParameters : SvgParameters ideal)
    (padding : DiagramPadding R) :
  SvgParams.getDiagramPadding svgParameters =
    Normal {| left := Fin (left padding); top := Fin (top padding);
              right := Fin (right padding); bottom := Fin (bottom padding) |} ->
  exists box : ViewBox R,
    getViewBox (Some (finNode <$> nodes)) (Some (finTextNode <$> textNodes)) svgParameters =
      Normal (finBox (vb_x box) (vb_y box) (vb_width box) (vb_height box)) /\
    (forall node, node ∈ nodes -> insidePadded box padding (node_x node) (node_y node)) /\
    (forall textNode node,
        textNode ∈ textNodes -> nodeOfText nodes textNode = Some node ->
        insidePadded box padding (node_x node + shiftX textNode)
                     (node_y node + shiftY textNode) /\
        insidePadded box padding (node_x node + shiftX textNode + 200)
                     (node_y node + shiftY textNode + 100)).
Proof.
  intros Hpadding. unfold getViewBox. cbn [nullish]. rewrite Hpadding.
  cbn [mbind completion_bind mret completion_ret left top right bottom].
  change (MAX_VALUE (num := ideal)) with (Fin Ideal.MAX_VALUE).
  change (- Fin Ideal.MAX_VALUE)%js with (Fin (- Ideal.MAX_VALUE)).
  destruct (getViewBox_nodes nodes ∅ Ideal.MAX_VALUE (- Ideal.MAX_VALUE)
              Ideal.MAX_VALUE (- Ideal.MAX_VALUE))
    as (map & a & b & c & d & Hfold & _ & Hnodes & Hmap).
  unfold finSize in Hfold. rewrite Hfold. cbn [fst snd].
  destruct (getViewBox_textNodes textNodes map a b c d)
    as (a' & b' & c' & d' & Hfold' & Hbounds & Htexts).
  { intros key node. rewrite Hmap, lookup_empty.
    destruct (last _) as [node'|]; [|discriminate]. intros [= <-]. now exists node'. }
  unfold finSize in Hfold'. rewrite Hfold'. cbn [minX maxX minY maxY].
  change (Fin ?u - Fin ?v)%js with (Fin (u - v)).
  change (Fin ?u + Fin ?v)%js with (Fin (u + v)).
  change (Fin ?u + Fin ?v)%js with (Fin (u + v)).
  rewrite !round_Fin.
  set (x := (IZR (Zfloor ((a' - left padding) * 100 + / 2)) / 100)%R).
  set (y := (IZR (Zfloor ((c' - top padding) * 100 + / 2)) / 100)%R).
  set (w := (IZR (Zfloor ((b' - a' + left padding + right padding) * 100 + / 2)) / 100)%R).
  set (h := (IZR (Zfloor ((d' - c' + top padding + bottom padding) * 100 + / 2)) / 100)%R).
  exists {| vb_x := x; vb_y := y; vb_width := w; vb_height := h |}.
  pose proof (Zfloor_bound ((a' - left padding) * 100 + / 2)) as Hx.
  pose proof (Zfloor_bound ((c' - top padding) * 100 + / 2)) as Hy.
  pose proof (Zfloor_bound ((b' - a' + left padding + right padding) * 100 + / 2)) as Hw.
  pose proof (Zfloor_bound ((d' - c' + top padding + bottom padding) * 100 + / 2)) as Hh.
  fold x in Hx. fold y in Hy. fold w in Hw. fold h in Hh.
  assert (Hin : forall px py : R,
             (a' <= px <= b' /\ c' <= py <= d')%R ->
             insidePadded {| vb_x := x; vb_y := y; vb_width := w; vb_height := h |}
                          padding px py).
  { intros px py Hp. unfold insidePadded. cbn [vb_x vb_y vb_width vb_height].
    unfold x, y, w, h in *. lra. }
  split_and!.
  - reflexivity.
  - intros node Hnode. apply Hin. specialize (Hnodes node Hnode). lra.
  - intros textNode node Htext Hnode. unfold nodeOfText in Hnode.
    specialize (Hmap (text_equipmentId textNode)). rewrite Hnode in Hmap.
    specialize (Htexts textNode node Htext Hmap). split; apply Hin; lra.
Qed.

(** The four nodes and two of the text nodes of the test suite, with
    the default padding of 200. *)
Lemma getViewBox_contains_witness :
  exists box : ViewBox R,
    getViewBox
      (Some (finNode <$> [ {| node_svgId := "0"; node_equipmentId := "VL1";
                              node_x := (-500)%R; node_y := 0%R;
                              fictitious := None; invisible := None |};
                           {| node_svgId := "3"; node_equipmentId := "VL4";
                              node_x := 0%R; node_y := 500%R;
                              fictitious := None; invisible := None |} ]))
      (Some (finTextNode <$> [ {| text_svgId := "0-textnode"; text_equipmentId := "VL1";
                                  text_vlNode := "0"; shiftX := 100%R; shiftY := (-40)%R;
                                  connectionShiftX := 100%R;
                                  connectionShiftY := (-15)%R |} ]))
      (defaultParameters ideal) =
    Normal (finBox (vb_x box) (vb_y box) (vb_width box) (vb_height box)) /\
    (vb_x box <= -700 + 1 / 200)%R.
Proof.
  set (node := {| node_svgId := "0"; node_equipmentId := "VL1";
                  node_x := (-500)%R; node_y := 0%R;
                  fictitious := None; invisible := None |}).
  destruct (getViewBox_contains
              [node; {| node_svgId := "3"; node_equipmentId := "VL4";
                        node_x := 0%R; node_y := 500%R;
                        fictitious := None; invisible := None |}]
              [ {| text_svgId := "0-textnode"; text_equipmentId := "VL1";
                   text_vlNode := "0"; shiftX := 100%R; shiftY := (-40)%R;
                   connectionShiftX := 100%R; connectionShiftY := (-15)%R |} ]
              (defaultParameters ideal)
              {| left := 200%R; top := 200%R; right := 200%R; bottom := 200%R |}
              eq_refl)
    as (box & Heq & Hnodes & _).
  exists box. split; [exact Heq|].
  destruct (Hnodes node ltac:(left)) as (Hx & _). cbn [left node_x node] in Hx. lra.
Defined.

(** ** Moving a node *)

Lemma find_insert_found {A : Type} (f : A -> bool) (P : A -> Prop) `{!forall x, Decision (P x)}
    (l : list A) (i : nat) (x x' : A) :
  (forall y, P y <-> f y = true) ->
  list_find P l = Some (i, x) -> f x' = true ->
  List.find f (<[i := x']> l) = Some x' /\ List.find f l = Some x.
Proof.
  intros Hf. revert i. induction l as [|y l IH]; intros i Hfind Hx'; [discriminate|].
  cbn [list_find] in Hfind. destruct (decide (P y)) as [Hy|Hy].
  - injection Hfind as <- <-. cbn. rewrite Hx'. split; [reflexivity|].
    now apply Hf in Hy as ->.
  - destruct (list_find P l) as [[j z]|] eqn:E; [|discriminate].
    cbn in Hfind. injection Hfind as <- <-. cbn.
    assert (f y = false) as -> by (apply not_true_is_false; now rewrite <- Hf).
    now apply IH.
Qed.

Lemma find_list_find {A : Type} (f : A -> bool) (P : A -> Prop) `{!forall x, Decision (P x)}
    (l : list A) :
  (forall y, P y <-> f y = true) -> List.find f l = snd <$> list_find P l.
Proof.
  intros Hf. induction l as [|y l IH]; [reflexivity|].
  cbn [List.find list_find]. destruct (decide (P y)) as [Hy|Hy].
  - now apply Hf in Hy as ->.
  - assert (f y = false) as -> by (apply not_true_is_false; now rewrite <- Hf).
    rewrite IH. now destruct (list_find P l) as [[? ?]|].
Qed.

Lemma find_insert_other {A : Type} (g : A -> bool) (l : list A) (i : nat) (x x' : A) :
  l !! i = Some x -> g x = false -> g x' = false ->
  List.find g (<[i := x']> l) = List.find g l.
Proof.
  revert i. induction l as [|y l IH]; intros [|i] Hi Hx Hx'; try discriminate.
  - injection Hi as ->. cbn. now rewrite Hx, Hx'.
  - cbn. destruct (g y); [reflexivity|]. now apply IH.
Qed.

(** X11. [updateNodeMetadata] moves the node that [getNodeMetadata]
    finds for the id of the element: afterwards that lookup gives the
    same node at the position rounded to two decimals; the lookup of
    every other id, the edges, the bus nodes and the handles of the
    bend points are as before. When no node has the id, nothing
    changes. *)
Theorem updateNodeMetadata_lookup {num : Type} {NUM : Number num}
    (this : Viewer num) (vlNode : string) (position : Point num) :
  let this' := updateNodeMetadata this vlNode position in
  (forall node,
      getNodeMetadata vlNode (diagramMetadata this) = Some node ->
      getNodeMetadata vlNode (diagramMetadata this') =
      Some (set_position node (round (px position)) (round (py position)))) /\
  (getNodeMetadata vlNode (diagramMetadata this) = None -> this' = this) /\
  (forall id, id <> vlNode ->
      getNodeMetadata id (diagramMetadata this') = getNodeMetadata id (diagramMetadata this)) /\
  edges <$> diagramMetadata this' = edges <$> diagramMetadata this /\
  busNodes <$> diagramMetadata this' = busNodes <$> diagramMetadata this /\
  linePointIndexMap this' = linePointIndexMap this.
Proof.
  unfold updateNodeMetadata, getNodeMetadata.
  destruct (diagramMetadata this) as [d|] eqn:Hd; cbn [mbind option_bind].
  2: { rewrite Hd. split_and!; try reflexivity; try discriminate. }
  assert (Heqb : forall id (y : NodeMetadata num),
             node_svgId y = id <-> String.eqb (node_svgId y) id = true).
  { intros id y. symmetry. apply String.eqb_eq. }
  destruct (list_find _ (nodes d)) as [[i node]|] eqn:Hfind.
  - cbn [diagramMetadata linePointIndexMap nodes edges busNodes mbind option_bind fmap
         option_fmap option_map getNodeMove xNew yNew].
    pose proof Hfind as Hfound. apply list_find_Some in Hfound as (Hi & Hid & _).
    split_and!; try reflexivity.
    + intros node' Hnode'.
      destruct (find_insert_found (fun y => String.eqb (node_svgId y) vlNode) _
                  (nodes d) i node
                  (set_position node (round (px position)) (round (py position)))
                  (Heqb vlNode) Hfind) as [H1 H2].
      { cbn. now apply String.eqb_eq. }
      rewrite H1. congruence.
    + intros Hnone. exfalso.
      destruct (find_insert_found (fun y => String.eqb (node_svgId y) vlNode) _
                  (nodes d) i node node (Heqb vlNode) Hfind) as [_ H2].
      { now apply String.eqb_eq. }
      congruence.
    + intros id Hne. apply (find_insert_other _ _ _ node); [assumption| |].
      * apply String.eqb_neq. congruence.
      * cbn. apply String.eqb_neq. congruence.
  - rewrite Hd. cbn [mbind option_bind]. split_and!; try reflexivity.
    intros node. rewrite (find_list_find _ _ _ (Heqb vlNode)), Hfind. discriminate.
Qed.

(** ** Dragging a handle, and bending then straightening *)

Section Handles.
Context {num : Type} {NUM : Number num}.

Lemma findEdge_store (this : Viewer num) (id : string) (pos : nat)
    (edge edge' : EdgeMetadata num) (map : gmap string LinePointIndex) :
  findEdge this (Some id) = Some (pos, edge) ->
  edge_svgId edge' = edge_svgId edge ->
  findEdge (store this pos edge' map) (Some id) = Some (pos, edge').
Proof.
  unfold findEdge, store. cbn [diagramMetadata].
  destruct (diagramMetadata this) as [d|]; [|discriminate].
  cbn [fmap option_fmap option_map edges]. intros Hfind Hid.
  apply list_find_Some in Hfind as (Hpos & Hedge & Hfirst).
  apply list_find_Some. split_and!.
  - apply list_lookup_insert_eq. now apply lookup_lt_Some in Hpos.
  - congruence.
  - intros j y Hj Hlt. rewrite list_lookup_insert_ne in Hj by lia. now apply (Hfirst j).
Qed.

Lemma store_store (this : Viewer num) (pos : nat) (edge edge' : EdgeMetadata num)
    (map map' : gmap string LinePointIndex) :
  store (store this pos edge map) pos edge' map' = store this pos edge' map'.
Proof.
  unfold store. cbn [diagramMetadata svgDiv straightenedElement dragStart redraw
                     onBendLineCallback].
  destruct (diagramMetadata this) as [d|]; [|reflexivity].
  cbn [fmap option_fmap option_map busNodes nodes edges]. now rewrite list_insert_insert_eq.
Qed.

Lemma set_bendingPoints_id (edge : EdgeMetadata num) :
  set_bendingPoints edge (bendingPoints edge) = edge.
Proof. now destruct edge. Qed.

Lemma store_id (this : Viewer num) (pos : nat) (edge : EdgeMetadata num) (id : string) :
  findEdge this (Some id) = Some (pos, edge) ->
  store this pos edge (linePointIndexMap this) = this.
Proof.
  unfold findEdge, store. destruct this as [[d|] map div element drag draw callback]; [|discriminate].
  cbn [diagramMetadata linePointIndexMap svgDiv straightenedElement dragStart redraw
       onBendLineCallback fmap option_fmap option_map].
  intros (Hpos & _)%list_find_Some. rewrite list_insert_id by assumption. now destruct d.
Qed.

(** The map after a bend at position [i] with the new handle [uuid],
    then the straightening of that handle. *)
Lemma shiftOthers_back (map : gmap string LinePointIndex) (uuid id : string) (i : Z) :
  map !! uuid = None ->
  delete uuid
    (shiftOthers uuid id (fun j => (i <=? j)%Z) (-1)
       (shiftOthers uuid id (fun j => (i <=? j)%Z) 1
          (<[uuid := {| edgeId := id; lp_index := i |}]> map))) = map.
Proof.
  intros Hfresh. apply map_eq. intros handle.
  destruct (decide (handle = uuid)) as [->|Hne].
  - now rewrite lookup_delete_eq.
  - rewrite lookup_delete_ne by congruence.
    rewrite !shiftOthers_lookup, lookup_insert_ne by congruence.
    destruct (map !! handle) as [[e j]|]; [|reflexivity].
    cbn [fmap option_fmap option_map edgeId lp_index].
    destruct (String.eqb_spec handle uuid) as [|_]; [contradiction|]. cbn [negb andb].
    destruct (String.eqb e id) eqn:He; cbn [andb edgeId lp_index]; rewrite ?He;
      cbn [andb]; [|reflexivity].
    destruct (Z.leb_spec i j) as [Hle|Hgt]; cbn [edgeId lp_index]; rewrite ?He; cbn [andb].
    + destruct (Z.leb_spec i (j + 1)) as [_|?]; [|lia]. do 2 f_equal. lia.
    + destruct (Z.leb_spec i j) as [?|_]; [lia|]. reflexivity.
Qed.

Lemma splice_insert_remove {A : Type} (points : list A) (i : nat) (x : A) :
  (i <= length points)%nat ->
  splice_remove (Z.of_nat i) (firstn i points ++ x :: skipn i points) = points.
Proof.
  intros Hi. unfold splice_remove. destruct (Z.ltb_spec (Z.of_nat i) 0) as [?|_]; [lia|].
  rewrite length_app, length_firstn. cbn [length]. rewrite length_skipn.
  rewrite Z.min_l by lia. rewrite Nat2Z.id.
  rewrite take_app_length' by (rewrite length_firstn; lia).
  replace (S i) with (i + 1)%nat by lia.
  rewrite drop_app_add' by (rewrite length_firstn; lia).
  change (drop 1 (x :: drop i points)) with (drop i points). apply take_drop.
Qed.

Lemma createEdgeBendPoint_run (this : Viewer num) (d : DiagramMetadata num)
    (bendableElem uuid : string) (mousePosition : Point num) (pos : nat)
    (edge : EdgeMetadata num) (node1_ node2_ : NodeMetadata num) :
  diagramMetadata this = Some d ->
  findEdge this (Some bendableElem) = Some (pos, edge) ->
  dragStart this = Normal tt ->
  getNodeMetadata (node1 edge) (Some d) = Some node1_ ->
  getNodeMetadata (node2 edge) (Some d) = Some node2_ ->
  let linePoints := addPointToList (bendingPoints edge)
                      (mkPoint (node_x node1_) (node_y node1_))
                      (mkPoint (node_x node2_) (node_y node2_)) mousePosition in
  createEdgeBendPoint this bendableElem uuid mousePosition =
  Normal (store this pos (set_bendingPoints edge (Some linePoints.1))
            (shiftOthers uuid (edge_svgId edge) (fun j => (Z.of_nat linePoints.2 <=? j)%Z) 1
               (<[uuid := {| edgeId := edge_svgId edge; lp_index := Z.of_nat linePoints.2 |}]>
                  (linePointIndexMap this)))).
Proof.
  intros metadata Hfind Hdrag Hn1 Hn2 linePoints.
  unfold createEdgeBendPoint, updateEdgeMetadata.
  unfold set_linePointIndexMap. cbn [dragStart]. rewrite Hdrag.
  cbn [mbind completion_bind].
  cbn [linePointIndexMap diagramMetadata]. rewrite lookup_insert_eq.
  cbn [fmap option_fmap option_map edgeId].
  change (findEdge _ (Some bendableElem)) with (findEdge this (Some bendableElem)).
  rewrite Hfind. unfold updateEdgeMetadataWhenBending.
  cbn [linePointIndexMap diagramMetadata]. rewrite lookup_insert_eq.
  cbn [fmap option_fmap option_map lp_index]. rewrite bool_decide_eq_true_2 by reflexivity.
  rewrite metadata. unfold getNodeMetadata in Hn1, Hn2. cbn [mbind option_bind] in Hn1, Hn2 |- *.
  rewrite Hn1, Hn2. fold linePoints. rewrite insert_insert_eq.
  cbn. unfold store.
  cbn [diagramMetadata linePointIndexMap svgDiv straightenedElement dragStart redraw
       onBendLineCallback].
  now rewrite metadata, Hdrag.
Qed.

Lemma onStraightenEnd_run (this : Viewer num) (pos : nat) (edge : EdgeMetadata num)
    (handle : string) (i : Z) (points : list (Point num)) :
  straightenedElement this = Some handle ->
  handle <> "" ->
  linePointIndexMap this !! handle = Some {| edgeId := edge_svgId edge; lp_index := i |} ->
  findEdge this (Some (edge_svgId edge)) = Some (pos, edge) ->
  bendingPoints edge = Some points ->
  svgDiv this (edge_svgId edge) = true ->
  (forall edge', redraw this edge' = Normal tt) ->
  onStraightenEnd this =
  Normal (set_straightenedElement
            (store this pos
               (set_bendingPoints edge
                  (if Nat.eqb (length (splice_remove i points)) 0 then None
                   else Some (splice_remove i points)))
               (delete handle
                  (shiftOthers handle (edge_svgId edge) (fun j => (i <=? j)%Z) (-1)
                     (linePointIndexMap this))))
            None).
Proof.
  intros Helement Hid Hhandle Hfind Hpoints Hdom Hdraw.
  set (map1 := shiftOthers handle (edge_svgId edge) (fun j => (i <=? j)%Z) (-1)
                 (linePointIndexMap this)).
  set (edge' := set_bendingPoints edge
                  (if Nat.eqb (length (splice_remove i points)) 0 then None
                   else Some (splice_remove i points))).
  assert (Hupdate : updateEdgeMetadata this handle None STRAIGHTEN =
                    Normal (store this pos edge' map1)).
  { unfold updateEdgeMetadata. rewrite Hhandle. cbn [fmap option_fmap option_map edgeId].
    rewrite Hfind. unfold updateEdgeMetadataWhenStraightening. rewrite Hhandle, Hpoints.
    reflexivity. }
  set (this1 := store this pos edge' map1) in *.
  assert (Hown : map1 !! handle = Some {| edgeId := edge_svgId edge; lp_index := i |}).
  { apply shiftOthers_lookup_Some. exists i. split; [exact Hhandle|].
    rewrite bool_decide_eq_false_2 by tauto. reflexivity. }
  assert (Hredraw : redrawBentLine this1 handle STRAIGHTEN =
                    Normal (set_linePointIndexMap this1 (delete handle map1))).
  { unfold redrawBentLine. destruct (String.eqb_spec handle "") as [|_]; [contradiction|].
    cbn [negb]. change (linePointIndexMap this1) with map1. rewrite Hown.
    cbn [fmap option_fmap option_map edgeId].
    unfold this1. rewrite (findEdge_store this _ pos edge edge' map1 Hfind eq_refl).
    cbn [andb nullish]. change (svgDiv (store this pos edge' map1)) with (svgDiv this).
    rewrite Hdom. cbn [negb].
    change (redraw (store this pos edge' map1)) with (redraw this). rewrite Hdraw.
    cbn [mbind completion_bind]. now destruct (bendingPoints edge'). }
  assert (Hcallback : callBendLineCallback (set_linePointIndexMap this1 (delete handle map1))
                        handle STRAIGHTEN = Normal tt).
  { unfold callBendLineCallback. destruct (onBendLineCallback _); [|reflexivity].
    cbn [set_linePointIndexMap linePointIndexMap]. rewrite lookup_delete_eq. reflexivity. }
  unfold onStraightenEnd. rewrite Helement, Hupdate.
  cbn [mbind completion_bind]. rewrite Hredraw.
  cbn [mbind completion_bind]. rewrite Hcallback. reflexivity.
Qed.

End Handles.

(** X12. Bending a line with a new handle and straightening it at
    once (with [createEdgeBendPoint], [onStraightenStart] on the new
    handle and [onStraightenEnd]) brings the viewer back to where it
    was: the bend points of every edge and the positions of all the
    handles are as before; only an edge that had an empty array of bend
    points is left with none. This is for an edge of the metadata
    whose two nodes are known and whose element is in the document, a
    handle id that is not in use, and calls of the document that
    complete. *)
Theorem bend_then_straighten_restores {num : Type} {NUM : Number num}
    (this : Viewer num) (d : DiagramMetadata num)
    (bendableElem uuid : string) (mousePosition : Point num) (pos : nat)
    (edge : EdgeMetadata num) (node1_ node2_ : NodeMetadata num) :
  diagramMetadata this = Some d ->
  findEdge this (Some bendableElem) = Some (pos, edge) ->
  getNodeMetadata (node1 edge) (Some d) = Some node1_ ->
  getNodeMetadata (node2 edge) (Some d) = Some node2_ ->
  linePointIndexMap this !! uuid = None ->
  uuid <> "" ->
  straightenedElement this = None ->
  dragStart this = Normal tt ->
  svgDiv this bendableElem = true ->
  (forall edge', redraw this edge' = Normal tt) ->
  let bent_and_straightened :=
    this ← createEdgeBendPoint this bendableElem uuid mousePosition;
    this ← onStraightenStart this (Some uuid) (Normal tt);
    onStraightenEnd this in
  bent_and_straightened =
    Normal (store this pos
              (set_bendingPoints edge (match bendingPoints edge with
                                       | Some [] => None
                                       | points => points
                                       end))
              (linePointIndexMap this)) /\
  (bendingPoints edge <> Some [] -> bent_and_straightened = Normal this).
Proof.
  intros metadata Hfind Hn1 Hn2 Hfresh Hid Hnone Hdrag Hdom Hdraw.
  assert (Hsvg : edge_svgId edge = bendableElem).
  { unfold findEdge in Hfind. rewrite metadata in Hfind.
    now apply list_find_Some in Hfind as (_ & ? & _). }
  pose proof (createEdgeBendPoint_run this d bendableElem uuid mousePosition pos edge
                node1_ node2_ metadata Hfind Hdrag Hn1 Hn2) as Hbend.
  destruct (addPointToList_shape (bendingPoints edge)
              (mkPoint (node_x node1_) (node_y node1_))
              (mkPoint (node_x node2_) (node_y node2_)) mousePosition) as [Hi Hl].
  cbv zeta in Hbend, Hi, Hl.
  set (linePoints := addPointToList (bendingPoints edge)
                       (mkPoint (node_x node1_) (node_y node1_))
                       (mkPoint (node_x node2_) (node_y node2_)) mousePosition) in *.
  set (i := Z.of_nat linePoints.2) in *.
  set (edge1 := set_bendingPoints edge (Some linePoints.1)) in *.
  set (map1 := shiftOthers uuid (edge_svgId edge) (fun j => (i <=? j)%Z) 1
                 (<[uuid := {| edgeId := edge_svgId edge; lp_index := i |}]>
                    (linePointIndexMap this))) in *.
  set (this1 := store this pos edge1 map1) in *.
  assert (Hown : map1 !! uuid = Some {| edgeId := edge_svgId edge; lp_index := i |}).
  { apply shiftOthers_lookup_Some. exists i. split; [apply lookup_insert_eq|].
    rewrite bool_decide_eq_false_2 by tauto. reflexivity. }
  assert (Hfind1 : findEdge this1 (Some (edge_svgId edge)) = Some (pos, edge1)).
  { rewrite Hsvg. exact (findEdge_store this bendableElem pos edge edge1 map1 Hfind eq_refl). }
  assert (Hstart : onStraightenStart this1 (Some uuid) (Normal tt) =
                   Normal (set_straightenedElement this1 (Some uuid))).
  { unfold onStraightenStart. destruct (String.eqb_spec uuid "") as [|_]; [contradiction|].
    cbn [negb]. change (linePointIndexMap this1) with map1. rewrite Hown.
    cbn [fmap option_fmap option_map edgeId]. rewrite Hfind1. reflexivity. }
  set (this2 := set_straightenedElement this1 (Some uuid)) in *.
  pose proof (onStraightenEnd_run this2 pos edge1 uuid i linePoints.1
                eq_refl Hid Hown Hfind1 eq_refl) as Hend.
  change (svgDiv this2) with (svgDiv this) in Hend.
  change (redraw this2) with (redraw this) in Hend.
  change (edge_svgId edge1) with (edge_svgId edge) in Hend.
  rewrite Hsvg in Hend at 1. specialize (Hend Hdom Hdraw).
  change (linePointIndexMap this2) with map1 in Hend.
  unfold map1 in Hend. rewrite (shiftOthers_back _ _ _ _ Hfresh) in Hend.
  assert (Hback : splice_remove i linePoints.1 = bendingPoints edge ?? []).
  { rewrite Hl. apply splice_insert_remove. exact Hi. }
  rewrite Hback in Hend.
  assert (Hresult :
            (this ← createEdgeBendPoint this bendableElem uuid mousePosition;
             this ← onStraightenStart this (Some uuid) (Normal tt);
             onStraightenEnd this) =
            Normal (store this pos
                      (set_bendingPoints edge (match bendingPoints edge with
                                               | Some [] => None
                                               | points => points
                                               end))
                      (linePointIndexMap this))).
  { rewrite Hbend. cbn [mbind completion_bind]. rewrite Hstart.
    cbn [mbind completion_bind]. rewrite Hend. f_equal.
    unfold this2, this1, set_straightenedElement.
    cbn [diagramMetadata linePointIndexMap svgDiv straightenedElement dragStart redraw
         onBendLineCallback store].
    unfold store.
    cbn [diagramMetadata linePointIndexMap svgDiv straightenedElement dragStart redraw
         onBendLineCallback].
    rewrite metadata, Hnone. cbn [fmap option_fmap option_map busNodes nodes edges].
    rewrite list_insert_insert_eq. do 4 f_equal.
    unfold edge1, set_bendingPoints. cbn. f_equal.
    destruct (bendingPoints edge) as [[|p points]|]; reflexivity. }
  cbv zeta. split; [exact Hresult|].
  intros Hnonempty. rewrite Hresult. f_equal.
  replace (match bendingPoints edge with Some [] => None | points => points end)
    with (bendingPoints edge) by (now destruct (bendingPoints edge) as [[|? ?]|]).
  rewrite set_bendingPoints_id. now apply (store_id this pos edge bendableElem).
Qed.

(** On the bent line, with no handle being straightened. *)
Lemma bend_then_straighten_restores_witness :
  (this ← createEdgeBendPoint (set_straightenedElement bentViewer None) "4" "h1"
                              (point64 20 5);
   this ← onStraightenStart this (Some "h1") (Normal tt);
   onStraightenEnd this) = Normal (set_straightenedElement bentViewer None).
Proof.
  refine (proj2 (bend_then_straighten_restores (set_straightenedElement bentViewer None)
                   _ "4" "h1" (point64 20 5) 0 _ _ _
                   eq_refl eq_refl eq_refl eq_refl eq_refl _ eq_refl eq_refl eq_refl
                   (fun _ => eq_refl)) _); discriminate.
Defined.

(** X13. Dragging the handle of a bend point, in a viewer whose
    handles stand on the positions of the bend points: the handle has a
    bend point, [updateEdgeMetadata] replaces that point by the position
    rounded to two decimals and changes nothing else (no other point,
    no other edge, no handle), so the handles still stand on the
    positions of the bend points; and [redrawBentLine] then leaves the
    viewer as it is, when drawing the edge does not throw. *)
Theorem drag_handle_moves_its_point {num : Type} {NUM : Number num}
    (this : Viewer num) (d : DiagramMetadata num) (edge : EdgeMetadata num)
    (handle : string) (i : Z) (position : Point num) :
  diagramMetadata this = Some d ->
  NoDup (edge_svgId <$> edges d) ->
  bendHandlesConsistent this ->
  edge ∈ edges d ->
  linePointIndexMap this !! handle = Some {| edgeId := edge_svgId edge; lp_index := i |} ->
  exists (pos : nat) (points : list (Point num)),
    edges d !! pos = Some edge /\
    bendingPoints edge = Some points /\
    (0 <= i < Z.of_nat (length points))%Z /\
    let edge' :=
      set_bendingPoints edge
        (Some (<[Z.to_nat i := mkPoint (round (px position)) (round (py position))]> points)) in
    let this' := store this pos edge' (linePointIndexMap this) in
    updateEdgeMetadata this handle (Some position) BEND = Normal this' /\
    bendHandlesConsistent this' /\
    (handle <> "" -> redraw this edge' = Normal tt ->
     redrawBentLine this' handle BEND = Normal this').
Proof.
  intros metadata uniqueIds consistent Hedge Hhandle.
  destruct (findEdge_found this d edge metadata uniqueIds Hedge) as (pos & Hfind & Hpos).
  pose proof (consistent d metadata edge Hedge) as Hhandles.
  pose proof (proj1 Hhandles _ _ Hhandle) as Hi.
  destruct (bendingPoints edge) as [points|] eqn:Hpoints; [|cbn in Hi; lia].
  cbn [nullish] in Hhandles, Hi.
  exists pos, points. split_and!; [assumption|reflexivity|lia|lia|].
  intros edge' this'.
  assert (Hd' : diagramMetadata this' =
                Some {| busNodes := busNodes d; nodes := nodes d;
                        edges := <[pos := edge']> (edges d) |}).
  { unfold this', store. cbn [diagramMetadata]. now rewrite metadata. }
  split_and!.
  - unfold updateEdgeMetadata. rewrite Hhandle. cbn [fmap option_fmap option_map edgeId].
    rewrite Hfind. unfold updateEdgeMetadataWhenBending. rewrite Hhandle.
    cbn [fmap option_fmap option_map lp_index].
    rewrite bool_decide_eq_false_2 by (intros [=]; lia).
    rewrite Hpoints. unfold array_set.
    destruct (Z.ltb_spec i 0) as [?|_]; [lia|].
    destruct (Z.ltb_spec i (Z.of_nat (length points))) as [_|?]; [|lia].
    reflexivity.
  - intros d' Hd'' other Hother. rewrite Hd' in Hd''. injection Hd'' as <-.
    cbn [edges] in Hother. change (linePointIndexMap this') with (linePointIndexMap this).
    destruct (edges_after_store d pos edge edge' other uniqueIds Hpos eq_refl Hother)
      as [->|[Hin _]].
    + cbn [edge' set_bendingPoints edge_svgId bendingPoints nullish].
      now rewrite length_insert.
    + exact (consistent d metadata other Hin).
  - intros Hid Hdraw. unfold redrawBentLine.
    destruct (String.eqb_spec handle "") as [|_]; [contradiction|]. cbn [negb].
    change (linePointIndexMap this') with (linePointIndexMap this). rewrite Hhandle.
    cbn [fmap option_fmap option_map edgeId nullish lp_index].
    unfold this'.
    rewrite (findEdge_store this _ pos edge edge' (linePointIndexMap this) Hfind eq_refl).
    cbn [edge' set_bendingPoints bendingPoints].
    rewrite (bool_decide_eq_true_2 (is_Some _)) by eauto. cbn [negb andb].
    destruct (negb _); [reflexivity|].
    change (redraw (store this pos _ (linePointIndexMap this))) with (redraw this).
    fold edge'. rewrite Hdraw. cbn [mbind completion_bind].
    destruct (Z.ltb_spec i 0) as [?|_]; [lia|].
    rewrite list_lookup_insert_eq by lia. reflexivity.
Qed.

(** On the bent line: its handle "h0" is dragged to (60, 20.001953125). *)
Lemma drag_handle_moves_its_point_witness :
  updateEdgeMetadata bentViewer "h0" (Some (point64 60 20.001953125)) BEND =
  Normal (store bentViewer 0
            (set_bendingPoints (lineEdge float "4" "VL1L1VL2" "0" "2" "1" "3")
                               (Some [point64 60 20]))
            (linePointIndexMap bentViewer)).
Proof.
  destruct (drag_handle_moves_its_point bentViewer _
              (set_bendingPoints (lineEdge float "4" "VL1L1VL2" "0" "2" "1" "3")
                                 (Some [point64 50 10]))
              "h0" 0 (point64 60 20.001953125) eq_refl ltac:(apply NoDup_singleton)
              bentViewer_consistent ltac:(apply list_elem_of_singleton; reflexivity) eq_refl)
    as (pos & points & Hpos & Hpoints & _ & Hrun & _).
  injection Hpoints as <-. destruct pos as [|pos]; [|discriminate].
  exact Hrun.
Defined.

(** ** The bend-line callback at the end of a straightening *)

(** X14. At the end of a straightening, the bend-line callback is not
    called when the element of the edge is in the document:
    [redrawBentLine] takes the handle out of [linePointIndexMap], and
    [callBendLineCallback] then finds no edge through it. When the
    element of the edge is not in the document, the handle stays in the
    map and the callback is called on the updated edge. This is for
    the handle of an edge of the metadata and drawing calls that
    complete. *)
Theorem onStraightenEnd_callback {num : Type} {NUM : Number num}
    (this : Viewer num) (pos : nat) (edge : EdgeMetadata num) (handle : string) (i : Z) :
  straightenedElement this = Some handle ->
  handle <> "" ->
  linePointIndexMap this !! handle = Some {| edgeId := edge_svgId edge; lp_index := i |} ->
  findEdge this (Some (edge_svgId edge)) = Some (pos, edge) ->
  (forall edge', redraw this edge' = Normal tt) ->
  let r := updateEdgeMetadataWhenStraightening this edge handle in
  onStraightenEnd this =
  if svgDiv this (edge_svgId edge)
  then Normal (set_straightenedElement (store this pos r.1 (delete handle r.2)) None)
  else
    _ ← match onBendLineCallback this with
        | Some callback => callback r.1 STRAIGHTEN
        | None => Normal tt
        end;
    mret (set_straightenedElement (store this pos r.1 r.2) None).
Proof.
  intros Helement Hid Hhandle Hfind Hdraw r.
  assert (Hsvg : edge_svgId r.1 = edge_svgId edge).
  { unfold r, updateEdgeMetadataWhenStraightening. now destruct (bendingPoints edge). }
  assert (Hown : r.2 !! handle = Some {| edgeId := edge_svgId edge; lp_index := i |}).
  { unfold r, updateEdgeMetadataWhenStraightening.
    destruct (bendingPoints edge); cbn [snd]; [|exact Hhandle].
    apply shiftOthers_lookup_Some. exists i. split; [exact Hhandle|].
    rewrite bool_decide_eq_false_2 by tauto. reflexivity. }
  assert (Hfind1 : findEdge (store this pos r.1 r.2) (Some (edge_svgId edge)) =
                   Some (pos, r.1)).
  { exact (findEdge_store this _ pos edge r.1 r.2 Hfind Hsvg). }
  unfold onStraightenEnd. rewrite Helement.
  unfold updateEdgeMetadata. rewrite Hhandle. cbn [fmap option_fmap option_map edgeId].
  rewrite Hfind. fold r. cbn [mbind completion_bind].
  unfold redrawBentLine. destruct (String.eqb_spec handle "") as [|_]; [contradiction|].
  cbn [negb]. change (linePointIndexMap (store this pos r.1 r.2)) with r.2.
  rewrite Hown. cbn [fmap option_fmap option_map edgeId nullish]. rewrite Hfind1.
  cbn [andb]. change (svgDiv (store this pos r.1 r.2)) with (svgDiv this).
  destruct (svgDiv this (edge_svgId edge)); cbn [negb].
  - change (redraw (store this pos r.1 r.2)) with (redraw this). rewrite Hdraw.
    cbn [mbind completion_bind].
    destruct (bendingPoints r.1);
      cbn [mbind completion_bind]; unfold callBendLineCallback;
      cbn [set_linePointIndexMap linePointIndexMap onBendLineCallback store];
      rewrite lookup_delete_eq; cbn [fmap option_fmap option_map];
      now destruct (onBendLineCallback this).
  - cbn [mbind completion_bind]. unfold callBendLineCallback.
    change (onBendLineCallback (store this pos r.1 r.2)) with (onBendLineCallback this).
    change (linePointIndexMap (store this pos r.1 r.2)) with r.2. rewrite Hown.
    cbn [fmap option_fmap option_map edgeId]. rewrite Hfind1.
    now destruct (onBendLineCallback this).
Qed.

(** On the bent line, with a callback that throws whenever it is
    called: the straightening of "h0" completes. *)
Lemma onStraightenEnd_callback_witness :
  exists this' : Viewer float,
    onStraightenEnd bentViewerThrowingCallback = Normal this' /\
    linePointIndexMap this' = ∅ /\
    straightenedElement this' = None.
Proof.
  eexists. split.
  - exact (onStraightenEnd_callback bentViewerThrowingCallback 0
             (set_bendingPoints (lineEdge float "4" "VL1L1VL2" "0" "2" "1" "3")
                                (Some [point64 50 10]))
             "h0" 0 eq_refl ltac:(discriminate) eq_refl eq_refl ltac:(reflexivity)).
  - split; reflexivity.
Defined.

(** ** The place of an edge among its parallel edges *)

Section GroupedEdges.
Context {num : Type} {NUM : Number num}.

Lemma buildGroupedEdgesIndexMap_lookup (d : DiagramMetadata num) (key : string) :
  buildGroupedEdgesIndexMap (Some d) None !! key =
  match List.filter (inGroup key) (edges d) with
  | [] => None
  | group => Some (edge_equipmentId <$> group)
  end.
Proof.
  unfold buildGroupedEdgesIndexMap. cbn [fmap option_fmap option_map nullish].
  induction (edges d) as [|edge edges IH] using rev_ind; [apply lookup_empty|].
  rewrite fold_left_app, List.filter_app. cbn [fold_left List.filter].
  change (inGroup key edge)
    with (negb (String.eqb (node1 edge) (node2 edge)) &&
          String.eqb (getGroupedEdgesIndexKey edge) key).
  destruct (String.eqb (node1 edge) (node2 edge)); cbn [negb andb].
  { now rewrite app_nil_r. }
  destruct (String.eqb_spec (getGroupedEdgesIndexKey edge) key) as [->|Hne].
  - rewrite lookup_insert_eq, IH.
    destruct (List.filter _ edges) as [|first group]; [reflexivity|].
    cbn [nullish]. f_equal. symmetry.
    exact (fmap_app edge_equipmentId (first :: group) [edge]).
  - rewrite lookup_insert_ne by assumption. now rewrite app_nil_r.
Qed.

Lemma indexOf_first (array : list string) (item : string) (i : nat) :
  indexOf array item = Some i <->
  array !! i = Some item /\ (forall j x, array !! j = Some x -> (j < i)%nat -> x <> item).
Proof.
  unfold indexOf. destruct (list_find _ array) as [[k x]|] eqn:Hfind; cbn.
  - apply list_find_Some in Hfind as (Hk & -> & Hfirst). split.
    + intros [= <-]. split; [assumption|]. intros j y Hj Hlt. exact (Hfirst j y Hj Hlt).
    + intros [Hi Hbefore]. f_equal.
      destruct (Nat.lt_trichotomy k i) as [Hlt|[->|Hgt]]; [|reflexivity|].
      * now destruct (Hbefore k item Hk Hlt).
      * now destruct (Hfirst i item Hi Hgt).
  - split; [discriminate|]. intros [Hi _]. apply list_find_None in Hfind.
    apply list_elem_of_lookup_2 in Hi. rewrite Forall_forall in Hfind.
    now destruct (Hfind item Hi).
Qed.

End GroupedEdges.

(** X15. In the index that [buildGroupedEdgesIndexMap] builds from the
    metadata, an edge of the metadata between two distinct nodes has
    the place [iEdge] among [nbGroupedEdges] edges, where
    [nbGroupedEdges] counts the edges of the metadata, loops apart,
    that have the grouping key of the edge (that of
    [getGroupedEdgesIndexKey]) and [iEdge] is the position, in the
    order of the metadata, of the first of them that has the equipment
    id of the edge: the position of the edge itself when the equipment
    ids of these edges differ. When no node id of the metadata has an
    underscore, the edges counted are those that join the same two
    nodes as the edge, in either direction. *)
Theorem groupedEdgePosition_place {num : Type} {NUM : Number num}
    (d : DiagramMetadata num) (edge : EdgeMetadata num) :
  edge ∈ edges d ->
  node1 edge <> node2 edge ->
  let group := parallelEdges (edges d) edge in
  exists (iEdge : nat) (first : EdgeMetadata num),
    groupedEdgePosition (buildGroupedEdgesIndexMap (Some d) None) edge =
    (Z.of_nat iEdge, Z.of_nat (length group)) /\
    group !! iEdge = Some first /\
    edge_equipmentId first = edge_equipmentId edge /\
    (forall j other, (j < iEdge)%nat -> group !! j = Some other ->
                     edge_equipmentId other <> edge_equipmentId edge) /\
    (NoDup (edge_equipmentId <$> group) -> first = edge) /\
    (plainNodeIds (edges d) ->
     group =
     List.filter (fun other => negb (isLoop other) && sameNodes edge other) (edges d)).
Proof.
  intros Hedge Hnodes group.
  assert (Hsame : plainNodeIds (edges d) ->
                  group =
                  List.filter (fun other => negb (isLoop other) && sameNodes edge other)
                              (edges d)).
  { intros Hplain. now apply parallelEdges_sameNodes. }
  assert (Hin : edge ∈ group).
  { apply list_elem_of_In, List.filter_In. split; [now apply list_elem_of_In|].
    unfold inGroup, isLoop. destruct (String.eqb_spec (node1 edge) (node2 edge)); [contradiction|].
    cbn. apply String.eqb_refl. }
  unfold groupedEdgePosition. rewrite buildGroupedEdgesIndexMap_lookup.
  fold (parallelEdges (edges d) edge). fold group.
  destruct group as [|e0 rest] eqn:Hgroup; [inversion Hin|]. rewrite <- Hgroup in *.
  rewrite length_fmap.
  replace (0 <? length group)%nat with true by (rewrite Hgroup; reflexivity).
  destruct (indexOf (edge_equipmentId <$> group) (edge_equipmentId edge)) as [i|] eqn:Hindex.
  - apply indexOf_first in Hindex as [Hi Hbefore].
    rewrite list_lookup_fmap in Hi.
    destruct (group !! i) as [first|] eqn:Hfirst; [|discriminate]. injection Hi as Hid.
    exists i, first. split_and!; try reflexivity; try assumption.
    + intros j other Hj Hother. apply (Hbefore j); [|assumption].
      now rewrite list_lookup_fmap, Hother.
    + intros Hdistinct. apply list_elem_of_lookup_1 in Hin as [k Hk].
      assert (i = k) as ->; [|congruence].
      apply (NoDup_lookup _ i k (edge_equipmentId edge) Hdistinct);
        rewrite list_lookup_fmap; [now rewrite Hfirst; cbn; f_equal|now rewrite Hk].
  - exfalso. unfold indexOf in Hindex.
    destruct (list_find _ _) as [|] eqn:Hfind; [discriminate|].
    apply list_find_None in Hfind. rewrite Forall_forall in Hfind.
    apply (Hfind (edge_equipmentId edge)); [|reflexivity].
    apply list_elem_of_fmap. now exists edge.
Qed.

(** The second of two parallel lines has the place 1 of 2. *)
Lemma groupedEdgePosition_place_witness :
  groupedEdgePosition (buildGroupedEdgesIndexMap (Some parallelLines) None)
                      (lineEdge float "6" "L2" "2" "0" "3" "1") = (1, 2)%Z.
Proof.
  destruct (groupedEdgePosition_place parallelLines (lineEdge float "6" "L2" "2" "0" "3" "1")
              ltac:(apply list_elem_of_In; cbn; tauto) ltac:(discriminate))
    as (iEdge & first & Hplace & Hfirst & _ & _ & Hdistinct & _).
  rewrite Hplace. f_equal.
  destruct iEdge as [|[|iEdge]]; [|reflexivity|destruct iEdge; discriminate].
  exfalso. injection Hfirst as <-.
  enough (lineEdge float "4" "L1" "0" "2" "1" "3" = lineEdge float "6" "L2" "2" "0" "3" "1")
    by discriminate.
  apply Hdistinct. cbn. repeat constructor; set_solver.
Defined.

(** ** Elements under the right button of the mouse *)

Lemma find_by_id {A : Type} (svgId equipmentId : A -> string) (id : string) (l : list A) :
  match List.find (fun x => String.eqb (svgId x) id) l with
  | Some x => svgId x = id /\ (svgId x, equipmentId x) ∈ (fun x => (svgId x, equipmentId x)) <$> l
  | None => forall e, (id, e) ∉ (fun x => (svgId x, equipmentId x)) <$> l
  end.
Proof.
  destruct (List.find _ l) as [x|] eqn:Hfind.
  - apply List.find_some in Hfind as [Hin Hid]. apply String.eqb_eq in Hid.
    split; [assumption|]. apply list_elem_of_fmap. exists x. split; [reflexivity|].
    now apply list_elem_of_In.
  - intros e (x & [= Hid _] & Hin)%list_elem_of_fmap.
    apply list_elem_of_In in Hin.
    pose proof (List.find_none _ _ Hfind x Hin) as Hne. cbn in Hne.
    apply String.eqb_neq in Hne. congruence.
Qed.

(** X16. [getRightClickableElementData] returns the data of an element
    exactly when the id asked for is not empty and an element of the
    type asked for has it as its [svgId] (nodes for voltage levels and
    three-winding transformers, text nodes, or edges for branches;
    nothing for the unknown type). The data then carry the id asked for
    and the [equipmentId] of an element of that type with this id. *)
Theorem getRightClickableElementData_element {num : Type}
    (elementId : option string) (elementType : ElementType.t)
    (nodes : option (list (NodeMetadata num)))
    (textNodes : option (list (TextNodeMetadata num)))
    (edges : option (list (EdgeMetadata num))) :
  let found := getRightClickableElementData elementId elementType nodes textNodes edges in
  let elements := elementsOfType elementType nodes textNodes edges in
  (forall data, found = Some data ->
     elementId = Some (data_svgId data) /\
     data_svgId data <> "" /\
     (data_svgId data, data_equipmentId data) ∈ elements) /\
  (is_Some found <->
   exists id equipmentId, elementId = Some id /\ id <> "" /\ (id, equipmentId) ∈ elements).
Proof.
  intros found elements.
  assert (Hcases :
            match found with
            | Some data =>
                elementId = Some (data_svgId data) /\ data_svgId data <> "" /\
                (data_svgId data, data_equipmentId data) ∈ elements
            | None =>
                forall id e, elementId = Some id -> id <> "" -> (id, e) ∉ elements
            end).
  { unfold found, elements, getRightClickableElementData, elementsOfType.
    destruct elementId as [id|]; cbn [truthy_string negb]; [|discriminate].
    destruct (String.eqb_spec id "") as [->|Hid]; cbn [negb nullish].
    { intros ? ? [= <-]. contradiction. }
    destruct elementType.
    - destruct nodes as [nodes|]; cbn [mbind option_bind nullish];
        [|intros ? ? _ _ H; inversion H].
      pose proof (find_by_id node_svgId node_equipmentId id nodes) as H.
      destruct (List.find _ nodes) as [node|]; cbn [mbind option_bind data_svgId data_equipmentId].
      + destruct H as [<- H]. now split_and!.
      + intros ? e [= <-] _. apply H.
    - destruct nodes as [nodes|]; cbn [mbind option_bind nullish];
        [|intros ? ? _ _ H; inversion H].
      pose proof (find_by_id node_svgId node_equipmentId id nodes) as H.
      destruct (List.find _ nodes) as [node|]; cbn [mbind option_bind data_svgId data_equipmentId].
      + destruct H as [<- H]. now split_and!.
      + intros ? e [= <-] _. apply H.
    - destruct textNodes as [textNodes|]; cbn [mbind option_bind nullish];
        [|intros ? ? _ _ H; inversion H].
      pose proof (find_by_id text_svgId text_equipmentId id textNodes) as H.
      destruct (List.find _ textNodes) as [node|];
        cbn [mbind option_bind data_svgId data_equipmentId].
      + destruct H as [<- H]. now split_and!.
      + intros ? e [= <-] _. apply H.
    - destruct edges as [edges|]; cbn [mbind option_bind nullish];
        [|intros ? ? _ _ H; inversion H].
      pose proof (find_by_id edge_svgId edge_equipmentId id edges) as H.
      destruct (List.find _ edges) as [edge|];
        cbn [mbind option_bind data_svgId data_equipmentId].
      + destruct H as [<- H]. now split_and!.
      + intros ? e [= <-] _. apply H.
    - intros ? ? _ _ H. inversion H. }
  destruct found as [data|].
  - split.
    + now intros ? [= <-].
    + split; [|eauto]. intros _. exists (data_svgId data), (data_equipmentId data).
      tauto.
  - split; [discriminate|]. split; [intros [? [=]]|].
    intros (id & e & Hid & Hne & Hin). now destruct (Hcases id e Hid Hne).
Qed.

(** ** Half-edges of an edge with an invisible side *)

(** X17. [getHalfVisibleHalfEdges] on a polyline of the document, for
    an edge whose visible node is in the metadata: a polyline of one
    point makes it throw; of a longer polyline it gives one half-edge,
    on the visible side, whose points are those of the polyline, moved
    with the node when an initial position is given, but for the first,
    which is the start of the edge on the annulus of the node, in the
    direction of the second point. *)
Theorem getHalfVisibleHalfEdges_polyline {num : Type} {NUM : Number num}
    (polylinePoints : list (Point num)) (edge : EdgeMetadata num) (side1 isFork : bool)
    (diagramMetadata : option (DiagramMetadata num)) (initialPosition : option (Point num))
    (svgParameters : SvgParameters num) (node : NodeMetadata num) :
  getNodeMetadata (if side1 then node1 edge else node2 edge) diagramMetadata = Some node ->
  polylinePoints <> [] ->
  let visibleSide := if side1 then "1" else "2" in
  let moved := match initialPosition with
               | Some initialPosition => getTranslatedPolyline polylinePoints node initialPosition
               | None => polylinePoints
               end in
  let halfEdges := getHalfVisibleHalfEdges (Some polylinePoints) edge visibleSide isFork
                     diagramMetadata initialPosition svgParameters in
  (length polylinePoints = 1%nat -> halfEdges = Throw) /\
  ((1 < length polylinePoints)%nat ->
   exists (halfEdge : HalfEdge num) (direction : Point num),
     halfEdges = Normal (if side1 then (Some halfEdge, None) else (None, Some halfEdge)) /\
     side halfEdge = visibleSide /\
     fork halfEdge = isFork /\
     moved !! 1%nat = Some direction /\
     edgePoints halfEdge =
       getEdgeStart (Some (if side1 then busNode1 edge else busNode2 edge))
                    (mkPoint (node_x node) (node_y node)) direction
                    (he_busOuterRadius halfEdge) svgParameters :: tail moved).
Proof.
  intros Hnode Hpoints visibleSide moved halfEdges.
  assert (Hside : String.eqb visibleSide "1" = side1) by now destruct side1.
  assert (Hlength : length moved = length polylinePoints).
  { unfold moved, getTranslatedPolyline. destruct initialPosition; [apply length_map|reflexivity]. }
  assert (Hrun : halfEdges =
                 match moved !! 1%nat with
                 | None => Throw
                 | Some direction =>
                     let nodeRadius :=
                       getNodeRadius
                         (getBusNodeMetadata (if side1 then busNode1 edge else busNode2 edge)
                                             diagramMetadata)
                         (Some node) svgParameters in
                     let halfEdge :=
                       {| side := visibleSide;
                          fork := isFork;
                          he_busOuterRadius := busOuterRadius nodeRadius;
                          he_voltageLevelRadius := voltageLevelRadius nodeRadius;
                          edgeInfoId := info_svgId <$>
                                          (if side1 then edgeInfo1 edge else edgeInfo2 edge);
                          edgePoints :=
                            <[0%nat := getEdgeStart
                                         (Some (if side1 then busNode1 edge else busNode2 edge))
                                         (mkPoint (node_x node) (node_y node)) direction
                                         (busOuterRadius nodeRadius) svgParameters]> moved |} in
                     Normal (if side1 then (Some halfEdge, None) else (None, Some halfEdge))
                 end).
  { unfold halfEdges, getHalfVisibleHalfEdges. rewrite Hside.
    destruct polylinePoints as [|first rest]; [contradiction|]. cbn [length Nat.eqb].
    unfold getNodeMetadata in Hnode. rewrite Hnode. fold moved.
    fold (getNodeMetadata (if side1 then node1 edge else node2 edge) diagramMetadata).
    unfold getNodeMetadata. rewrite Hnode.
    destruct (moved !! 1%nat); [|reflexivity]. now destruct side1. }
  rewrite Hrun. split.
  - intros Hone. rewrite lookup_ge_None_2 by lia. reflexivity.
  - intros Hmore. destruct (lookup_lt_is_Some_2 moved 1 ltac:(lia)) as [direction Hdirection].
    rewrite Hdirection. cbv zeta. eexists _, direction. split; [reflexivity|].
    cbn [side fork edgePoints he_busOuterRadius]. split_and!; try reflexivity.
    destruct moved; [discriminate|reflexivity].
Qed.

(** On the line of [bentViewer], invisible on its side 2: a polyline of
    one point throws, one of two points gives the half-edge of side 1. *)
Lemma getHalfVisibleHalfEdges_polyline_witness :
  getHalfVisibleHalfEdges (Some [point64 0 0]) (lineEdge float "4" "VL1L1VL2" "0" "2" "1" "3")
    "1" false (diagramMetadata bentViewer) None (defaultParameters float) = Throw /\
  exists halfEdge : HalfEdge float,
    getHalfVisibleHalfEdges (Some [point64 0 0; point64 50 0])
      (lineEdge float "4" "VL1L1VL2" "0" "2" "1" "3")
      "1" false (diagramMetadata bentViewer) (Some (point64 0 10)) (defaultParameters float) =
    Normal (Some halfEdge, None) /\
    tail (edgePoints halfEdge) = [point64 50 (-10)].
Proof.
  split.
  - exact (proj1 (getHalfVisibleHalfEdges_polyline [point64 0 0]
                    (lineEdge float "4" "VL1L1VL2" "0" "2" "1" "3") true false
                    (diagramMetadata bentViewer) None (defaultParameters float) _
                    eq_refl ltac:(discriminate)) eq_refl).
  - destruct (proj2 (getHalfVisibleHalfEdges_polyline [point64 0 0; point64 50 0]
                       (lineEdge float "4" "VL1L1VL2" "0" "2" "1" "3") true false
                       (diagramMetadata bentViewer) (Some (point64 0 10))
                       (defaultParameters float) _
                       eq_refl ltac:(discriminate)) ltac:(cbn; lia))
      as (halfEdge & direction & Hrun & _ & _ & _ & Hpoints).
    exists halfEdge. split; [exact Hrun|]. now rewrite Hpoints.
Defined.

(** ** The box of a text node, in exact arithmetic *)

(** X18. In exact arithmetic, the centre of a text box and its top left
    corner are found from each other:
    [getTextNodeTopLeftCornerFromCenter] undoes
    [getTextNodeCenterFromTopLeftCorner] and the other way round, for
    an element of any finite size and for no element at all, which
    counts as a box of size 0 whose centre is its corner. *)
Theorem text_box_centre_and_corner (textNode : option (R * R)) (p : Point R) :
  let element := (fun size => finElement size.1 size.2) <$> textNode in
  getTextNodeTopLeftCornerFromCenter element
    (getTextNodeCenterFromTopLeftCorner element (finPoint p)) = finPoint p /\
  getTextNodeCenterFromTopLeftCorner element
    (getTextNodeTopLeftCornerFromCenter element (finPoint p)) = finPoint p /\
  getTextNodeCenterFromTopLeftCorner None (finPoint p) = finPoint p.
Proof.
  intros element. unfold element, finPoint.
  unfold getTextNodeTopLeftCornerFromCenter, getTextNodeCenterFromTopLeftCorner,
    getTextNodeSize.
  destruct textNode as [[w h]|]; cbn;
    destruct (Req_dec_T 2 0) as [E|_]; try lra; cbn;
    split_and!; f_equal; f_equal; lra.
Qed.

(* ================================================================== *)
(** * The test suite of the repository, on binary64 numbers *)
(* ================================================================== *)

#[local] Set Warnings "-inexact-float".

Example test_degToRad : degToRad 60%float = 1.0471975511965976%float.
Proof. vm_compute. reflexivity. Qed.

Example test_round :
  round 147.672%float = 147.67%float /\ round 8.7%float = 8.7%float /\
  round 19.2894%float = 19.29%float /\ round 643%float = 643%float.
Proof. vm_compute. repeat split. Qed.

Example test_getMidPosition :
  let midPoint := getMidPosition (point64 10.46 5.818) (point64 45.24 90.122) in
  round (px midPoint) = 27.85%float /\ round (py midPoint) = 47.97%float.
Proof. vm_compute. split; reflexivity. Qed.

Example test_getNodeRadius :
  let radius n i := getNodeRadius (Some (busNodeAt n i)) None (defaultParameters float) in
  let triple a b c := {| busInnerRadius := a; busOuterRadius := b; voltageLevelRadius := c |} in
  radius 0%Z 0%Z = triple 0%float 27.5%float 30%float /\
  radius 1%Z 0%Z = triple 0%float 27.5%float 60%float /\
  radius 1%Z 1%Z = triple 32.5%float 57.5%float 60%float /\
  radius 2%Z 0%Z = triple 0%float 17.5%float 60%float /\
  radius 2%Z 1%Z = triple 22.5%float 37.5%float 60%float /\
  radius 2%Z 2%Z = triple 42.5%float 57.5%float 60%float.
Proof. vm_compute. repeat split. Qed.

Example test_getGroupedEdgesIndexKey :
  getGroupedEdgesIndexKey (lineEdge float "11" "VL3L1VL4" "4" "0" "7" "5") = "0_4".
Proof. reflexivity. Qed.

Example test_getEdgeType :
  getEdgeType
    {| edge_svgId := "8"; edge_equipmentId := "NGEN_NHV1";
       node1 := "0"; node2 := "2"; busNode1 := "1"; busNode2 := "3";
       type := Some "TwoWtEdge"; bendingPoints := @None (list (Point float));
       edgeInfoMiddle := None; edgeInfo1 := None; edgeInfo2 := None;
       invisible1 := None; invisible2 := None |} = Own TWO_WINDINGS_TRANSFORMER.
Proof. reflexivity. Qed.

Example test_addPointToList :
  let node1 := point64 25 0 in
  let node2 := point64 100 100 in
  addPointToList None node1 node2 (point64 75 75) = ([point64 75 75], 0%nat) /\
  addPointToList (Some [point64 75 75]) node1 node2 (point64 90 90) =
    ([point64 75 75; point64 90 90], 1%nat) /\
  addPointToList (Some [point64 75 75; point64 90 90]) node1 node2 (point64 80 80) =
    ([point64 75 75; point64 80 80; point64 90 90], 1%nat).
Proof. vm_compute. repeat split. Qed.

Example test_getEdgePoints :
  let edgePoints bends :=
    getEdgePoints (point64 0 0) None (point64 0 0) (point64 1000 0) None (point64 0 0)
                  (Some bends) in
  edgePoints [] = ([point64 0 0; point64 500 0], [point64 1000 0; point64 500 0]) /\
  edgePoints [point64 100 0] =
    ([point64 0 0; point64 100 0; point64 500 0], [point64 1000 0; point64 500 0]) /\
  edgePoints [point64 100 0; point64 300 0] =
    ([point64 0 0; point64 100 0; point64 300 0; point64 500 0],
     [point64 1000 0; point64 500 0]) /\
  edgePoints [point64 100 0; point64 300 0; point64 600 0] =
    ([point64 0 0; point64 100 0; point64 300 0; point64 500 0],
     [point64 1000 0; point64 600 0; point64 500 0]).
Proof. vm_compute. repeat split. Qed.

Example test_getSortedBusNodes :
  let bus1 := busNodeAt 2 0 in
  let bus2 := busNodeAt 2 1 in
  let bus3 := busNodeAt 2 2 in
  getSortedBusNodes (Some [bus1; bus3; bus2]) = [Some bus1; Some bus2; Some bus3] /\
  getSortedBusNodes (Some [bus2; bus3; bus1]) = [Some bus1; Some bus2; Some bus3].
Proof. vm_compute. split; reflexivity. Qed.

Example test_getNodeMove :
  getNodeMove (testNode "0" "VLGEN" (-452.59) (-274.01)) (point64 (-395.1338734) (-352.76892014)) =
  {| xOrig := (-452.59)%float; yOrig := (-274.01)%float;
     xNew := (-395.13)%float; yNew := (-352.77)%float |}.
Proof. vm_compute. reflexivity. Qed.

Example test_getTextNodeMoves :
  getTextNodeMoves (testTextNode "0-textnode" "VLGEN" "0")
                   (testNode "0" "VLGEN" (-452.59) (-274.01))
                   (point64 (-295.1338734) (-352.76892014))
                   (point64 (-295.1338734) (-327.76892014)) =
  ({| xOrig := 100%float; yOrig := (-40)%float;
      xNew := 157.46%float; yNew := (-78.76)%float |},
   {| xOrig := 100%float; yOrig := (-15)%float;
      xNew := 157.46%float; yNew := (-53.76)%float |}).
Proof. vm_compute. reflexivity. Qed.

Example test_getRightClickableElementData :
  let nodes := Some [testNode "0" "VLGEN" (-452.59) (-274.01);
                     testNode "2" "VLHV1" (-245.26) 34.3] in
  let textNodes := Some [testTextNode "0-textnode" "VLGEN" "0";
                         testTextNode "2-textnode" "VLHV1" "2"] in
  let edges := Some [testEdge "15" "L6-4-0" "12" "0" "13" "2" "LineEdge" None None;
                     testEdge "16" "T4-1-0" "0" "0" "2" "1" "TwoWtEdge" None None] in
  getRightClickableElementData (Some "0") ElementType.VOLTAGE_LEVEL nodes textNodes edges =
    Some {| data_svgId := "0"; data_equipmentId := "VLGEN";
            data_type := Some "VOLTAGE_LEVEL" |} /\
  getRightClickableElementData (Some "0-textnode") ElementType.TEXT_NODE nodes textNodes edges =
    Some {| data_svgId := "0-textnode"; data_equipmentId := "VLGEN";
            data_type := Some "TEXT_NODE" |} /\
  getRightClickableElementData (Some "16") ElementType.BRANCH nodes textNodes edges =
    Some {| data_svgId := "16"; data_equipmentId := "T4-1-0";
            data_type := Some "TWO_WINDINGS_TRANSFORMER" |}.
Proof. vm_compute. repeat split. Qed.

Example test_getViewBox :
  getViewBox (Some [testNode "0" "VL1" (-500) 0; testNode "1" "VL2" 0 (-500);
                    testNode "2" "VL3" 500 0; testNode "3" "VL4" 0 500])
             (Some [testTextNode "0-textnode" "VL1" "0"; testTextNode "1-textnode" "VL2" "1";
                    testTextNode "2-textnode" "VL3" "2"; testTextNode "3-textnode" "VL4" "3"])
             (defaultParameters float) =
  Normal {| vb_x := (-700)%float; vb_y := (-740)%float;
            vb_width := 1700%float; vb_height := 1500%float |}.
Proof. vm_compute. reflexivity. Qed.

Example test_getBendableLines :
  getBendableLines
    (Some [testEdge "100" "L15-37-1" "36" "0" "39" "5" "LineEdge" None (Some true);
           testEdge "103" "L37-38-1" "0" "41" "5" "44" "LineEdge" (Some true) None;
           testEdge "181" "L9006-9007-1" "21" "26" "24" "29" "LineEdge" None None;
           testEdge "178" "T9003-9038-1" "13" "77" "20" "86" "TwoWtEdge" None None]) =
  Normal [testEdge "181" "L9006-9007-1" "21" "26" "24" "29" "LineEdge" None None].
Proof. vm_compute. reflexivity. Qed.

Example test_computeVisibleArea :
  let box (x y width height : float) :=
    {| vb_x := x; vb_y := y; vb_width := width; vb_height := height |} in
  (computeVisibleArea (Some (box 0 0 100 100)) 250 250 = Some (box 0 0 100 100) /\
   computeVisibleArea (Some (box 100 100 200 150)) 1000 500 = Some (box 50 100 300 150) /\
   computeVisibleArea (Some (box (-500) 1500 1000 1000)) 500 1500 =
     Some (box (-500) 500 1000 3000))%float.
Proof. vm_compute. repeat split. Qed.

Example test_getTextNodeTopLeftCornerFromCenter :
  getTextNodeTopLeftCornerFromCenter
    (Some {| scrollWidth := 100%float; scrollHeight := 50%float |}) (point64 240 (-310)) =
  point64 190 (-335).
Proof. vm_compute. reflexivity. Qed.

Example test_getTextNodeCenterFromTopLeftCorner :
  getTextNodeCenterFromTopLeftCorner
    (Some {| scrollWidth := 100%float; scrollHeight := 50%float |}) (point64 290 (-285)) =
  point64 340 (-260).
Proof. vm_compute. reflexivity. Qed.
